(** * great-figures-app: quiz session and progression engine

    A shallow embedding of [src/js/utils.js] (utility functions and
    [QuizManager]) and [src/js/gamification.js] ([GamificationManager] and
    [StorageManager]), followed by the properties of the specification
    that were checked against it.

    Conventions of the embedding.
    - JavaScript numbers that hold counters, points, levels and
      experience are integers of [Z]; positions in arrays are [nat].
      Sums and differences of such integers are exact; the threshold of a
      level, a square times 100, is rounded as a double
      ([round_double]).
    - A read [object[name]] follows the prototype chain
      ([Object_prototype]).  [calculatePoints_value] is what
      [calculatePoints] returns for every difficulty; the session keeps
      its score as an integer, [calculatePoints], which is what the code
      does unless the difficulty is a name of [Object.prototype].
    - [localStorage] holds at most one item under the application key.
      [loadUserData] parses it afresh on every call, so every operation
      works on its own copy and the only shared state is the store, which
      is threaded explicitly through the operations (type [Op]).
    - The clock ([getToday], [Date.now]), the random source
      ([Math.random]), the built-ins [new Date(string)] and [JSON.parse],
      and the double-precision result of a percentage are inputs of the
      operations that use them.
    - Writing to [localStorage] succeeds; [debug] and [console] output is
      left out. *)

From Stdlib Require Import ZArith List String Ascii Lia Bool.
From stdpp Require Import base option list gmap strings.
From Equations Require Import Equations.

Open Scope Z_scope.

(** ** Utility functions ([src/js/utils.js], first part) *)

Module Utils.

(** [[shuffled[i], shuffled[j]] = [shuffled[j], shuffled[i]]]: both reads
    happen first, then position [i] is written, then position [j].  The
    loop of [shuffleArray] only uses positions inside the array. *)
Definition swap {A : Type} (shuffled : list A) (i j : nat) : list A :=
  match shuffled !! j, shuffled !! i with
  | Some y, Some x => <[j := x]> (<[i := y]> shuffled)
  | _, _ => shuffled
  end.

(** The loop [for (let i = length - 1; i > 0; i--)].  [rnd i] stands for
    the value of [Math.random()] drawn at position [i], already scaled:
    [j = floor(Math.random() * (i + 1))] lies in [0..i]. *)
Fixpoint shuffle_loop {A : Type} (rnd : nat -> nat) (i : nat) (shuffled : list A)
  : list A :=
  match i with
  | O => shuffled
  | S i' => shuffle_loop rnd i' (swap shuffled i (rnd i mod (i + 1))%nat)
  end.

Definition shuffleArray {A : Type} (rnd : nat -> nat) (array : list A) : list A :=
  shuffle_loop rnd (length array - 1)%nat array.

(** [Math.round(num / den)] in exact arithmetic, for [den <> 0]: the
    nearest integer, halves rounded up, that is [floor(num / den + 1/2)]. *)
Definition Math_round_ratio (num den : Z) : Z := (2 * num + den) / (2 * den).

(** [Math.round((value / total) * 100)] when the division and the product
    are exact. *)
Definition exact_percent (value total : Z) : Z := Math_round_ratio (value * 100) total.

(** [calculatePercentage(value, total)].  JavaScript computes
    [Math.round((value / total) * 100)] in double precision, where the
    quotient and the product are rounded; [percent value total] stands for
    its result and is a parameter of the operations that compute
    percentages. *)
Definition calculatePercentage (percent : Z -> Z -> Z) (value total : Z) : Z :=
  if total =? 0 then 0 else percent value total.

(** [array.slice(-n)]: the last [n] elements, all of them when the array
    is shorter. *)
Definition slice_last {A : Type} (n : nat) (array : list A) : list A :=
  drop (length array - n)%nat array.

(** [[...new Set(xs)]]: duplicates removed, first occurrences kept in
    order. *)
Fixpoint unique_in_order (seen xs : list string) : list string :=
  match xs with
  | [] => []
  | x :: xs' =>
      if bool_decide (x ∈ seen) then unique_in_order seen xs'
      else x :: unique_in_order (x :: seen) xs'
  end.

(** JavaScript truthiness of a value that is a string or absent. *)
Definition truthy (v : option string) : bool :=
  match v with
  | Some s => negb (String.eqb s EmptyString)
  | None => false
  end.

(** The property names every object inherits from [Object.prototype].
    Reading [object[name]] finds an own property first and then follows
    the prototype chain: for these names an object literal, or an object
    that [JSON.parse] built, that has no such key of its own answers with
    a function (with [Object.prototype] itself for [__proto__]), which is
    truthy and is not a number.  The application adds no property with a
    truthy value to [Object.prototype]. *)
Definition Object_prototype : list string :=
  [ "constructor"; "__defineGetter__"; "__defineSetter__"; "hasOwnProperty";
    "__lookupGetter__"; "__lookupSetter__"; "isPrototypeOf";
    "propertyIsEnumerable"; "toString"; "valueOf"; "__proto__";
    "toLocaleString" ].

Definition inherited (name : string) : bool := bool_decide (name ∈ Object_prototype).

(** The double nearest to an integer, ties to the even significand: the
    value a JavaScript number holds for an integer result.  Integers
    below [2^53] in magnitude are held as they are; beyond, 53
    significant bits are kept. *)
Definition round_double (z : Z) : Z :=
  let a := Z.abs z in
  let dropped := Z.log2 a - 52 in
  if dropped <=? 0 then z
  else
    let unit := 2 ^ dropped in
    let q := a / unit in
    let r := a mod unit in
    let q := if (unit <? 2 * r) || ((2 * r =? unit) && Z.odd q) then q + 1 else q in
    Z.sgn z * (q * unit).

(** [clamp(value, min, max)]: [Math.min(Math.max(value, min), max)]. *)
Definition clamp (value min max : Z) : Z := Z.min (Z.max value min) max.

(** [getRandomElement(array)].  [r] stands for the draw of
    [Math.random()]: the index [Math.floor(Math.random() * array.length)]
    lies below the length, and is 0 for an empty array, where the read
    gives [undefined] ([None]). *)
Definition getRandomElement {A : Type} (r : nat) (array : list A) : option A :=
  array !! (if (length array =? 0)%nat then O else r mod length array)%nat.

End Utils.

(** ** The persisted record and its store ([StorageManager]) *)

Module Storage.
Import Utils.

(** One entry of [statistics.categoryStats]. *)
Record CategoryStat : Type := { total : Z; correct : Z }.

Record Statistics : Type := {
  totalQuestions : Z;
  correctAnswers : Z;
  accuracyRate : Z;
  categoryStats : gmap string CategoryStat
}.

(** The argument of [addQuizToHistory], as [getResults] builds it. *)
Record QuizSummary : Type := {
  qs_difficulty : string;
  qs_score : Z;
  qs_correctAnswers : Z;
  qs_totalQuestions : Z;
  qs_accuracyRate : Z
}.

(** [{ ...quizResult, date: getToday(), timestamp: Date.now() }]. *)
Record HistoryEntry : Type := {
  h_summary : QuizSummary;
  h_date : string;
  h_timestamp : Z
}.

Record UserData : Type := {
  level : Z;
  experience : Z;
  totalPoints : Z;
  streak : Z;
  lastPlayDate : option string;
  unlockedFigures : list string;
  badges : list string;
  statistics : Statistics;
  quizHistory : list HistoryEntry
}.

Definition defaultUserData : UserData := {|
  level := 1;
  experience := 0;
  totalPoints := 0;
  streak := 0;
  lastPlayDate := None;
  unlockedFigures := [];
  badges := [];
  statistics := {| totalQuestions := 0; correctAnswers := 0;
                   accuracyRate := 0; categoryStats := ∅ |};
  quizHistory := []
|}.

(** Field assignments [userData.f = v]. *)
Definition set_level (v : Z) (u : UserData) : UserData :=
  {| level := v; experience := experience u; totalPoints := totalPoints u;
     streak := streak u; lastPlayDate := lastPlayDate u;
     unlockedFigures := unlockedFigures u; badges := badges u;
     statistics := statistics u; quizHistory := quizHistory u |}.

Definition set_experience (v : Z) (u : UserData) : UserData :=
  {| level := level u; experience := v; totalPoints := totalPoints u;
     streak := streak u; lastPlayDate := lastPlayDate u;
     unlockedFigures := unlockedFigures u; badges := badges u;
     statistics := statistics u; quizHistory := quizHistory u |}.

Definition set_totalPoints (v : Z) (u : UserData) : UserData :=
  {| level := level u; experience := experience u; totalPoints := v;
     streak := streak u; lastPlayDate := lastPlayDate u;
     unlockedFigures := unlockedFigures u; badges := badges u;
     statistics := statistics u; quizHistory := quizHistory u |}.

Definition set_streak (v : Z) (u : UserData) : UserData :=
  {| level := level u; experience := experience u; totalPoints := totalPoints u;
     streak := v; lastPlayDate := lastPlayDate u;
     unlockedFigures := unlockedFigures u; badges := badges u;
     statistics := statistics u; quizHistory := quizHistory u |}.

Definition set_lastPlayDate (v : option string) (u : UserData) : UserData :=
  {| level := level u; experience := experience u; totalPoints := totalPoints u;
     streak := streak u; lastPlayDate := v;
     unlockedFigures := unlockedFigures u; badges := badges u;
     statistics := statistics u; quizHistory := quizHistory u |}.

Definition set_unlockedFigures (v : list string) (u : UserData) : UserData :=
  {| level := level u; experience := experience u; totalPoints := totalPoints u;
     streak := streak u; lastPlayDate := lastPlayDate u;
     unlockedFigures := v; badges := badges u;
     statistics := statistics u; quizHistory := quizHistory u |}.

Definition set_badges (v : list string) (u : UserData) : UserData :=
  {| level := level u; experience := experience u; totalPoints := totalPoints u;
     streak := streak u; lastPlayDate := lastPlayDate u;
     unlockedFigures := unlockedFigures u; badges := v;
     statistics := statistics u; quizHistory := quizHistory u |}.

Definition set_statistics (v : Statistics) (u : UserData) : UserData :=
  {| level := level u; experience := experience u; totalPoints := totalPoints u;
     streak := streak u; lastPlayDate := lastPlayDate u;
     unlockedFigures := unlockedFigures u; badges := badges u;
     statistics := v; quizHistory := quizHistory u |}.

Definition set_quizHistory (v : list HistoryEntry) (u : UserData) : UserData :=
  {| level := level u; experience := experience u; totalPoints := totalPoints u;
     streak := streak u; lastPlayDate := lastPlayDate u;
     unlockedFigures := unlockedFigures u; badges := badges u;
     statistics := statistics u; quizHistory := v |}.

(** The content of [localStorage] under [storageKey], already parsed:
    [None] when there is no item. *)
Definition Store : Type := option UserData.

(** An operation reads and writes the store and returns a value. *)
Definition Op (A : Type) : Type := Store -> A * Store.

Definition ret {A : Type} (a : A) : Op A := fun st => (a, st).

Definition bind {A B : Type} (c : Op A) (k : A -> Op B) : Op B :=
  fun st => let '(a, st') := c st in k a st'.

Notation "x <- c ;; k" := (bind c (fun x => k))
  (at level 100, c at next level, k at level 200, right associativity).

(** [array.includes(x)]. *)
Definition includes (xs : list string) (x : string) : bool := bool_decide (x ∈ xs).

Definition loadUserData : Op (option UserData) := fun st => (st, st).

Definition saveUserData (userData : UserData) : Op unit :=
  fun _ => (tt, Some userData).

Definition initializeUserData : Op UserData :=
  existingData <- loadUserData ;;
  match existingData with
  | None => _ <- saveUserData defaultUserData ;; ret defaultUserData
  | Some d => ret d
  end.

Definition addPoints (points : Z) : Op unit :=
  userData <- loadUserData ;;
  match userData with
  | Some u => saveUserData (set_totalPoints (totalPoints u + points) u)
  | None => ret tt
  end.

(** [StorageManager.addExperience]: adds without any level-up. *)
Definition addExperience (exp : Z) : Op unit :=
  userData <- loadUserData ;;
  match userData with
  | Some u => saveUserData (set_experience (experience u + exp) u)
  | None => ret tt
  end.

Definition unlockFigure (figureId : string) : Op unit :=
  userData <- loadUserData ;;
  match userData with
  | Some u =>
      if negb (includes (unlockedFigures u) figureId)
      then saveUserData (set_unlockedFigures (unlockedFigures u ++ [figureId]) u)
      else ret tt
  | None => ret tt
  end.

Definition awardBadge (badgeId : string) : Op bool :=
  userData <- loadUserData ;;
  match userData with
  | Some u =>
      if negb (includes (badges u) badgeId)
      then _ <- saveUserData (set_badges (badges u ++ [badgeId]) u) ;; ret true
      else ret false
  | None => ret false
  end.

(** The argument of [updateStatistics]; a field that may be [undefined]
    is an option. *)
Record StatsUpdate : Type := {
  su_totalQuestions : option Z;
  su_correctAnswers : option Z;
  su_category : option string
}.

Definition add_totalQuestions (n : Z) (s : Statistics) : Statistics :=
  {| totalQuestions := totalQuestions s + n; correctAnswers := correctAnswers s;
     accuracyRate := accuracyRate s; categoryStats := categoryStats s |}.

Definition add_correctAnswers (n : Z) (s : Statistics) : Statistics :=
  {| totalQuestions := totalQuestions s; correctAnswers := correctAnswers s + n;
     accuracyRate := accuracyRate s; categoryStats := categoryStats s |}.

Definition set_accuracyRate (r : Z) (s : Statistics) : Statistics :=
  {| totalQuestions := totalQuestions s; correctAnswers := correctAnswers s;
     accuracyRate := r; categoryStats := categoryStats s |}.

Definition set_categoryStats (m : gmap string CategoryStat) (s : Statistics)
  : Statistics :=
  {| totalQuestions := totalQuestions s; correctAnswers := correctAnswers s;
     accuracyRate := accuracyRate s; categoryStats := m |}.

(** The body of [updateStatistics] on the loaded [statistics] object.
    [categoryStats] holds the keys of the stored object.  For a category
    that is no key of it but a name of [Object.prototype], the read
    [categoryStats[stats.category]] is truthy: no entry is created, and
    the two [+=] write [total] and [correct] on the inherited function or
    on [Object.prototype], not into the record that is saved. *)
Definition updateStatistics_body (percent : Z -> Z -> Z) (stats : StatsUpdate)
    (s : Statistics) : Statistics :=
  let s := match su_totalQuestions stats with
           | Some n => add_totalQuestions n s
           | None => s
           end in
  let s := match su_correctAnswers stats with
           | Some n => add_correctAnswers n s
           | None => s
           end in
  let s := if 0 <? totalQuestions s
           then set_accuracyRate
                  (calculatePercentage percent (correctAnswers s) (totalQuestions s)) s
           else s in
  match su_category stats with
  | Some category =>
      if truthy (Some category) then
        let counted (entry : CategoryStat) :=
          set_categoryStats
            (<[category :=
                 {| total := total entry + default 0 (su_totalQuestions stats);
                    correct := correct entry + default 0 (su_correctAnswers stats) |}]>
               (categoryStats s)) s in
        match categoryStats s !! category with
        | Some entry => counted entry
        | None =>
            if inherited category then s
            else counted {| total := 0; correct := 0 |}
        end
      else s
  | None => s
  end.

Definition updateStatistics (percent : Z -> Z -> Z) (stats : StatsUpdate) : Op unit :=
  userData <- loadUserData ;;
  match userData with
  | Some u =>
      saveUserData (set_statistics (updateStatistics_body percent stats (statistics u)) u)
  | None => ret tt
  end.

(** [addQuizToHistory(quizResult)]; [today] is [getToday()] and [now] is
    [Date.now()] at the time of the call. *)
Definition addQuizToHistory (quizResult : QuizSummary) (today : string) (now : Z)
  : Op unit :=
  userData <- loadUserData ;;
  match userData with
  | Some u =>
      let pushed := quizHistory u ++
                    [{| h_summary := quizResult; h_date := today; h_timestamp := now |}] in
      let kept := if (50 <? length pushed)%nat then slice_last 50 pushed else pushed in
      saveUserData (set_quizHistory kept u)
  | None => ret tt
  end.

Section Streak.

(** [new Date(s)] as milliseconds since the epoch; [None] is an invalid
    date, whose arithmetic is [NaN] and compares false with everything. *)
Variable Date_parse : string -> option Z.

(** [Math.floor((todayDate - lastDate) / (1000 * 60 * 60 * 24))]. *)
Definition diffDays (today lastPlayDate : string) : option Z :=
  match Date_parse lastPlayDate, Date_parse today with
  | Some lastDate, Some todayDate => Some ((todayDate - lastDate) / (1000 * 60 * 60 * 24))
  | _, _ => None
  end.

(** [updateStreak()]; [today] is [getToday()]. *)
Definition updateStreak (today : string) : Op Z :=
  userData <- loadUserData ;;
  match userData with
  | Some u =>
      if bool_decide (lastPlayDate u = Some today) then ret (streak u)
      else
        let u1 :=
          match lastPlayDate u with
          | Some last =>
              if truthy (Some last) then
                match diffDays today last with
                | Some d =>
                    if d =? 1 then set_streak (streak u + 1) u
                    else if 1 <? d then set_streak 1 u
                    else u
                | None => u
                end
              else set_streak 1 u
          | None => set_streak 1 u
          end in
        let u2 := set_lastPlayDate (Some today) u1 in
        _ <- saveUserData u2 ;; ret (streak u2)
  | None => ret 0
  end.

End Streak.

(** [resetUserData()]; [confirmed] is the answer to the [confirm] dialog. *)
Definition resetUserData (confirmed : bool) : Op unit :=
  if confirmed then saveUserData defaultUserData else ret tt.

End Storage.

(** ** The progression engine ([GamificationManager]) *)

Module Gamification.
Import Utils Storage.

Record Badge : Type := { name : string; icon : string; condition : string }.

Definition beginner : Badge :=
  {| name := "初心者"; icon := "🎓"; condition := "quiz_completed" |}.
Definition learner : Badge :=
  {| name := "学習者"; icon := "📖"; condition := "correct_50" |}.
Definition scholar : Badge :=
  {| name := "博識"; icon := "🎯"; condition := "correct_200" |}.
Definition perfectionist : Badge :=
  {| name := "完璧主義者"; icon := "💯"; condition := "perfect_quiz" |}.
Definition streak_7 : Badge :=
  {| name := "7日連続"; icon := "🔥"; condition := "streak_7" |}.
Definition streak_30 : Badge :=
  {| name := "30日連続"; icon := "⭐"; condition := "streak_30" |}.
Definition scientist_master : Badge :=
  {| name := "科学の巨人"; icon := "🔬"; condition := "category_scientist" |}.
Definition artist_master : Badge :=
  {| name := "芸術の達人"; icon := "🎨"; condition := "category_artist" |}.
Definition politician_master : Badge :=
  {| name := "政治の賢者"; icon := "⚖️"; condition := "category_politician" |}.
Definition inventor_master : Badge :=
  {| name := "発明の天才"; icon := "💡"; condition := "category_inventor" |}.
Definition philosopher_master : Badge :=
  {| name := "哲学の探求者"; icon := "🧠"; condition := "category_philosopher" |}.

(** [this.badges], in the order of the object literal. *)
Definition badges : list (string * Badge) :=
  [ ("beginner", beginner); ("learner", learner); ("scholar", scholar);
    ("perfectionist", perfectionist); ("streak_7", streak_7);
    ("streak_30", streak_30); ("scientist_master", scientist_master);
    ("artist_master", artist_master); ("politician_master", politician_master);
    ("inventor_master", inventor_master);
    ("philosopher_master", philosopher_master) ].

(** [this.badges[badgeId]] for an id that is no name of
    [Object.prototype]; [checkCategoryMaster] reads it for ids that end
    in [_master]. *)
Definition badge_of (badgeId : string) : option Badge :=
  snd <$> List.find (fun kv => String.eqb (fst kv) badgeId) badges.

(** [100 * Math.pow(level, 2)] in double precision: the square is
    rounded, and so is the product.  Both are exact while
    [100 * level^2] stays below [2^53].  [Math.pow] returns the square
    itself whenever it is representable and is taken as correctly rounded
    beyond. *)
Definition calculateRequiredExp (level : Z) : Z :=
  round_double (100 * round_double (level ^ 2)).

(** The [while] loop of [addExperience] terminates: while it runs the
    experience is non-negative and does not grow, and it stays the same
    only on the step that leaves level 0. *)
Definition loop_measure (userData : UserData) : nat :=
  Z.to_nat (2 * experience userData + (if level userData <=? 0 then 1 else 0)).

Equations? levelUpLoop (userData : UserData) (leveledUp : bool) (newLevel : Z)
  : UserData * bool * Z by wf (loop_measure userData) lt :=
levelUpLoop userData leveledUp newLevel
  with decide (calculateRequiredExp (level userData) <= experience userData) => {
  | left _ :=
      levelUpLoop
        (set_level (level userData + 1)
           (set_experience
              (experience userData - calculateRequiredExp (level userData)) userData))
        true (level userData + 1);
  | right _ := (userData, leveledUp, newLevel) }.
Proof.
  assert (Hround : forall z, 0 <= z -> (0 < z -> 0 < round_double z)
                                      /\ (z = 0 -> round_double z = 0)).
  { intros z Hz. split; [|intros ->; reflexivity]. intros Hpos.
    unfold round_double. rewrite (Z.abs_eq z), (Z.sgn_pos z) by lia.
    destruct (Z.leb_spec (Z.log2 z - 52) 0) as [|Hbig]; [lia|].
    pose proof (proj1 (Z.log2_spec z Hpos)) as Hlog.
    assert (Hunit : 0 < 2 ^ (Z.log2 z - 52)) by (apply Z.pow_pos_nonneg; lia).
    assert (Hle : 2 ^ (Z.log2 z - 52) <= 2 ^ Z.log2 z)
      by (apply Z.pow_le_mono_r; lia).
    assert (Hq : 1 <= z / 2 ^ (Z.log2 z - 52))
      by (apply Z.div_le_lower_bound; lia).
    set (unit := 2 ^ (Z.log2 z - 52)) in *. set (q := z / unit) in *.
    destruct (_ || _); cbv zeta; nia. }
  assert (Hreq : (level userData = 0 -> calculateRequiredExp (level userData) = 0)
                 /\ (level userData <> 0 -> 0 < calculateRequiredExp (level userData))).
  { unfold calculateRequiredExp. rewrite Z.pow_2_r. split; [intros ->; reflexivity|].
    intros Hlevel.
    assert (Hsquare : 0 < level userData * level userData) by nia.
    pose proof (proj1 (Hround _ (Z.lt_le_incl _ _ Hsquare)) Hsquare) as Hrounded.
    apply (Hround (100 * round_double (level userData * level userData))); lia. }
  destruct Hreq as [Hzero Hpos]. unfold loop_measure.
  cbn [level experience set_level set_experience].
  destruct (Z.eq_dec (level userData) 0) as [Hlevel|Hlevel].
  - specialize (Hzero Hlevel). rewrite Hlevel in *.
    change (0 + 1 <=? 0) with false. change (0 <=? 0) with true. lia.
  - specialize (Hpos Hlevel).
    destruct (Z.leb_spec (level userData) 0), (Z.leb_spec (level userData + 1) 0);
      lia.
Qed.

(** The experience taken by [k] successive level-ups that start at
    [level]: the sum of the thresholds of [level], [level + 1], ... *)
Fixpoint thresholds (level : Z) (k : nat) : Z :=
  match k with
  | O => 0
  | S k' => calculateRequiredExp level + thresholds (level + 1) k'
  end.

(** The record after [k] level-ups: the two fields the loop writes. *)
Definition after_levelups (k : nat) (u : UserData) : UserData :=
  set_level (level u + Z.of_nat k)
    (set_experience (experience u - thresholds (level u) k) u).

(** The object returned by [addExperience]; the four numbers are absent
    from [{ leveledUp: false }], returned when there is no record. *)
Record LevelUpInfo : Type := {
  leveledUp : bool;
  oldLevel : option Z;
  newLevel : option Z;
  currentExp : option Z;
  requiredExp : option Z
}.

Definition addExperience (exp : Z) : Op LevelUpInfo :=
  userData <- loadUserData ;;
  match userData with
  | None => ret {| leveledUp := false; oldLevel := None; newLevel := None;
                    currentExp := None; requiredExp := None |}
  | Some u =>
      let oldLevel := level u in
      let looped := levelUpLoop (set_experience (experience u + exp) u) false oldLevel in
      let u' := fst (fst looped) in
      let leveledUp := snd (fst looped) in
      let newLevel := snd looped in
      _ <- saveUserData u' ;;
      ret {| leveledUp := leveledUp; oldLevel := Some oldLevel;
              newLevel := Some newLevel; currentExp := Some (experience u');
              requiredExp := Some (calculateRequiredExp (level u')) |}
  end.

(** The own keys of the object literal [basePoints]. *)
Definition basePoints : gmap string Z :=
  <["beginner" := 10]> (<["intermediate" := 20]> (<["advanced" := 30]> ∅)).

(** [v || d] for a number that may be [undefined]. *)
Definition or_number (v : option Z) (d : Z) : Z :=
  match v with
  | Some n => if n =? 0 then d else n
  | None => d
  end.

(** [calculatePoints(difficulty, isCorrect, consecutiveCorrect)] as a
    number.  This is what the code returns for every difficulty that is
    an own key of [basePoints] or is found nowhere on the prototype chain;
    for the names of [Object.prototype] see [calculatePoints_value]. *)
Definition calculatePoints (difficulty : string) (isCorrect : bool)
    (consecutiveCorrect : Z) : Z :=
  if negb isCorrect then 0
  else
    let points := or_number (basePoints !! difficulty) 10 in
    let points := if 3 <=? consecutiveCorrect then points + 10 else points in
    let points := if 5 <=? consecutiveCorrect then points + 20 else points in
    points.

(** A value where the code expects a number.  [NotNumber] is a function,
    an object, or the text that [+=] builds when a number is added to one
    of them. *)
Inductive Value : Type :=
| Number (n : Z)
| NotNumber.

(** [v += k] for a number [k]: addition of numbers; appended text
    otherwise. *)
Definition add_number (v : Value) (k : Z) : Value :=
  match v with
  | Number n => Number (n + k)
  | NotNumber => NotNumber
  end.

(** [basePoints[difficulty] || 10]: the number of an own key; for a name
    of [Object.prototype] the function or object found there, which is
    truthy; 10 where the read gives [undefined]. *)
Definition basePoints_or_10 (difficulty : string) : Value :=
  match basePoints !! difficulty with
  | Some n => Number (if n =? 0 then 10 else n)
  | None => if inherited difficulty then NotNumber else Number 10
  end.

(** [calculatePoints(difficulty, isCorrect, consecutiveCorrect)] for every
    difficulty: what the code returns, number or not. *)
Definition calculatePoints_value (difficulty : string) (isCorrect : bool)
    (consecutiveCorrect : Z) : Value :=
  if negb isCorrect then Number 0
  else
    let points := basePoints_or_10 difficulty in
    let points := if 3 <=? consecutiveCorrect then add_number points 10 else points in
    let points := if 5 <=? consecutiveCorrect then add_number points 20 else points in
    points.

Definition calculateConsecutiveBonus (consecutiveCorrect : Z) : Z :=
  if 5 <=? consecutiveCorrect then 30
  else if 3 <=? consecutiveCorrect then 10
  else 0.

(** The argument of [checkBadgeConditions], as [getResults] builds it. *)
Record QuizResult : Type := {
  qr_correctAnswers : Z;
  qr_totalQuestions : Z;
  qr_difficulty : string
}.

(** One block of [checkBadgeConditions]:
    [if (!held) { if (cond) { if (storage.awardBadge(id)) newBadges.push(def) } }]. *)
Definition checkBadge (held cond : bool) (badgeId : string) (def : Badge)
    (newBadges : list Badge) : Op (list Badge) :=
  if negb held then
    if cond then
      awarded <- awardBadge badgeId ;;
      ret (if awarded then newBadges ++ [def] else newBadges)
    else ret newBadges
  else ret newBadges.

Definition checkBadgeConditions (quizResult : QuizResult) : Op (list Badge) :=
  userData <- loadUserData ;;
  match userData with
  | None => ret []
  | Some u =>
      let held := includes (Storage.badges u) in
      newBadges <- checkBadge (held "beginner") true "beginner" beginner [] ;;
      newBadges <- checkBadge (held "perfectionist")
                    (qr_correctAnswers quizResult =? qr_totalQuestions quizResult)
                    "perfectionist" perfectionist newBadges ;;
      newBadges <- checkBadge (held "learner")
                    (50 <=? correctAnswers (statistics u))
                    "learner" learner newBadges ;;
      newBadges <- checkBadge (held "scholar")
                    (200 <=? correctAnswers (statistics u))
                    "scholar" scholar newBadges ;;
      newBadges <- checkBadge (held "streak_7") (7 <=? streak u)
                    "streak_7" streak_7 newBadges ;;
      newBadges <- checkBadge (held "streak_30") (30 <=? streak u)
                    "streak_30" streak_30 newBadges ;;
      ret newBadges
  end.

(** The six blocks of [checkBadgeConditions] as a table, in the order of
    the source: badge id, badge definition, and the condition tested on
    the loaded record and the session. *)
Definition badgeChecks (quizResult : QuizResult) (u : UserData)
  : list (string * Badge * bool) :=
  [ ("beginner", beginner, true);
    ("perfectionist", perfectionist,
     qr_correctAnswers quizResult =? qr_totalQuestions quizResult);
    ("learner", learner, 50 <=? correctAnswers (statistics u));
    ("scholar", scholar, 200 <=? correctAnswers (statistics u));
    ("streak_7", streak_7, 7 <=? streak u);
    ("streak_30", streak_30, 30 <=? streak u) ].

(** The blocks of a table run one after the other; [held] is
    [userData.badges.includes] on the record loaded at the start. *)
Fixpoint checkBadges (held : string -> bool) (checks : list (string * Badge * bool))
    (newBadges : list Badge) : Op (list Badge) :=
  match checks with
  | [] => ret newBadges
  | c :: rest =>
      newBadges <- checkBadge (held (fst (fst c))) (snd c) (fst (fst c)) (snd (fst c))
                     newBadges ;;
      checkBadges held rest newBadges
  end.

(** A block awards its badge when the badge is not held and the condition
    is met. *)
Definition due (held : string -> bool) (c : string * Badge * bool) : bool :=
  negb (held (fst (fst c))) && snd c.

(** An entry of the figure catalog, with the two fields the engine reads. *)
Record Figure : Type := { f_id : string; f_category : string }.

Definition checkCategoryMaster (category : string) (allFigures : list Figure)
  : Op (option Badge) :=
  userData <- loadUserData ;;
  match userData with
  | None => ret None
  | Some u =>
      let badgeId := String.append category "_master" in
      if includes (Storage.badges u) badgeId then ret None
      else
        let categoryFigures :=
          List.filter (fun f => String.eqb (f_category f) category) allFigures in
        let allUnlocked :=
          forallb (fun f => includes (unlockedFigures u) (f_id f)) categoryFigures in
        if allUnlocked && (0 <? length categoryFigures)%nat then
          awarded <- awardBadge badgeId ;;
          ret (if awarded then badge_of badgeId else None)
        else ret None
  end.

Definition getAllBadges : Op (list (string * Badge * bool)) :=
  userData <- loadUserData ;;
  match userData with
  | None => ret []
  | Some u => ret (map (fun kv => (fst kv, snd kv, includes (Storage.badges u) (fst kv)))
                        badges)
  end.

End Gamification.

(** ** The quiz session ([QuizManager], [src/js/utils.js], second part) *)

Module Quiz.
Import Utils Storage.

(** A question of the catalog, with the fields the session reads. *)
Record Question : Type := {
  q_difficulty : string;
  q_question : string;
  q_options : list string;
  q_correctAnswer : nat;
  q_explanation : string;
  q_figureId : string
}.

(** An entry of [wrongAnswers]; an option text read outside the option
    list is [undefined]. *)
Record WrongAnswer : Type := {
  w_question : string;
  w_correctAnswer : option string;
  w_userAnswer : option string
}.

Record QuizManager : Type := {
  questions : list Question;
  currentQuestions : list Question;
  currentQuestionIndex : nat;
  score : Z;
  correctAnswers : Z;
  wrongAnswers : list WrongAnswer;
  consecutiveCorrect : Z;
  difficulty : string;
  isAnswered : bool
}.

(** The state the constructor builds. *)
Definition newQuizManager : QuizManager := {|
  questions := []; currentQuestions := []; currentQuestionIndex := 0%nat;
  score := 0; correctAnswers := 0; wrongAnswers := []; consecutiveCorrect := 0;
  difficulty := "beginner"; isAnswered := false
|}.

Definition selectQuestions (rnd : nat -> nat) (q : QuizManager)
    (difficulty : string) (count : nat) : list Question :=
  let availableQuestions :=
    List.filter (fun x => String.eqb (q_difficulty x) difficulty) (questions q) in
  let shuffled := shuffleArray rnd availableQuestions in
  take count shuffled.

(** [startQuiz(difficulty)]: the returned boolean and the state after the
    call.  The [alert] on the failing path shows a message and changes
    nothing of the session. *)
Definition startQuiz (rnd : nat -> nat) (difficulty : string) (q : QuizManager)
  : bool * QuizManager :=
  let q1 := {| questions := questions q;
               currentQuestions := currentQuestions q;
               currentQuestionIndex := 0%nat;
               score := 0;
               correctAnswers := 0;
               wrongAnswers := [];
               consecutiveCorrect := 0;
               difficulty := difficulty;
               isAnswered := isAnswered q |} in
  let q2 := {| questions := questions q1;
               currentQuestions := selectQuestions rnd q1 difficulty 10;
               currentQuestionIndex := currentQuestionIndex q1;
               score := score q1;
               correctAnswers := correctAnswers q1;
               wrongAnswers := wrongAnswers q1;
               consecutiveCorrect := consecutiveCorrect q1;
               difficulty := Quiz.difficulty q1;
               isAnswered := isAnswered q1 |} in
  if (length (currentQuestions q2) =? 0)%nat then (false, q2) else (true, q2).

Definition getCurrentQuestion (q : QuizManager) : option Question :=
  currentQuestions q !! currentQuestionIndex q.

(** How a call ends: with a value, or with the [TypeError] of reading a
    property of [undefined]. *)
Inductive completion (A : Type) : Type :=
| Returned (a : A)
| Threw.
Arguments Returned {A} a.
Arguments Threw {A}.

(** The feedback object of [checkAnswer]. *)
Record AnswerResult : Type := {
  isCorrect : bool;
  r_correctAnswer : nat;
  r_explanation : string;
  points : Z
}.

(** The correct branch of [checkAnswer]: both counters are incremented,
    then the points are computed and added to the score. *)
Definition scoreCorrect (q : QuizManager) : QuizManager :=
  let correctAnswers' := correctAnswers q + 1 in
  let consecutiveCorrect' := consecutiveCorrect q + 1 in
  let points := Gamification.calculatePoints (difficulty q) true consecutiveCorrect' in
  {| questions := questions q; currentQuestions := currentQuestions q;
     currentQuestionIndex := currentQuestionIndex q;
     score := score q + points;
     correctAnswers := correctAnswers';
     wrongAnswers := wrongAnswers q;
     consecutiveCorrect := consecutiveCorrect';
     difficulty := difficulty q; isAnswered := isAnswered q |}.

(** The incorrect branch of [checkAnswer]. *)
Definition recordWrong (question : Question) (selectedOption : nat) (q : QuizManager)
  : QuizManager :=
  {| questions := questions q; currentQuestions := currentQuestions q;
     currentQuestionIndex := currentQuestionIndex q;
     score := score q;
     correctAnswers := correctAnswers q;
     wrongAnswers := wrongAnswers q ++
       [{| w_question := q_question question;
           w_correctAnswer := q_options question !! q_correctAnswer question;
           w_userAnswer := q_options question !! selectedOption |}];
     consecutiveCorrect := 0;
     difficulty := difficulty q; isAnswered := isAnswered q |}.

Definition set_isAnswered (b : bool) (q : QuizManager) : QuizManager :=
  {| questions := questions q; currentQuestions := currentQuestions q;
     currentQuestionIndex := currentQuestionIndex q;
     score := score q; correctAnswers := correctAnswers q;
     wrongAnswers := wrongAnswers q; consecutiveCorrect := consecutiveCorrect q;
     difficulty := difficulty q; isAnswered := b |}.

(** [checkAnswer(selectedOption)]: [Returned None] is the [null] of a
    question that was already answered.  Without a current question the
    read of [question.correctAnswer] throws before anything is written. *)
Definition checkAnswer (selectedOption : nat) (q : QuizManager)
  : completion (option AnswerResult) * QuizManager :=
  if isAnswered q then (Returned None, q)
  else
    match getCurrentQuestion q with
    | None => (Threw, q)
    | Some question =>
        let isCorrect := (selectedOption =? q_correctAnswer question)%nat in
        let q1 := set_isAnswered true q in
        let q2 := if isCorrect then scoreCorrect q1
                  else recordWrong question selectedOption q1 in
        (Returned (Some
           {| isCorrect := isCorrect;
              r_correctAnswer := q_correctAnswer question;
              r_explanation := q_explanation question;
              points := if isCorrect
                        then Gamification.calculatePoints
                               (difficulty q2) true (consecutiveCorrect q2)
                        else 0 |}),
         q2)
    end.

Definition nextQuestion (q : QuizManager) : bool * QuizManager :=
  let q1 := set_isAnswered false q in
  let q2 := {| questions := questions q1; currentQuestions := currentQuestions q1;
               currentQuestionIndex := (currentQuestionIndex q1 + 1)%nat;
               score := score q1; correctAnswers := correctAnswers q1;
               wrongAnswers := wrongAnswers q1;
               consecutiveCorrect := consecutiveCorrect q1;
               difficulty := difficulty q1; isAnswered := isAnswered q1 |} in
  ((currentQuestionIndex q2 <? length (currentQuestions q2))%nat, q2).

(** [xs.forEach(f)] for an [f] that works on the store. *)
Fixpoint forEach {A : Type} (f : A -> Op unit) (xs : list A) : Op unit :=
  match xs with
  | [] => ret tt
  | x :: xs' => _ <- f x ;; forEach f xs'
  end.

Definition unlockFiguresFromQuiz (q : QuizManager) : Op unit :=
  let figureIds := map q_figureId (currentQuestions q) in
  let uniqueFigureIds := unique_in_order [] figureIds in
  forEach unlockFigure uniqueFigureIds.

(** The object returned by [getResults]. *)
Record Results : Type := {
  res_score : Z;
  res_correctAnswers : Z;
  res_totalQuestions : Z;
  res_accuracyRate : Z;
  res_wrongAnswers : list WrongAnswer;
  res_levelUpInfo : Gamification.LevelUpInfo;
  res_newBadges : list Gamification.Badge;
  res_newStreak : Z
}.

Section Results.

Variable percent : Z -> Z -> Z.
Variable Date_parse : string -> option Z.

(** [getResults()].  The clock is read by [updateStreak] ([streakDay]) and
    by [addQuizToHistory] ([historyDay], [now]). *)
Definition getResults (streakDay historyDay : string) (now : Z) (q : QuizManager)
  : Op Results :=
  let totalQuestions := Z.of_nat (length (currentQuestions q)) in
  let accuracyRate := calculatePercentage percent (correctAnswers q) totalQuestions in
  levelUpInfo <- Gamification.addExperience (score q) ;;
  _ <- updateStatistics percent
         {| su_totalQuestions := Some totalQuestions;
            su_correctAnswers := Some (correctAnswers q);
            su_category := None |} ;;
  newStreak <- updateStreak Date_parse streakDay ;;
  newBadges <- Gamification.checkBadgeConditions
                 {| Gamification.qr_correctAnswers := correctAnswers q;
                    Gamification.qr_totalQuestions := totalQuestions;
                    Gamification.qr_difficulty := difficulty q |} ;;
  _ <- unlockFiguresFromQuiz q ;;
  _ <- addQuizToHistory {| qs_difficulty := difficulty q;
                           qs_score := score q;
                           qs_correctAnswers := correctAnswers q;
                           qs_totalQuestions := totalQuestions;
                           qs_accuracyRate := accuracyRate |} historyDay now ;;
  ret {| res_score := score q;
         res_correctAnswers := correctAnswers q;
         res_totalQuestions := totalQuestions;
         res_accuracyRate := accuracyRate;
         res_wrongAnswers := wrongAnswers q;
         res_levelUpInfo := levelUpInfo;
         res_newBadges := newBadges;
         res_newStreak := newStreak |}.

End Results.

Definition getProgress (percent : Z -> Z -> Z) (q : QuizManager) : Z :=
  calculatePercentage percent (Z.of_nat (currentQuestionIndex q) + 1)
                      (Z.of_nat (length (currentQuestions q))).

End Quiz.

(** ** JSON values and the item kept in [localStorage] *)

Module Json.

#[warnings="-register-all"]
Inductive json : Type :=
| JNull
| JBool (b : bool)
| JNum (n : Z)
| JStr (s : string)
| JArr (items : list json)
| JObj (fields : list (string * json)).

(** [obj[key]] on a parsed value: [None] is [undefined]. *)
Definition field (key : string) (v : json) : option json :=
  match v with
  | JObj fields => snd <$> List.find (fun kv => String.eqb (fst kv) key) fields
  | _ => None
  end.

(** *** A reader for JSON text

    It covers the literals, integers, strings without escape sequences,
    arrays and objects, which is enough to run the operations below on
    concrete texts.  The operations themselves take the reader as a
    parameter. *)

Inductive token : Type :=
| TLBrace | TRBrace | TLBracket | TRBracket | TColon | TComma
| TString (s : string) | TNumber (n : Z) | TTrue | TFalse | TNullLit.

Definition is_digit (c : ascii) : bool :=
  let n := nat_of_ascii c in ((48 <=? n) && (n <=? 57))%nat.

Definition is_space (c : ascii) : bool :=
  let n := nat_of_ascii c in
  ((n =? 32) || (n =? 9) || (n =? 10) || (n =? 13))%nat.

Fixpoint lex_digits (cs : list ascii) (acc : Z) : Z * list ascii :=
  match cs with
  | c :: cs' =>
      if is_digit c
      then lex_digits cs' (10 * acc + Z.of_nat (nat_of_ascii c - 48))
      else (acc, cs)
  | [] => (acc, [])
  end.

(** The characters up to the closing quote; a backslash or a control
    character is outside the fragment. *)
Fixpoint lex_string (cs : list ascii) (acc : list ascii)
  : option (string * list ascii) :=
  match cs with
  | [] => None
  | c :: cs' =>
      if (nat_of_ascii c =? 34)%nat
      then Some (string_of_list_ascii (rev acc), cs')
      else if ((nat_of_ascii c =? 92) || (nat_of_ascii c <? 32))%nat then None
      else lex_string cs' (c :: acc)
  end.

Definition lex_number (cs : list ascii) : option (Z * list ascii) :=
  match cs with
  | c :: d :: _ =>
      if ((nat_of_ascii c =? 48) && is_digit d)%nat then None
      else if is_digit c then Some (lex_digits cs 0) else None
  | c :: _ => if is_digit c then Some (lex_digits cs 0) else None
  | [] => None
  end.

Definition strip_prefix (p : string) (cs : list ascii) : option (list ascii) :=
  let ps := list_ascii_of_string p in
  if bool_decide (take (length ps) cs = ps) then Some (drop (length ps) cs) else None.

Fixpoint lex (fuel : nat) (cs : list ascii) : option (list token) :=
  match fuel with
  | O => None
  | S fuel' =>
      match cs with
      | [] => Some []
      | c :: cs' =>
          let n := nat_of_ascii c in
          if is_space c then lex fuel' cs'
          else if (n =? 123)%nat then cons TLBrace <$> lex fuel' cs'
          else if (n =? 125)%nat then cons TRBrace <$> lex fuel' cs'
          else if (n =? 91)%nat then cons TLBracket <$> lex fuel' cs'
          else if (n =? 93)%nat then cons TRBracket <$> lex fuel' cs'
          else if (n =? 58)%nat then cons TColon <$> lex fuel' cs'
          else if (n =? 44)%nat then cons TComma <$> lex fuel' cs'
          else if (n =? 34)%nat then
            match lex_string cs' [] with
            | Some (s, rest) => cons (TString s) <$> lex fuel' rest
            | None => None
            end
          else if (n =? 45)%nat then
            match lex_number cs' with
            | Some (m, rest) => cons (TNumber (- m)) <$> lex fuel' rest
            | None => None
            end
          else if is_digit c then
            match lex_number cs with
            | Some (m, rest) => cons (TNumber m) <$> lex fuel' rest
            | None => None
            end
          else
            match strip_prefix "true" cs, strip_prefix "false" cs,
                  strip_prefix "null" cs with
            | Some rest, _, _ => cons TTrue <$> lex fuel' rest
            | _, Some rest, _ => cons TFalse <$> lex fuel' rest
            | _, _, Some rest => cons TNullLit <$> lex fuel' rest
            | _, _, _ => None
            end
      end
  end.

Fixpoint parse_value (fuel : nat) (ts : list token) {struct fuel}
  : option (json * list token) :=
  match fuel with
  | O => None
  | S fuel' =>
      match ts with
      | TNullLit :: rest => Some (JNull, rest)
      | TTrue :: rest => Some (JBool true, rest)
      | TFalse :: rest => Some (JBool false, rest)
      | TNumber n :: rest => Some (JNum n, rest)
      | TString s :: rest => Some (JStr s, rest)
      | TLBracket :: TRBracket :: rest => Some (JArr [], rest)
      | TLBracket :: rest => parse_items fuel' rest []
      | TLBrace :: TRBrace :: rest => Some (JObj [], rest)
      | TLBrace :: rest => parse_fields fuel' rest []
      | _ => None
      end
  end
with parse_items (fuel : nat) (ts : list token) (acc : list json) {struct fuel}
  : option (json * list token) :=
  match fuel with
  | O => None
  | S fuel' =>
      match parse_value fuel' ts with
      | Some (v, TComma :: rest) => parse_items fuel' rest (acc ++ [v])
      | Some (v, TRBracket :: rest) => Some (JArr (acc ++ [v]), rest)
      | _ => None
      end
  end
with parse_fields (fuel : nat) (ts : list token) (acc : list (string * json))
    {struct fuel} : option (json * list token) :=
  match fuel with
  | O => None
  | S fuel' =>
      match ts with
      | TString key :: TColon :: ts' =>
          match parse_value fuel' ts' with
          | Some (v, TComma :: rest) => parse_fields fuel' rest (acc ++ [(key, v)])
          | Some (v, TRBrace :: rest) => Some (JObj (acc ++ [(key, v)]), rest)
          | _ => None
          end
      | _ => None
      end
  end.

(** [JSON.parse(text)] on the fragment; [None] is the [SyntaxError]. *)
Definition JSON_parse (text : string) : option json :=
  let cs := list_ascii_of_string text in
  match lex (S (length cs)) cs with
  | Some ts =>
      match parse_value (S (length ts)) ts with
      | Some (v, []) => Some v
      | _ => None
      end
  | None => None
  end.

End Json.

(** ** Import of a record ([StorageManager.importData]) *)

Module RawStorage.
Import Utils Storage Json.

(** The item under [storageKey] as the value its text parses to; [None]
    when there is no item.  [saveUserData] writes [JSON.stringify] of its
    argument, whatever that argument is. *)
Definition RawStore : Type := option json.

Definition saveUserData (userData : json) (raw : RawStore) : RawStore :=
  Some userData.

(** What [JSON.stringify] writes for a record. *)
Definition CategoryStat_toJSON (c : CategoryStat) : json :=
  JObj [("total", JNum (total c)); ("correct", JNum (correct c))].

Definition Statistics_toJSON (s : Statistics) : json :=
  JObj [("totalQuestions", JNum (totalQuestions s));
        ("correctAnswers", JNum (correctAnswers s));
        ("accuracyRate", JNum (accuracyRate s));
        ("categoryStats",
         JObj (map (fun kv => (fst kv, CategoryStat_toJSON (snd kv)))
                   (map_to_list (categoryStats s))))].

Definition HistoryEntry_toJSON (h : HistoryEntry) : json :=
  JObj [("difficulty", JStr (qs_difficulty (h_summary h)));
        ("score", JNum (qs_score (h_summary h)));
        ("correctAnswers", JNum (qs_correctAnswers (h_summary h)));
        ("totalQuestions", JNum (qs_totalQuestions (h_summary h)));
        ("accuracyRate", JNum (qs_accuracyRate (h_summary h)));
        ("date", JStr (h_date h));
        ("timestamp", JNum (h_timestamp h))].

Definition UserData_toJSON (u : UserData) : json :=
  JObj [("level", JNum (level u));
        ("experience", JNum (experience u));
        ("totalPoints", JNum (totalPoints u));
        ("streak", JNum (streak u));
        ("lastPlayDate", from_option JStr JNull (lastPlayDate u));
        ("unlockedFigures", JArr (map JStr (unlockedFigures u)));
        ("badges", JArr (map JStr (badges u)));
        ("statistics", Statistics_toJSON (statistics u));
        ("quizHistory", JArr (map HistoryEntry_toJSON (quizHistory u)))].

Definition persisted (st : Store) : RawStore := UserData_toJSON <$> st.

(** Structural integrity of a parsed value: it has the fields of
    [defaultUserData], each of the kind found there. *)
Definition is_number (v : option json) : bool :=
  match v with Some (JNum _) => true | _ => false end.

Definition is_string_array (v : option json) : bool :=
  match v with
  | Some (JArr items) =>
      forallb (fun x => match x with JStr _ => true | _ => false end) items
  | _ => false
  end.

Definition is_array (v : option json) : bool :=
  match v with Some (JArr _) => true | _ => false end.

Definition is_object (v : option json) : bool :=
  match v with Some (JObj _) => true | _ => false end.

Definition is_date_or_null (v : option json) : bool :=
  match v with Some JNull | Some (JStr _) => true | _ => false end.

Definition is_statistics (v : option json) : bool :=
  match v with
  | Some s =>
      is_number (field "totalQuestions" s) && is_number (field "correctAnswers" s)
      && is_number (field "accuracyRate" s) && is_object (field "categoryStats" s)
  | None => false
  end.

Definition hasUserDataShape (v : json) : bool :=
  is_number (field "level" v) && is_number (field "experience" v)
  && is_number (field "totalPoints" v) && is_number (field "streak" v)
  && is_date_or_null (field "lastPlayDate" v)
  && is_string_array (field "unlockedFigures" v)
  && is_string_array (field "badges" v)
  && is_statistics (field "statistics" v)
  && is_array (field "quizHistory" v).

(** What the user sees at the end of [importData]. *)
Inductive ImportOutcome : Type :=
| PageReloaded
| AlertShown (message : string).

Section ImportData.

(** [JSON.parse]; [None] is the thrown [SyntaxError]. *)
Variable JSON_parse : string -> option json.

(** [importData(jsonData)]: the [try] block saves what [JSON.parse]
    returns and reloads the page; the [catch] block shows the alert. *)
Definition importData (jsonData : string) (raw : RawStore)
  : ImportOutcome * RawStore :=
  match JSON_parse jsonData with
  | Some userData => (PageReloaded, saveUserData userData raw)
  | None => (AlertShown "データのインポートに失敗しました。", raw)
  end.

End ImportData.

End RawStorage.

(** ** Calendar dates as [formatDate] writes them *)

Module IsoDate.

Definition digit (c : ascii) : option Z :=
  if Json.is_digit c then Some (Z.of_nat (nat_of_ascii c - 48)) else None.

Definition number (cs : list ascii) : option Z :=
  foldl (fun acc c => match acc, digit c with
                      | Some n, Some d => Some (10 * n + d)
                      | _, _ => None
                      end) (Some 0) cs.

(** Days from 1970-01-01 to the given day of the proleptic Gregorian
    calendar (years counted from March, in eras of 400 years). *)
Definition days_from_civil (y m d : Z) : Z :=
  let y' := if m <=? 2 then y - 1 else y in
  let era := y' / 400 in
  let yoe := y' - era * 400 in
  let doy := (153 * (m + (if 2 <? m then -3 else 9)) + 2) / 5 + d - 1 in
  let doe := yoe * 365 + yoe / 4 - yoe / 100 + doy in
  era * 146097 + doe - 719468.

(** [new Date("YYYY-MM-DD").getTime()]: midnight UTC of that day, in
    milliseconds; [None] for a text of another form. *)
Definition Date_parse (text : string) : option Z :=
  match list_ascii_of_string text with
  | [y1; y2; y3; y4; s1; m1; m2; s2; d1; d2] =>
      if ((nat_of_ascii s1 =? 45) && (nat_of_ascii s2 =? 45))%nat then
        match number [y1; y2; y3; y4], number [m1; m2], number [d1; d2] with
        | Some y, Some m, Some d =>
            if (1 <=? m) && (m <=? 12) && (1 <=? d) && (d <=? 31)
            then Some (days_from_civil y m d * 86400000)
            else None
        | _, _, _ => None
        end
      else None
  | _ => None
  end.

End IsoDate.

(** ** Scenarios: repeated calls, and concrete sessions and records used
    in the examples *)

Module Scenarios.
Import Utils Storage Quiz.

(** A completed session as [addQuizToHistory] sees it: the summary, and
    the day and time of the call. *)
Definition Session : Type := (QuizSummary * string * Z)%type.

(** The entry that [addQuizToHistory] pushes for a session. *)
Definition entry_of (s : Session) : HistoryEntry :=
  {| h_summary := fst (fst s); h_date := snd (fst s); h_timestamp := snd s |}.

(** One call of [addQuizToHistory] per session, in order. *)
Fixpoint addQuizzesToHistory (sessions : list Session) : Op unit :=
  match sessions with
  | [] => ret tt
  | s :: rest =>
      _ <- addQuizToHistory (fst (fst s)) (snd (fst s)) (snd s) ;;
      addQuizzesToHistory rest
  end.

(** The [n]-th session of a player who scores [10 * n] points on day
    [2024-01-01], at time [n]. *)
Definition numbered_session (n : nat) : Session :=
  ({| qs_difficulty := "beginner"; qs_score := 10 * Z.of_nat n;
      qs_correctAnswers := 10; qs_totalQuestions := 10; qs_accuracyRate := 100 |},
   "2024-01-01", Z.of_nat n).

(** A session in the middle of a beginner quiz, used in the examples. *)
Definition sample_question : Question :=
  {| q_difficulty := "beginner"; q_question := "Who formulated the laws of motion?";
     q_options := ["Newton"; "Goethe"; "Bismarck"; "Plato"]; q_correctAnswer := 0%nat;
     q_explanation := "Newton published them in 1687."; q_figureId := "newton" |}.

Definition sample_session : QuizManager :=
  {| questions := [sample_question]; currentQuestions := [sample_question];
     currentQuestionIndex := 0%nat; score := 50; correctAnswers := 4;
     wrongAnswers := []; consecutiveCorrect := 4; difficulty := "beginner";
     isAnswered := false |}.

(** The operations that update the stored record: those a session
    performs, and the other operations of the engine that update single
    fields of it.  The operations that replace the record, or a field of
    it, by what the user supplies are not among them: [resetUserData],
    [importData] and [updateField]. *)
Inductive Operation : Type :=
| InitializeUserData
| AddPoints (points : Z)
| StorageAddExperience (exp : Z)
| UnlockFigure (figureId : string)
| AwardBadge (badgeId : string)
| UpdateStatistics (stats : StatsUpdate)
| AddQuizToHistory (quizResult : QuizSummary) (today : string) (now : Z)
| UpdateStreak (today : string)
| AddExperience (exp : Z)
| CheckBadgeConditions (quizResult : Gamification.QuizResult)
| CheckCategoryMaster (category : string) (allFigures : list Gamification.Figure)
| GetResults (streakDay historyDay : string) (now : Z) (q : QuizManager).

(** An operation run for its effect on the store. *)
Definition discard {A : Type} (c : Op A) : Op unit := _ <- c ;; ret tt.

Definition perform (percent : Z -> Z -> Z) (Date_parse : string -> option Z)
    (op : Operation) : Op unit :=
  match op with
  | InitializeUserData => discard initializeUserData
  | AddPoints points => addPoints points
  | StorageAddExperience exp => Storage.addExperience exp
  | UnlockFigure figureId => unlockFigure figureId
  | AwardBadge badgeId => discard (awardBadge badgeId)
  | UpdateStatistics stats => updateStatistics percent stats
  | AddQuizToHistory quizResult today now => addQuizToHistory quizResult today now
  | UpdateStreak today => discard (updateStreak Date_parse today)
  | AddExperience exp => discard (Gamification.addExperience exp)
  | CheckBadgeConditions quizResult =>
      discard (Gamification.checkBadgeConditions quizResult)
  | CheckCategoryMaster category allFigures =>
      discard (Gamification.checkCategoryMaster category allFigures)
  | GetResults streakDay historyDay now q =>
      discard (getResults percent Date_parse streakDay historyDay now q)
  end.

Fixpoint performAll (percent : Z -> Z -> Z) (Date_parse : string -> option Z)
    (ops : list Operation) : Op unit :=
  match ops with
  | [] => ret tt
  | op :: rest =>
      _ <- perform percent Date_parse op ;; performAll percent Date_parse rest
  end.

(** An operation keeps the badges when, run on a stored record, it leaves
    a record whose badge list starts with the badge list it found. *)
Definition keeps_badges {A : Type} (c : Op A) : Prop :=
  forall u, exists a u' more,
    c (Some u) = (a, Some u') /\ badges u' = badges u ++ more.

(** A player with a streak of 3 days who last played on 2024-02-29. *)
Definition played_on_leap_day : UserData :=
  set_lastPlayDate (Some "2024-02-29") (set_streak 3 defaultUserData).

End Scenarios.

(** ** The flow of a session, as the application drives it *)

Module Play.
Import Utils Storage Quiz Scenarios.

(** [startDailyChallenge()] draws its difficulty from this array. *)
Definition difficulties : list string := ["beginner"; "intermediate"; "advanced"].

Definition dailyChallengeDifficulty (r : nat) : option string :=
  getRandomElement r difficulties.

(** One question of a session: [selectAnswer] calls [checkAnswer], then
    the next-question button calls [nextQuestion]. *)
Definition answerQuestion (selectedOption : nat) (q : QuizManager) : QuizManager :=
  snd (nextQuestion (snd (checkAnswer selectedOption q))).

(** The questions of a session answered in turn with the given options. *)
Fixpoint answerQuestions (selected : list nat) (q : QuizManager) : QuizManager :=
  match selected with
  | [] => q
  | selectedOption :: rest => answerQuestions rest (answerQuestion selectedOption q)
  end.

(** The questions that the next [n] answers are given to. *)
Definition asked_next (n : nat) (q : QuizManager) : list Question :=
  take n (drop (currentQuestionIndex q) (currentQuestions q)).

(** The entry that [checkAnswer] pushes to [wrongAnswers] for a question
    answered with [selectedOption]; none for the correct option. *)
Definition wrong_entry (question : Question) (selectedOption : nat)
  : option WrongAnswer :=
  if (selectedOption =? q_correctAnswer question)%nat then None
  else Some {| w_question := q_question question;
               w_correctAnswer := q_options question !! q_correctAnswer question;
               w_userAnswer := q_options question !! selectedOption |}.

(** The number of correct options among the answers given. *)
Definition count_correct (asked : list Question) (selected : list nat) : Z :=
  Z.of_nat (length (List.filter
                      (fun qs => (snd qs =? q_correctAnswer (fst qs))%nat)
                      (zip asked selected))).

(** The bonus points of [n] correct answers in a row from the start of a
    session: 10 for each answer from the third on, 20 more for each from
    the fifth on. *)
Definition streak_bonus (n : Z) : Z := 10 * Z.max 0 (n - 2) + 20 * Z.max 0 (n - 4).

(** A manager with a pool of 12 beginner questions, a beginner session
    just started on it, and the same session with every question answered
    correctly. *)
Definition stocked_manager : QuizManager :=
  {| questions := replicate 12 sample_question; currentQuestions := [];
     currentQuestionIndex := 0%nat; score := 0; correctAnswers := 0;
     wrongAnswers := []; consecutiveCorrect := 0; difficulty := "beginner";
     isAnswered := false |}.

Definition fresh_session : QuizManager :=
  snd (startQuiz (fun i => i) "beginner" stocked_manager).

Definition perfect_session : QuizManager :=
  answerQuestions (map q_correctAnswer (currentQuestions fresh_session)) fresh_session.

(** A session whose counters are those of answered questions. *)
Definition sane_session (q : QuizManager) : Prop :=
  0 <= score q
  /\ 0 <= correctAnswers q <= Z.of_nat (length (currentQuestions q)).

(** The record as the engine keeps it. *)
Definition wellFormed (u : UserData) : Prop :=
  1 <= level u
  /\ 0 <= experience u < Gamification.calculateRequiredExp (level u)
  /\ 0 <= streak u
  /\ (lastPlayDate u <> None -> 1 <= streak u)
  /\ NoDup (badges u)
  /\ NoDup (unlockedFigures u)
  /\ (length (quizHistory u) <= 50)%nat
  /\ 0 <= Storage.correctAnswers (statistics u) <= totalQuestions (statistics u).

(** A completed session with the clock readings of its [getResults]. *)
Record Finished : Type := {
  fin_session : QuizManager;
  fin_streakDay : string;
  fin_historyDay : string;
  fin_now : Z
}.

(** [getResults] called at the end of each session, in order. *)
Fixpoint finishSessions (percent : Z -> Z -> Z) (Date_parse : string -> option Z)
    (sessions : list Finished) : Op unit :=
  match sessions with
  | [] => ret tt
  | f :: rest =>
      _ <- getResults percent Date_parse (fin_streakDay f) (fin_historyDay f)
             (fin_now f) (fin_session f) ;;
      finishSessions percent Date_parse rest
  end.

(** [updateStreak] called once on each of the given days, in order; the
    value of the last call is returned (0 for no day). *)
Fixpoint playDays (Date_parse : string -> option Z) (days : list string) (last : Z)
  : Op Z :=
  match days with
  | [] => ret last
  | day :: rest =>
      newStreak <- updateStreak Date_parse day ;;
      playDays Date_parse rest newStreak
  end.

(** Each day of the list is a date, the day after the one before it. *)
Fixpoint consecutive_days (Date_parse : string -> option Z) (days : list string)
  : Prop :=
  match days with
  | day :: (next :: _) as rest =>
      day <> EmptyString
      /\ diffDays Date_parse next day = Some 1
      /\ consecutive_days Date_parse rest
  | _ => True
  end.

End Play.

(** * Properties *)

Import Utils Storage Scenarios.

(** ** Level thresholds *)

Section Thresholds.
Import Gamification.

Lemma round_double_exact (z : Z) : 0 <= z < 2 ^ 53 -> round_double z = z.
Proof.
  intros [Hz Hlt]. unfold round_double. rewrite Z.abs_eq by lia.
  destruct (Z.leb_spec (Z.log2 z - 52) 0) as [|Hbig]; [reflexivity|].
  assert (Hpos : 0 < z) by (destruct (Z.eq_dec z 0) as [->|]; [simpl in Hbig|]; lia).
  apply (Z.log2_lt_pow2 z 53 Hpos) in Hlt. lia.
Qed.

(** Beyond [2^53] the rounded value stays between the powers of two that
    enclose the integer. *)
Lemma round_double_bounds (z : Z) :
  2 ^ 53 <= z -> 2 ^ Z.log2 z <= round_double z <= 2 ^ (Z.log2 z + 1).
Proof.
  intros Hbig. assert (Hpos : 0 < z) by lia.
  assert (Hlog : 53 <= Z.log2 z) by (apply Z.log2_le_pow2; lia).
  destruct (Z.log2_spec z Hpos) as [Hlow Hhigh].
  unfold round_double. rewrite (Z.abs_eq z), (Z.sgn_pos z) by lia.
  destruct (Z.leb_spec (Z.log2 z - 52) 0) as [|_]; [lia|].
  set (unit := 2 ^ (Z.log2 z - 52)) in *.
  assert (Hunit : 0 < unit) by (apply Z.pow_pos_nonneg; lia).
  assert (Hsplit : 2 ^ Z.log2 z = 2 ^ 52 * unit).
  { unfold unit. rewrite <- Z.pow_add_r by lia. f_equal. lia. }
  assert (Hnext : 2 ^ (Z.log2 z + 1) = 2 ^ 53 * unit).
  { unfold unit. rewrite <- Z.pow_add_r by lia. f_equal. lia. }
  replace (Z.succ (Z.log2 z)) with (Z.log2 z + 1) in Hhigh by lia.
  rewrite Hsplit, Hnext in *.
  pose proof (Z.div_mod z unit ltac:(lia)) as Hdiv.
  pose proof (Z.mod_pos_bound z unit Hunit) as Hmod.
  set (q := z / unit) in *. set (r := z mod unit) in *.
  assert (Hq : 2 ^ 52 <= q < 2 ^ 53) by nia.
  destruct (_ || _); nia.
Qed.

Lemma round_double_mono (a b : Z) :
  0 <= a <= b -> round_double a <= round_double b.
Proof.
  intros [Ha Hab].
  destruct (Z.lt_ge_cases a (2 ^ 53)) as [Hsmall|Hbig].
  { rewrite (round_double_exact a) by lia.
    destruct (Z.lt_ge_cases b (2 ^ 53)) as [Hb|Hb];
      [rewrite round_double_exact; lia|].
    pose proof (round_double_bounds b Hb) as [Hlow _].
    assert (2 ^ 53 <= 2 ^ Z.log2 b)
      by (apply Z.pow_le_mono_r; [lia|apply Z.log2_le_pow2; lia]).
    lia. }
  assert (Hb : 2 ^ 53 <= b) by lia.
  pose proof (Z.log2_le_mono a b Hab) as Hlogs.
  destruct (Z.eq_dec (Z.log2 a) (Z.log2 b)) as [Hsame|Hless].
  - (* the same spacing *)
    assert (Hlog : 53 <= Z.log2 a) by (apply Z.log2_le_pow2; lia).
    unfold round_double.
    rewrite (Z.abs_eq a), (Z.abs_eq b), (Z.sgn_pos a), (Z.sgn_pos b), <- Hsame by lia.
    destruct (Z.leb_spec (Z.log2 a - 52) 0) as [|_]; [lia|].
    set (unit := 2 ^ (Z.log2 a - 52)) in *.
    assert (Hunit : 0 < unit) by (apply Z.pow_pos_nonneg; lia).
    pose proof (Z.div_mod a unit ltac:(lia)) as Hdiva.
    pose proof (Z.mod_pos_bound a unit Hunit) as Hmoda.
    pose proof (Z.div_mod b unit ltac:(lia)) as Hdivb.
    pose proof (Z.mod_pos_bound b unit Hunit) as Hmodb.
    pose proof (Z.div_le_mono a b unit Hunit Hab) as Hq.
    set (qa := a / unit) in *. set (ra := a mod unit) in *.
    set (qb := b / unit) in *. set (rb := b mod unit) in *.
    destruct (Z.eq_dec qa qb) as [Heq|Hne].
    + rewrite <- Heq in *. assert (Hr : ra <= rb) by nia.
      destruct (Z.ltb_spec unit (2 * ra)), (Z.ltb_spec unit (2 * rb)),
        (Z.eqb_spec (2 * ra) unit), (Z.eqb_spec (2 * rb) unit), (Z.odd qa);
        cbn [orb andb]; nia.
    + assert (Hlt : qa + 1 <= qb) by lia.
      destruct (_ || _), (_ || _); nia.
  - pose proof (round_double_bounds a Hbig) as [_ Hhigh].
    pose proof (round_double_bounds b Hb) as [Hlow _].
    assert (2 ^ (Z.log2 a + 1) <= 2 ^ Z.log2 b) by (apply Z.pow_le_mono_r; lia).
    lia.
Qed.

Lemma calculateRequiredExp_nonneg (level : Z) : 0 <= calculateRequiredExp level.
Proof.
  unfold calculateRequiredExp. rewrite Z.pow_2_r.
  assert (Hzero : round_double 0 = 0) by reflexivity.
  pose proof (round_double_mono 0 (level * level) ltac:(nia)) as Hsquare.
  pose proof (round_double_mono 0 (100 * round_double (level * level)) ltac:(lia)).
  lia.
Qed.

(** While [100 * level^2] stays below [2^53] nothing is rounded. *)
Lemma calculateRequiredExp_exact (level : Z) :
  0 <= level <= 9490626 -> calculateRequiredExp level = 100 * (level * level).
Proof.
  intros Hlevel. unfold calculateRequiredExp. rewrite Z.pow_2_r.
  assert (Hsquare : 0 <= level * level <= 9490626 * 9490626) by nia.
  rewrite (round_double_exact (level * level)) by (change (2 ^ 53) with 9007199254740992; lia).
  apply round_double_exact. change (2 ^ 53) with 9007199254740992. lia.
Qed.

Lemma calculateRequiredExp_le (a b : Z) :
  0 <= a <= b -> calculateRequiredExp a <= calculateRequiredExp b.
Proof.
  intros Hab. unfold calculateRequiredExp. rewrite !Z.pow_2_r.
  assert (Hsquares : 0 <= a * a <= b * b) by nia.
  pose proof (round_double_mono _ _ Hsquares) as Hrounded.
  pose proof (round_double_mono 0 (a * a) ltac:(lia)) as Hnonneg.
  change (round_double 0) with 0 in Hnonneg.
  apply round_double_mono. lia.
Qed.

(** C8, as stated, fails: at level 94906267 the square and the product
    are rounded, and the experience required is 68 below 100 times the
    square of the level. *)
Lemma calculateRequiredExp_rounded_at_94906267 :
  1 <= 94906267
  /\ calculateRequiredExp 94906267 = 900719951587528832
  /\ 100 * (94906267 * 94906267) = 900719951587528900
  /\ calculateRequiredExp 94906267 <> 100 * (94906267 * 94906267).
Proof. split; [lia|]. vm_compute. repeat split; discriminate. Qed.

(** C8, amended: for every level from 1 to 9490626, where
    [100 * level^2] stays below [2^53], the experience required is
    exactly 100 times the square of the level, it is below the
    requirement of the next level, and below that of every higher
    level. *)
Theorem calculateRequiredExp_square_increasing (level : Z) :
  1 <= level <= 9490626 ->
  calculateRequiredExp level = 100 * (level * level)
  /\ calculateRequiredExp level < calculateRequiredExp (level + 1)
  /\ forall higher, level < higher ->
       calculateRequiredExp level < calculateRequiredExp higher.
Proof.
  intros Hlevel.
  assert (Hnext : calculateRequiredExp level < calculateRequiredExp (level + 1)).
  { rewrite (calculateRequiredExp_exact level) by lia.
    destruct (Z.eq_dec level 9490626) as [->|Hbelow]; [vm_compute; reflexivity|].
    rewrite (calculateRequiredExp_exact (level + 1)) by lia. nia. }
  split; [apply calculateRequiredExp_exact; lia|]. split; [exact Hnext|].
  intros higher Hhigher.
  pose proof (calculateRequiredExp_le (level + 1) higher ltac:(lia)). lia.
Qed.

Lemma calculateRequiredExp_square_increasing_at_3 :
  1 <= 3 <= 9490626
  /\ calculateRequiredExp 3 = 100 * (3 * 3)
  /\ calculateRequiredExp 3 < calculateRequiredExp (3 + 1)
  /\ forall higher, 3 < higher -> calculateRequiredExp 3 < calculateRequiredExp higher.
Proof.
  split; [lia|]. apply (calculateRequiredExp_square_increasing 3). lia.
Defined.

End Thresholds.

(** ** Points of one answer *)

Section Points.
Import Gamification.

Lemma basePoints_lookup (difficulty : string) :
  basePoints !! difficulty =
    if decide (difficulty = "beginner") then Some 10
    else if decide (difficulty = "intermediate") then Some 20
    else if decide (difficulty = "advanced") then Some 30
    else None.
Proof.
  unfold basePoints.
  repeat (rewrite lookup_insert; case_decide; [subst; repeat case_decide; congruence|]).
  rewrite lookup_empty. repeat case_decide; congruence.
Qed.

(** The bonus of the statement of [calculatePoints]: one of 0, 10, 30. *)
Lemma calculatePoints_bonus (difficulty : string) (consecutiveCorrect : Z) :
  calculatePoints difficulty true consecutiveCorrect =
    or_number (basePoints !! difficulty) 10 + calculateConsecutiveBonus consecutiveCorrect.
Proof.
  unfold calculatePoints, calculateConsecutiveBonus. simpl.
  destruct (Z.leb_spec 3 consecutiveCorrect), (Z.leb_spec 5 consecutiveCorrect); lia.
Qed.

(** No own key of [basePoints] is a name of [Object.prototype]. *)
Lemma inherited_not_own (difficulty : string) :
  inherited difficulty = true -> basePoints !! difficulty = None.
Proof.
  intros Hin. apply bool_decide_eq_true_1 in Hin. unfold Object_prototype in Hin.
  rewrite !elem_of_cons, elem_of_nil in Hin.
  repeat destruct Hin as [->|Hin]; try reflexivity. contradiction.
Qed.

(** Outside the names of [Object.prototype] the code returns the number
    [calculatePoints]. *)
Lemma calculatePoints_number (difficulty : string) (isCorrect : bool)
    (consecutiveCorrect : Z) :
  inherited difficulty = false ->
  calculatePoints_value difficulty isCorrect consecutiveCorrect
    = Number (calculatePoints difficulty isCorrect consecutiveCorrect).
Proof.
  intros Hown. unfold calculatePoints_value, calculatePoints, basePoints_or_10, or_number.
  rewrite Hown. destruct isCorrect; [|reflexivity]. cbn [negb].
  destruct (basePoints !! difficulty) as [n|];
    destruct (3 <=? consecutiveCorrect), (5 <=? consecutiveCorrect); reflexivity.
Qed.

(** For a name of [Object.prototype] a correct answer earns no number. *)
Lemma calculatePoints_not_number (difficulty : string) (consecutiveCorrect : Z) :
  inherited difficulty = true ->
  calculatePoints_value difficulty true consecutiveCorrect = NotNumber.
Proof.
  intros Hin. unfold calculatePoints_value, basePoints_or_10.
  rewrite (inherited_not_own _ Hin), Hin. cbn [negb].
  destruct (3 <=? consecutiveCorrect), (5 <=? consecutiveCorrect); reflexivity.
Qed.

(** C2: an incorrect answer earns 0.  A correct one earns the base points
    of its difficulty (10 for beginner, 20 for intermediate, 30 for
    advanced, 10 for another difficulty) plus a bonus that is 0 below 3
    consecutive correct answers, 10 at 3 or 4, and 30 from 5 on, unless
    the difficulty is a name of [Object.prototype]: for [constructor],
    [toString] and the like the fallback to 10 is not reached and what
    [calculatePoints] returns is not a number. *)
Theorem calculatePoints_table (difficulty : string) (isCorrect : bool)
    (consecutiveCorrect : Z) :
  (isCorrect = false ->
     calculatePoints_value difficulty isCorrect consecutiveCorrect = Number 0)
  /\ (isCorrect = true -> inherited difficulty = false ->
      exists base bonus,
        calculatePoints_value difficulty isCorrect consecutiveCorrect
          = Number (base + bonus)
        /\ (difficulty = "beginner" -> base = 10)
        /\ (difficulty = "intermediate" -> base = 20)
        /\ (difficulty = "advanced" -> base = 30)
        /\ (difficulty <> "beginner" -> difficulty <> "intermediate" ->
            difficulty <> "advanced" -> base = 10)
        /\ (bonus = 0 \/ bonus = 10 \/ bonus = 30)
        /\ (consecutiveCorrect < 3 -> bonus = 0)
        /\ (3 <= consecutiveCorrect < 5 -> bonus = 10)
        /\ (5 <= consecutiveCorrect -> bonus = 30))
  /\ (isCorrect = true -> inherited difficulty = true ->
      calculatePoints_value difficulty isCorrect consecutiveCorrect = NotNumber)
  /\ inherited "constructor" = true
  /\ calculatePoints_value "constructor" true 0 = NotNumber
  /\ calculatePoints_value "toString" true 5 = NotNumber.
Proof.
  split; [intros ->; reflexivity|]. split; [|split].
  - intros -> Hown.
    exists (or_number (basePoints !! difficulty) 10),
           (calculateConsecutiveBonus consecutiveCorrect).
    split; [rewrite (calculatePoints_number _ _ _ Hown); f_equal;
            apply calculatePoints_bonus|].
    rewrite basePoints_lookup. unfold calculateConsecutiveBonus.
    repeat split; intros; subst; repeat case_decide; try congruence; try reflexivity;
      destruct (Z.leb_spec 5 consecutiveCorrect), (Z.leb_spec 3 consecutiveCorrect);
      lia.
  - intros -> Hin. now apply calculatePoints_not_number.
  - repeat split; reflexivity.
Qed.

Example calculatePoints_beginner_first :
  calculatePoints_value "beginner" true 0 = Number 10.
Proof. reflexivity. Qed.

Example calculatePoints_advanced_streak_5 :
  calculatePoints_value "advanced" true 5 = Number 60.
Proof. reflexivity. Qed.

Example calculatePoints_unknown_difficulty :
  calculatePoints_value "expert" true 3 = Number 20.
Proof. reflexivity. Qed.

End Points.

(** ** Experience and level-ups *)

Section Experience.
Import Gamification.


Lemma after_levelups_0 (u : UserData) : after_levelups 0 u = u.
Proof.
  destruct u. unfold after_levelups, set_level, set_experience. simpl.
  f_equal; lia.
Qed.

Lemma after_levelups_S (k : nat) (u : UserData) :
  after_levelups (S k) u =
    after_levelups k
      (set_level (level u + 1)
         (set_experience (experience u - calculateRequiredExp (level u)) u)).
Proof.
  unfold after_levelups, set_level, set_experience. simpl. f_equal; lia.
Qed.

(** The loop performs some number [k] of level-ups, each of which was due,
    and stops with the experience below the threshold of the level
    reached. *)
Lemma levelUpLoop_spec (u : UserData) (flag : bool) (lvl : Z) :
  0 <= experience u ->
  exists k : nat,
    levelUpLoop u flag lvl =
      (after_levelups k u,
       if k is O then flag else true,
       if k is O then lvl else level u + Z.of_nat k)
    /\ 0 <= experience (after_levelups k u)
         < calculateRequiredExp (level (after_levelups k u))
    /\ forall j, (j < k)%nat -> thresholds (level u) (S j) <= experience u.
Proof.
  funelim (levelUpLoop u flag lvl); intros Hexp.
  - (* the body of the loop runs *)
    match goal with IH : _ -> exists _, _ |- _ =>
      destruct IH as (k & Hrun & Hinv & Hcrossed); [simpl; lia|] end.
    exists (S k). rewrite after_levelups_S. split; [|split].
    + rewrite Hrun. destruct k; simpl; f_equal; try reflexivity; lia.
    + exact Hinv.
    + intros [|j] Hj.
      * simpl. lia.
      * specialize (Hcrossed j ltac:(lia)).
        change (thresholds (level userData) (S (S j)))
          with (calculateRequiredExp (level userData)
                + thresholds (level userData + 1) (S j)).
        simpl in Hcrossed |- *. lia.
  - (* the condition of the loop fails *)
    exists O. rewrite after_levelups_0. split; [reflexivity|]. split; [|lia].
    pose proof (calculateRequiredExp_nonneg (level userData)). lia.
Qed.




(** Adding 1000 at level 1 crosses the thresholds 100 and 400 and stops
    below 900: level 3 with 500 left. *)
Example addExperience_1000_from_level_1 :
  Gamification.addExperience 1000 (Some defaultUserData) =
    ({| leveledUp := true; oldLevel := Some 1; newLevel := Some 3;
        currentExp := Some 500; requiredExp := Some 900 |},
     Some (set_level 3 (set_experience 500 defaultUserData))).
Proof. vm_compute. reflexivity. Qed.

(** Without a record nothing is stored. *)
Lemma addExperience_no_record (exp : Z) :
  Gamification.addExperience exp None =
    ({| leveledUp := false; oldLevel := None; newLevel := None;
        currentExp := None; requiredExp := None |}, None).
Proof. reflexivity. Qed.

End Experience.

(** ** Percentages with an empty total *)

Section Percentages.

Variable percent : Z -> Z -> Z.

Lemma calculatePercentage_total_0 (value : Z) : calculatePercentage percent value 0 = 0.
Proof. reflexivity. Qed.

Lemma updateStatistics_run (stats : StatsUpdate) (u : UserData) :
  updateStatistics percent stats (Some u) =
    (tt, Some (set_statistics (updateStatistics_body percent stats (statistics u)) u)).
Proof. reflexivity. Qed.

Lemma updateStatistics_body_totalQuestions (stats : StatsUpdate) (s : Statistics) :
  totalQuestions (updateStatistics_body percent stats s) =
    totalQuestions s + default 0 (su_totalQuestions stats).
Proof.
  unfold updateStatistics_body.
  destruct (su_totalQuestions stats), (su_correctAnswers stats),
    (su_category stats) as [c|]; simpl;
    repeat match goal with
           | |- context [if ?b then _ else _] => destruct b
           | |- context [match ?entry with Some _ => _ | None => _ end] =>
               destruct entry
           end;
    simpl; lia.
Qed.

(** C10: [calculatePercentage] answers 0 for a total of 0 whatever the
    value; hence [getProgress] is 0 for a session without questions, and
    [updateStatistics] keeps the stored [accuracyRate] (0 in the default
    record) whenever the cumulative [totalQuestions] after the update is
    0. *)
Theorem calculatePercentage_zero_total :
  (forall value, calculatePercentage percent value 0 = 0)
  /\ (forall q, Quiz.currentQuestions q = [] -> Quiz.getProgress percent q = 0)
  /\ (forall stats u,
        exists u', updateStatistics percent stats (Some u) = (tt, Some u')
          /\ (totalQuestions (statistics u') = 0 ->
              accuracyRate (statistics u') = accuracyRate (statistics u)))
  /\ (forall stats,
        exists u', updateStatistics percent stats (Some defaultUserData) = (tt, Some u')
          /\ (totalQuestions (statistics u') = 0 ->
              accuracyRate (statistics u') = 0)).
Proof.
  assert (Hkeep : forall stats u,
    exists u', updateStatistics percent stats (Some u) = (tt, Some u')
      /\ (totalQuestions (statistics u') = 0 ->
          accuracyRate (statistics u') = accuracyRate (statistics u))).
  { intros stats u. eexists. split; [apply updateStatistics_run|].
    simpl. rewrite updateStatistics_body_totalQuestions. intros Hzero.
    unfold updateStatistics_body.
    destruct (su_totalQuestions stats) as [n|], (su_correctAnswers stats) as [m|],
      (su_category stats) as [c|]; simpl in *;
      repeat match goal with
             | |- context [if 0 <? ?t then _ else _] =>
                 destruct (Z.ltb_spec 0 t); [lia|]
             | |- context [if ?b then _ else _] => destruct b
             | |- context [match ?entry with Some _ => _ | None => _ end] =>
                 destruct entry
             end; reflexivity. }
  split; [exact calculatePercentage_total_0|]. split; [|split].
  - intros q Hempty. unfold Quiz.getProgress. rewrite Hempty. reflexivity.
  - exact Hkeep.
  - intros stats. destruct (Hkeep stats defaultUserData) as (u' & Hrun & Hrate).
    exists u'. split; [exact Hrun|exact Hrate].
Qed.

Example getProgress_without_questions :
  Quiz.getProgress percent Quiz.newQuizManager = 0.
Proof. reflexivity. Qed.

Example updateStatistics_empty_session :
  updateStatistics percent
    {| su_totalQuestions := Some 0; su_correctAnswers := Some 0;
       su_category := None |} (Some defaultUserData)
  = (tt, Some defaultUserData).
Proof. reflexivity. Qed.

End Percentages.

(** In exact arithmetic and for a positive total the percentage is the
    nearest integer to [100 * value / total], halves rounded up. *)
Lemma exact_percent_nearest (value total : Z) :
  0 < total ->
  2 * total * calculatePercentage exact_percent value total <= 200 * value + total
    < 2 * total * (calculatePercentage exact_percent value total + 1).
Proof.
  intros Htotal. unfold calculatePercentage, exact_percent, Math_round_ratio.
  destruct (Z.eqb_spec total 0) as [->|_]; [lia|].
  pose proof (Z.div_mod (2 * (value * 100) + total) (2 * total) ltac:(lia)).
  pose proof (Z.mod_pos_bound (2 * (value * 100) + total) (2 * total) ltac:(lia)).
  lia.
Qed.

(** ** The quiz session *)

Section Session.
Import Quiz.

Lemma swap_length {A : Type} (l : list A) (i j : nat) : length (swap l i j) = length l.
Proof.
  unfold swap. destruct (l !! j), (l !! i); try reflexivity.
  now rewrite !length_insert.
Qed.

Lemma shuffleArray_length {A : Type} (rnd : nat -> nat) (l : list A) :
  length (shuffleArray rnd l) = length l.
Proof.
  unfold shuffleArray. generalize (length l - 1)%nat as i. intros i.
  revert l. induction i as [|i IH]; intros l; simpl; [reflexivity|].
  now rewrite IH, swap_length.
Qed.

Lemma filter_no_match (difficulty : string) (pool : list Question) :
  Forall (fun x => q_difficulty x <> difficulty) pool ->
  List.filter (fun x => String.eqb (q_difficulty x) difficulty) pool = [].
Proof.
  induction 1 as [|x pool Hx _ IH]; simpl; [reflexivity|].
  destruct (String.eqb_spec (q_difficulty x) difficulty); [contradiction|exact IH].
Qed.

(** A started session holds as many questions as match the difficulty, up
    to 10, and the call succeeds exactly when there is one. *)
Lemma startQuiz_selects (rnd : nat -> nat) (difficulty : string) (q : QuizManager) :
  let matching :=
    List.filter (fun x => String.eqb (q_difficulty x) difficulty) (questions q) in
  length (currentQuestions (snd (startQuiz rnd difficulty q)))
    = Nat.min 10 (length matching)
  /\ fst (startQuiz rnd difficulty q) = negb (length matching =? 0)%nat.
Proof.
  intros matching. unfold startQuiz, selectQuestions.
  cbn [questions currentQuestions]. fold matching.
  assert (Hsize : length (take 10 (shuffleArray rnd matching))
                  = Nat.min 10 (length matching))
    by now rewrite length_take, shuffleArray_length.
  rewrite Hsize.
  destruct (Nat.eqb_spec (Nat.min 10 (length matching)) 0) as [Hzero|Hpos];
    cbn [fst snd currentQuestions]; (split; [exact Hsize|]).
  - destruct (Nat.eqb_spec (length matching) 0); [reflexivity|lia].
  - destruct (Nat.eqb_spec (length matching) 0); [lia|reflexivity].
Qed.

(** C4, as stated, fails: with no advanced question in the pool
    [startQuiz] returns [false], but the counters, the difficulty and the
    question list of the session have been overwritten. *)
Lemma startQuiz_failure_resets_session :
  startQuiz (fun _ => 0%nat) "advanced" sample_session =
    (false,
     {| questions := [sample_question]; currentQuestions := [];
        currentQuestionIndex := 0%nat; score := 0; correctAnswers := 0;
        wrongAnswers := []; consecutiveCorrect := 0; difficulty := "advanced";
        isAnswered := false |})
  /\ snd (startQuiz (fun _ => 0%nat) "advanced" sample_session) <> sample_session.
Proof. split; [reflexivity|]. vm_compute. discriminate. Qed.

(** C4, amended: when no question of the pool has the requested
    difficulty, [startQuiz] returns [false]; it keeps the pool and the
    answered guard, and it leaves the session reset: cursor, score and
    both counters at 0, no wrong answers, no current questions, and the
    requested difficulty recorded. *)
Theorem startQuiz_no_match (rnd : nat -> nat) (difficulty : string) (q : QuizManager) :
  Forall (fun x => q_difficulty x <> difficulty) (questions q) ->
  startQuiz rnd difficulty q =
    (false,
     {| questions := questions q; currentQuestions := [];
        currentQuestionIndex := 0%nat; score := 0; correctAnswers := 0;
        wrongAnswers := []; consecutiveCorrect := 0; difficulty := difficulty;
        isAnswered := isAnswered q |}).
Proof.
  intros Hnone. unfold startQuiz, selectQuestions. simpl.
  rewrite (filter_no_match _ _ Hnone). reflexivity.
Qed.

Lemma startQuiz_no_match_advanced :
  Forall (fun x => q_difficulty x <> "advanced") (questions sample_session)
  /\ startQuiz (fun _ => 0%nat) "advanced" sample_session =
       (false,
        {| questions := questions sample_session; currentQuestions := [];
           currentQuestionIndex := 0%nat; score := 0; correctAnswers := 0;
           wrongAnswers := []; consecutiveCorrect := 0; difficulty := "advanced";
           isAnswered := isAnswered sample_session |}).
Proof.
  assert (H : Forall (fun x => q_difficulty x <> "advanced") (questions sample_session)).
  { simpl. constructor; [simpl; discriminate|constructor]. }
  split; [exact H|]. apply (startQuiz_no_match _ _ _ H).
Defined.



(** The fifth correct answer in a row of a beginner quiz earns 10 + 30. *)
Example checkAnswer_fifth_in_a_row :
  exists r q', checkAnswer 0 sample_session = (Returned (Some r), q')
    /\ points r = 40 /\ score q' = 90.
Proof. eexists. eexists. split; [reflexivity|]. split; reflexivity. Qed.

(** A second answer to the same question is refused and changes nothing. *)
Lemma checkAnswer_answered (selectedOption : nat) (q : QuizManager) :
  isAnswered q = true -> checkAnswer selectedOption q = (Returned None, q).
Proof. intros H. unfold checkAnswer. now rewrite H. Qed.

End Session.

(** ** The bounded quiz history *)

Section History.

Lemma slice_last_length {A : Type} (n : nat) (l : list A) :
  length (slice_last n l) = Nat.min n (length l).
Proof. unfold slice_last. rewrite length_drop. lia. Qed.

Lemma slice_last_short {A : Type} (n : nat) (l : list A) :
  (length l <= n)%nat -> slice_last n l = l.
Proof.
  intros Hshort. unfold slice_last.
  replace (length l - n)%nat with O by lia. reflexivity.
Qed.

(** Trimming early does not change what is kept in the end. *)
Lemma slice_last_app {A : Type} (n : nat) (l more : list A) :
  slice_last n (slice_last n l ++ more) = slice_last n (l ++ more).
Proof.
  unfold slice_last at 2. rewrite <- drop_app_le by lia.
  unfold slice_last. rewrite drop_drop. f_equal.
  rewrite length_drop, !length_app. lia.
Qed.

Lemma slice_last_suffix {A : Type} (n : nat) (l : list A) :
  exists dropped, l = dropped ++ slice_last n l
                  /\ length dropped = (length l - n)%nat.
Proof.
  exists (take (length l - n) l). unfold slice_last.
  rewrite take_drop. split; [reflexivity|]. rewrite length_take. lia.
Qed.

(** One call keeps the last 50 of the old entries followed by the new
    one. *)
Lemma addQuizToHistory_run (quizResult : QuizSummary) (today : string) (now : Z)
    (u : UserData) :
  addQuizToHistory quizResult today now (Some u) =
    (tt, Some (set_quizHistory
                 (slice_last 50 (quizHistory u ++ [entry_of (quizResult, today, now)]))
                 u)).
Proof.
  unfold addQuizToHistory, bind, loadUserData, saveUserData. simpl.
  set (pushed := quizHistory u ++ _).
  destruct (Nat.ltb_spec 50 (length pushed)); [reflexivity|].
  now rewrite slice_last_short.
Qed.

Lemma addQuizzesToHistory_run (sessions : list Session) (u : UserData) :
  sessions <> [] ->
  addQuizzesToHistory sessions (Some u) =
    (tt, Some (set_quizHistory
                 (slice_last 50 (quizHistory u ++ map entry_of sessions)) u)).
Proof.
  revert u. induction sessions as [|[[quizResult today] now] rest IH];
    intros u Hne; [contradiction|].
  cbn [addQuizzesToHistory fst snd]. unfold bind at 1.
  rewrite addQuizToHistory_run.
  destruct rest as [|s rest']; [reflexivity|].
  rewrite IH by discriminate. cbn [quizHistory set_quizHistory].
  rewrite slice_last_app, <- app_assoc. reflexivity.
Qed.

(** C7: after [addQuizToHistory] the history holds at most 50 entries:
    the most recent ones of the old history followed by the new entry, in
    their order.  After 55 sessions in a row it holds exactly 50 entries:
    those of the last 50 sessions, the 5 oldest being dropped. *)
Theorem quizHistory_keeps_last_50 (u : UserData) (quizResult : QuizSummary)
    (today : string) (now : Z) (later : list Session) :
  let first : Session := (quizResult, today, now) in
  (exists u1 dropped,
     addQuizToHistory quizResult today now (Some u) = (tt, Some u1)
     /\ u1 = set_quizHistory (quizHistory u1) u
     /\ (length (quizHistory u1) <= 50)%nat
     /\ length (quizHistory u1) = Nat.min 50 (length (quizHistory u) + 1)
     /\ quizHistory u ++ [entry_of first] = dropped ++ quizHistory u1)
  /\ (exists u' dropped,
        addQuizzesToHistory (first :: later) (Some u) = (tt, Some u')
        /\ u' = set_quizHistory (quizHistory u') u
        /\ (length (quizHistory u') <= 50)%nat
        /\ quizHistory u ++ map entry_of (first :: later) = dropped ++ quizHistory u'
        /\ (length (first :: later) = 55%nat ->
            length (quizHistory u') = 50%nat
            /\ quizHistory u' = drop 5 (map entry_of (first :: later)))).
Proof.
  intros first. split.
  - destruct (slice_last_suffix 50 (quizHistory u ++ [entry_of first]))
      as (dropped & Hsplit & _).
    eexists. exists dropped. split; [apply addQuizToHistory_run|].
    cbn [quizHistory set_quizHistory]. split; [reflexivity|].
    rewrite slice_last_length, length_app. cbn [length].
    split; [lia|]. split; [lia|exact Hsplit].
  - destruct (slice_last_suffix 50 (quizHistory u ++ map entry_of (first :: later)))
      as (dropped & Hsplit & _).
    eexists. exists dropped.
    split; [apply addQuizzesToHistory_run; discriminate|].
    cbn [quizHistory set_quizHistory]. split; [reflexivity|].
    rewrite slice_last_length. split; [lia|]. split; [exact Hsplit|].
    intros H55. rewrite length_app, length_map, H55. split; [lia|].
    unfold slice_last. rewrite length_app, length_map, H55.
    rewrite drop_app_ge by lia. f_equal. lia.
Qed.

(** Fifty-five sessions on a fresh record: sessions 6 to 55 remain. *)
Example quizHistory_after_55_sessions :
  exists u', addQuizzesToHistory (map numbered_session (seq 1 55)) (Some defaultUserData)
             = (tt, Some u')
    /\ length (quizHistory u') = 50%nat
    /\ map h_timestamp (quizHistory u') = map Z.of_nat (seq 6 50).
Proof. eexists. split; [vm_compute; reflexivity|]. split; reflexivity. Qed.

End History.

(** ** The daily streak *)

Section StreakLaw.

Variable Date_parse : string -> option Z.

Lemma diffDays_same_day (today : string) (d : Z) :
  diffDays Date_parse today today = Some d -> d = 0.
Proof.
  unfold diffDays. destruct (Date_parse today) as [t|]; [|discriminate].
  intros [= <-]. rewrite Z.sub_diag. reflexivity.
Qed.

Lemma truthy_nonempty (s : string) : s <> EmptyString -> truthy (Some s) = true.
Proof.
  intros Hs. simpl. destruct (String.eqb_spec s EmptyString); [contradiction|reflexivity].
Qed.

(** Whatever the branch, [updateStreak] stores the record it loaded with
    at most the streak and the date rewritten. *)
Lemma updateStreak_fields (u : UserData) (today : string) :
  exists (newStreak : Z) (day : option string),
    updateStreak Date_parse today (Some u) =
      (newStreak, Some (set_lastPlayDate day (set_streak newStreak u))).
Proof.
  unfold updateStreak, bind, loadUserData, saveUserData, ret. cbn beta iota.
  case_bool_decide as Hsame.
  - exists (streak u), (lastPlayDate u). destruct u; reflexivity.
  - destruct (lastPlayDate u) as [last|] eqn:Hlast; [|eexists _, _; reflexivity].
    destruct (truthy (Some last)); [|eexists _, _; reflexivity].
    destruct (diffDays Date_parse today last) as [d|];
      [|exists (streak u), (Some today); destruct u; reflexivity].
    destruct (d =? 1); [eexists _, _; reflexivity|].
    destruct (1 <? d); [eexists _, _; reflexivity|].
    exists (streak u), (Some today). destruct u; reflexivity.
Qed.

(** The whole-day difference that [updateStreak] computes, in terms of
    the two instants: it is 1 from one day up to two days, more than 1
    from two days on, and less than 1 below one day. *)
Lemma diffDays_instants (today last : string) (lastDate todayDate : Z) :
  Date_parse last = Some lastDate -> Date_parse today = Some todayDate ->
  exists d, diffDays Date_parse today last = Some d
    /\ (d = 1 <-> 86400000 <= todayDate - lastDate < 2 * 86400000)
    /\ (1 < d <-> 2 * 86400000 <= todayDate - lastDate).
Proof.
  intros Hlast Htoday. unfold diffDays. rewrite Hlast, Htoday.
  eexists. split; [reflexivity|]. change (1000 * 60 * 60 * 24) with 86400000.
  pose proof (Z.div_mod (todayDate - lastDate) 86400000 ltac:(lia)).
  pose proof (Z.mod_pos_bound (todayDate - lastDate) 86400000 ltac:(lia)).
  lia.
Qed.

(** C3: one call of [updateStreak] on a stored record returns the stored
    streak and obeys: the record is unchanged when [lastPlayDate] is
    today; the streak becomes 1 when [lastPlayDate] is absent (or an
    empty text); with [lastPlayDate] a date [lastDate] and today a date
    [todayDate], both in milliseconds, the streak grows by 1 when
    [todayDate] is at least one day and less than two days after
    [lastDate] (a whole-day difference of exactly 1), it is reset to 1
    from two days on (a difference of more than 1), and it is kept below
    one day; it is kept as well when one of the two texts is no date; and
    [lastPlayDate] is today afterwards in every case.  Nothing else of
    the record changes. *)
Theorem updateStreak_law (u : UserData) (today : string) :
  exists (newStreak : Z) (u' : UserData),
    updateStreak Date_parse today (Some u) = (newStreak, Some u')
    /\ newStreak = streak u'
    /\ (lastPlayDate u = Some today -> u' = u)
    /\ (lastPlayDate u = None -> streak u' = 1)
    /\ (lastPlayDate u = Some EmptyString -> today <> EmptyString -> streak u' = 1)
    /\ (forall last lastDate todayDate,
          lastPlayDate u = Some last -> last <> EmptyString ->
          Date_parse last = Some lastDate -> Date_parse today = Some todayDate ->
          (86400000 <= todayDate - lastDate < 2 * 86400000 ->
           streak u' = streak u + 1)
          /\ (2 * 86400000 <= todayDate - lastDate -> streak u' = 1)
          /\ (todayDate - lastDate < 86400000 -> streak u' = streak u))
    /\ (forall last,
          lastPlayDate u = Some last -> last <> EmptyString ->
          Date_parse last = None \/ Date_parse today = None ->
          streak u' = streak u)
    /\ (lastPlayDate u <> Some today -> lastPlayDate u' = Some today)
    /\ lastPlayDate u' = Some today
    /\ u' = set_lastPlayDate (lastPlayDate u') (set_streak (streak u') u).
Proof.
  unfold updateStreak, bind, loadUserData, saveUserData, ret. cbn beta iota.
  case_bool_decide as Hsame.
  - (* already played today *)
    exists (streak u), u. split; [reflexivity|]. split; [reflexivity|].
    split; [reflexivity|]. split; [congruence|]. split; [congruence|]. split.
    { intros last lastDate todayDate Hlast _ Hparsed Htoday.
      assert (last = today) by congruence. subst last.
      assert (lastDate = todayDate) by congruence. subst lastDate.
      repeat split; intros; lia. }
    split; [reflexivity|]. split; [contradiction|]. split; [exact Hsame|].
    destruct u; simpl in *; subst; reflexivity.
  - eexists. eexists. split; [reflexivity|]. cbn [streak lastPlayDate set_lastPlayDate].
    split; [reflexivity|]. split; [contradiction|]. split.
    { intros Hnone. rewrite Hnone. reflexivity. }
    split.
    { intros Hempty _. rewrite Hempty. reflexivity. }
    split.
    { intros last lastDate todayDate Hlast Hpresent Hparsed Htoday.
      destruct (diffDays_instants today last lastDate todayDate Hparsed Htoday)
        as (d & Hd & Hone & Hmore).
      rewrite Hlast, truthy_nonempty, Hd by assumption.
      destruct (Z.eqb_spec d 1) as [Heq|Hne];
        [|destruct (Z.ltb_spec 1 d) as [Hlt|Hge]];
        cbn [streak set_streak]; repeat split; intros; lia. }
    split.
    { intros last Hlast Hpresent Hinvalid.
      rewrite Hlast, truthy_nonempty by assumption. unfold diffDays.
      destruct Hinvalid as [-> | ->]; [reflexivity|].
      destruct (Date_parse last); reflexivity. }
    split; [reflexivity|]. split; [reflexivity|].
    destruct (lastPlayDate u) as [last|]; [|reflexivity].
    destruct (truthy (Some last)); [|reflexivity].
    destruct (diffDays Date_parse today last) as [d|];
      [|destruct u; reflexivity].
    destruct (d =? 1); [reflexivity|].
    destruct (1 <? d); [reflexivity|destruct u; reflexivity].
Qed.

(** Without a record [updateStreak] returns 0 and stores nothing. *)
Lemma updateStreak_no_record (today : string) :
  updateStreak Date_parse today None = (0, None).
Proof. reflexivity. Qed.

End StreakLaw.

(** The law at work on calendar dates, from a streak of 3 last played on
    29 February 2024: the day after the streak becomes 4, two days after
    it is reset to 1, and the day before it is kept. *)
Lemma updateStreak_law_calendar :
  (exists (newStreak : Z) (u' : UserData),
     updateStreak IsoDate.Date_parse "2024-03-01" (Some played_on_leap_day)
       = (newStreak, Some u')
     /\ streak u' = streak played_on_leap_day + 1
     /\ lastPlayDate u' = Some "2024-03-01")
  /\ (exists (newStreak : Z) (u' : UserData),
        updateStreak IsoDate.Date_parse "2024-03-02" (Some played_on_leap_day)
          = (newStreak, Some u')
        /\ streak u' = 1
        /\ lastPlayDate u' = Some "2024-03-02")
  /\ (exists (newStreak : Z) (u' : UserData),
        updateStreak IsoDate.Date_parse "2024-02-28" (Some played_on_leap_day)
          = (newStreak, Some u')
        /\ streak u' = streak played_on_leap_day
        /\ lastPlayDate u' = Some "2024-02-28").
Proof.
  assert (Hlast : IsoDate.Date_parse "2024-02-29" = Some 1709164800000) by reflexivity.
  split; [|split].
  - destruct (updateStreak_law IsoDate.Date_parse played_on_leap_day "2024-03-01")
      as (newStreak & u' & Hrun & _ & _ & _ & _ & Hgap & _ & _ & Hday & _).
    exists newStreak, u'. split; [exact Hrun|]. split; [|exact Hday].
    apply (Hgap "2024-02-29" 1709164800000 1709251200000);
      [reflexivity|discriminate|exact Hlast|reflexivity|lia].
  - destruct (updateStreak_law IsoDate.Date_parse played_on_leap_day "2024-03-02")
      as (newStreak & u' & Hrun & _ & _ & _ & _ & Hgap & _ & _ & Hday & _).
    exists newStreak, u'. split; [exact Hrun|]. split; [|exact Hday].
    apply (Hgap "2024-02-29" 1709164800000 1709337600000);
      [reflexivity|discriminate|exact Hlast|reflexivity|lia].
  - destruct (updateStreak_law IsoDate.Date_parse played_on_leap_day "2024-02-28")
      as (newStreak & u' & Hrun & _ & _ & _ & _ & Hgap & _ & _ & Hday & _).
    exists newStreak, u'. split; [exact Hrun|]. split; [|exact Hday].
    apply (Hgap "2024-02-29" 1709164800000 1709078400000);
      [reflexivity|discriminate|exact Hlast|reflexivity|lia].
Defined.

Example updateStreak_same_day :
  updateStreak IsoDate.Date_parse "2024-02-29" (Some played_on_leap_day)
    = (3, Some played_on_leap_day).
Proof. reflexivity. Qed.

Example updateStreak_after_a_gap :
  updateStreak IsoDate.Date_parse "2024-03-02" (Some played_on_leap_day)
    = (1, Some (set_lastPlayDate (Some "2024-03-02") (set_streak 1 defaultUserData))).
Proof. reflexivity. Qed.

Example updateStreak_first_play :
  updateStreak IsoDate.Date_parse "2024-03-02" (Some defaultUserData)
    = (1, Some (set_lastPlayDate (Some "2024-03-02") (set_streak 1 defaultUserData))).
Proof. reflexivity. Qed.

(** A clock set back: the streak is kept and the date still moves. *)
Example updateStreak_clock_set_back :
  updateStreak IsoDate.Date_parse "2024-02-27" (Some played_on_leap_day)
    = (3, Some (set_lastPlayDate (Some "2024-02-27") played_on_leap_day)).
Proof. reflexivity. Qed.

(** ** Badges *)

Section Badges.
Import Gamification.

Lemma includes_spec (xs : list string) (x : string) :
  includes xs x = true <-> x ∈ xs.
Proof. unfold includes. apply bool_decide_eq_true. Qed.

Lemma includes_snoc_ne (xs : list string) (x y : string) :
  x <> y -> includes (xs ++ [y]) x = includes xs x.
Proof.
  intros Hne. unfold includes. apply bool_decide_ext.
  rewrite elem_of_app, list_elem_of_singleton. tauto.
Qed.

Lemma set_badges_same (u : UserData) : set_badges (Storage.badges u) u = u.
Proof. destruct u. reflexivity. Qed.

Lemma awardBadge_run (badgeId : string) (u : UserData) :
  awardBadge badgeId (Some u) =
    if includes (Storage.badges u) badgeId then (false, Some u)
    else (true, Some (set_badges (Storage.badges u ++ [badgeId]) u)).
Proof.
  unfold awardBadge, bind, loadUserData. simpl.
  destruct (includes (Storage.badges u) badgeId); reflexivity.
Qed.

Lemma checkBadgeConditions_table (quizResult : QuizResult) (u : UserData) :
  checkBadgeConditions quizResult (Some u) =
    checkBadges (includes (Storage.badges u)) (badgeChecks quizResult u) [] (Some u).
Proof. reflexivity. Qed.

Lemma checkBadge_run (held cond : bool) (badgeId : string) (def : Badge)
    (newBadges : list Badge) (u : UserData) :
  held = includes (Storage.badges u) badgeId ->
  checkBadge held cond badgeId def newBadges (Some u) =
    if negb held && cond
    then (newBadges ++ [def], Some (set_badges (Storage.badges u ++ [badgeId]) u))
    else (newBadges, Some u).
Proof.
  intros Hheld.
  destruct held; [reflexivity|]. destruct cond; [|reflexivity].
  cbv [checkBadge bind negb andb]. cbv beta.
  rewrite awardBadge_run, <- Hheld. reflexivity.
Qed.

(** The blocks of a table with distinct badge ids, whose [held] flags
    agree with the record in the store: exactly the due badges are
    appended, in the order of the table. *)
Lemma checkBadges_run (held : string -> bool) (checks : list (string * Badge * bool)) :
  forall (newBadges : list Badge) (u : UserData),
    NoDup (map (fun c => fst (fst c)) checks) ->
    (forall c, c ∈ checks -> held (fst (fst c)) = includes (Storage.badges u) (fst (fst c))) ->
    checkBadges held checks newBadges (Some u) =
      (newBadges ++ map (fun c => snd (fst c)) (List.filter (due held) checks),
       Some (set_badges
               (Storage.badges u ++ map (fun c => fst (fst c)) (List.filter (due held) checks))
               u)).
Proof.
  induction checks as [|[[badgeId def] cond] rest IH]; intros newBadges u Hdistinct Hheld.
  - simpl. unfold ret. now rewrite !app_nil_r, set_badges_same.
  - cbn [map fst] in Hdistinct. apply NoDup_cons in Hdistinct as [Hfresh Hdistinct].
    pose proof (Hheld (badgeId, def, cond) ltac:(left)) as Hthis. cbn [fst] in Hthis.
    assert (Hothers : forall c, c ∈ rest -> fst (fst c) <> badgeId).
    { intros c Hc Heq. apply Hfresh. rewrite <- Heq.
      apply (list_elem_of_fmap_2 (fun c => fst (fst c))) in Hc. exact Hc. }
    assert (Hrest : forall c, c ∈ rest ->
              held (fst (fst c)) = includes (Storage.badges u) (fst (fst c))).
    { intros c Hc. apply Hheld. now right. }
    cbn [checkBadges fst snd List.filter]. unfold bind.
    rewrite (checkBadge_run _ _ _ _ _ _ Hthis).
    change (due held (badgeId, def, cond)) with (negb (held badgeId) && cond).
    destruct (negb (held badgeId) && cond).
    + rewrite IH; [|exact Hdistinct|].
      { cbn [Storage.badges set_badges map fst snd]. rewrite <- !app_assoc.
        reflexivity. }
      intros c Hc. cbn [Storage.badges set_badges].
      rewrite includes_snoc_ne by now apply Hothers.
      now apply Hrest.
    + now apply IH.
Qed.

Lemma badgeChecks_distinct (quizResult : QuizResult) (u : UserData) :
  NoDup (map (fun c => fst (fst c)) (badgeChecks quizResult u)).
Proof.
  simpl. repeat (apply NoDup_cons; split;
    [rewrite ?elem_of_cons, elem_of_nil; intros H; repeat destruct H as [H|H];
       try discriminate H; exact H|]).
  apply NoDup_nil. trivial.
Qed.

Lemma badgeChecks_catalog (quizResult : QuizResult) (u : UserData) (c : string * Badge * bool) :
  c ∈ badgeChecks quizResult u -> badge_of (fst (fst c)) = Some (snd (fst c)).
Proof.
  unfold badgeChecks. rewrite !elem_of_cons, elem_of_nil.
  intros H. repeat destruct H as [H|H]; try contradiction; subst c; reflexivity.
Qed.

Lemma NoDup_map_filter {A B : Type} (f : A -> B) (p : A -> bool) (l : list A) :
  NoDup (map f l) -> NoDup (map f (List.filter p l)).
Proof.
  induction l as [|x l IH]; simpl; [trivial|].
  intros Hnodup. apply NoDup_cons in Hnodup as [Hfresh Hnodup].
  destruct (p x); simpl; [|now apply IH].
  apply NoDup_cons. split; [|now apply IH].
  intros Hin. apply Hfresh. apply list_elem_of_fmap in Hin as (y & -> & Hy).
  apply list_elem_of_fmap_2. apply list_elem_of_In, filter_In in Hy as [Hy _].
  now apply list_elem_of_In.
Qed.

Lemma filter_none {A : Type} (p : A -> bool) (l : list A) :
  (forall x, x ∈ l -> p x = false) -> List.filter p l = [].
Proof.
  induction l as [|x l IH]; intros Hnone; simpl; [reflexivity|].
  rewrite (Hnone x) by left. apply IH. intros y Hy. apply Hnone. now right.
Qed.

(** The badges a call awards: the due rows of the table, as pairs of
    badge id and badge definition. *)
Lemma checkBadgeConditions_run (quizResult : QuizResult) (u : UserData) :
  let awarded :=
    map (fun c => (fst (fst c), snd (fst c)))
        (List.filter (due (includes (Storage.badges u))) (badgeChecks quizResult u)) in
  checkBadgeConditions quizResult (Some u) =
    (map snd awarded, Some (set_badges (Storage.badges u ++ map fst awarded) u)).
Proof.
  intros awarded. rewrite checkBadgeConditions_table.
  rewrite checkBadges_run; [|apply badgeChecks_distinct|reflexivity].
  subst awarded. rewrite !map_map. reflexivity.
Qed.

Lemma levelUpLoop_badges (u : UserData) (flag : bool) (lvl : Z) :
  Storage.badges (fst (fst (levelUpLoop u flag lvl))) = Storage.badges u.
Proof.
  funelim (levelUpLoop u flag lvl); [|reflexivity].
  match goal with IH : Storage.badges _ = Storage.badges _ |- _ => exact IH end.
Qed.

Lemma keeps_badges_ret {A : Type} (a : A) : keeps_badges (ret a).
Proof. intros u. exists a, u, []. split; [reflexivity|]. now rewrite app_nil_r. Qed.

Lemma keeps_badges_bind {A B : Type} (c : Op A) (k : A -> Op B) :
  keeps_badges c -> (forall a, keeps_badges (k a)) -> keeps_badges (bind c k).
Proof.
  intros Hc Hk u. destruct (Hc u) as (a & u1 & more1 & Hrun1 & Hb1).
  destruct (Hk a u1) as (b & u2 & more2 & Hrun2 & Hb2).
  exists b, u2, (more1 ++ more2). unfold bind. rewrite Hrun1, Hrun2.
  split; [reflexivity|]. now rewrite Hb2, Hb1, app_assoc.
Qed.

Lemma keeps_badges_discard {A : Type} (c : Op A) :
  keeps_badges c -> keeps_badges (discard c).
Proof. intros Hc. apply keeps_badges_bind; [exact Hc|]. intros a. apply keeps_badges_ret. Qed.

(** An operation that stores the record it loaded with other fields
    rewritten. *)
Lemma keeps_badges_same {A : Type} (c : Op A) :
  (forall u, exists a u', c (Some u) = (a, Some u') /\ Storage.badges u' = Storage.badges u) ->
  keeps_badges c.
Proof.
  intros Hc u. destruct (Hc u) as (a & u' & Hrun & Hb).
  exists a, u', []. split; [exact Hrun|]. now rewrite Hb, app_nil_r.
Qed.

Lemma keeps_badges_awardBadge (badgeId : string) : keeps_badges (awardBadge badgeId).
Proof.
  intros u. rewrite awardBadge_run. destruct (includes (Storage.badges u) badgeId).
  - exists false, u, []. split; [reflexivity|]. now rewrite app_nil_r.
  - eexists true, _, [badgeId]. split; reflexivity.
Qed.

Lemma keeps_badges_unlockFigure (figureId : string) : keeps_badges (unlockFigure figureId).
Proof.
  apply keeps_badges_same. intros u. unfold unlockFigure, bind, loadUserData.
  destruct (negb (includes (unlockedFigures u) figureId)); eexists _, _;
    split; reflexivity.
Qed.

Lemma keeps_badges_forEach {A : Type} (f : A -> Op unit) (xs : list A) :
  (forall x, keeps_badges (f x)) -> keeps_badges (Quiz.forEach f xs).
Proof.
  intros Hf. induction xs as [|x xs IH]; simpl; [apply keeps_badges_ret|].
  apply keeps_badges_bind; [apply Hf|]. intros _. exact IH.
Qed.

Lemma keeps_badges_addExperience (exp : Z) : keeps_badges (Gamification.addExperience exp).
Proof.
  apply keeps_badges_same. intros u.
  unfold Gamification.addExperience, bind, loadUserData, saveUserData, ret.
  cbv beta iota zeta. eexists _, _. split; [reflexivity|].
  now rewrite levelUpLoop_badges.
Qed.

Lemma keeps_badges_updateStreak (Date_parse : string -> option Z) (today : string) :
  keeps_badges (updateStreak Date_parse today).
Proof.
  apply keeps_badges_same. intros u.
  destruct (updateStreak_fields Date_parse u today) as (newStreak & day & Hrun).
  eexists _, _. split; [exact Hrun|reflexivity].
Qed.

Lemma keeps_badges_checkBadgeConditions (quizResult : QuizResult) :
  keeps_badges (checkBadgeConditions quizResult).
Proof.
  intros u. rewrite checkBadgeConditions_run. eexists _, _, _.
  split; reflexivity.
Qed.

Lemma keeps_badges_checkCategoryMaster (category : string) (allFigures : list Figure) :
  keeps_badges (checkCategoryMaster category allFigures).
Proof.
  intros u. unfold checkCategoryMaster, bind at 1, loadUserData. cbv beta iota.
  destruct (includes (Storage.badges u) (String.append category "_master")) eqn:Hheld.
  { apply keeps_badges_ret. }
  match goal with |- context [if ?b then _ else _] => destruct b end.
  - apply keeps_badges_bind; [apply keeps_badges_awardBadge|].
    intros a. apply keeps_badges_ret.
  - apply keeps_badges_ret.
Qed.

Lemma keeps_badges_getResults (percent : Z -> Z -> Z) (Date_parse : string -> option Z)
    (streakDay historyDay : string) (now : Z) (q : Quiz.QuizManager) :
  keeps_badges (Quiz.getResults percent Date_parse streakDay historyDay now q).
Proof.
  unfold Quiz.getResults.
  apply keeps_badges_bind; [apply keeps_badges_addExperience|]. intros levelUpInfo.
  apply keeps_badges_bind;
    [apply keeps_badges_same; intros u; eexists _, _; split; reflexivity|]. intros _.
  apply keeps_badges_bind; [apply keeps_badges_updateStreak|]. intros newStreak.
  apply keeps_badges_bind; [apply keeps_badges_checkBadgeConditions|]. intros newBadges.
  apply keeps_badges_bind;
    [apply keeps_badges_forEach, keeps_badges_unlockFigure|]. intros _.
  apply keeps_badges_bind;
    [apply keeps_badges_same; intros u; rewrite addQuizToHistory_run;
       eexists _, _; split; reflexivity|]. intros _.
  apply keeps_badges_ret.
Qed.

Lemma keeps_badges_perform (percent : Z -> Z -> Z) (Date_parse : string -> option Z)
    (op : Operation) :
  keeps_badges (perform percent Date_parse op).
Proof.
  destruct op; simpl.
  - apply keeps_badges_discard, keeps_badges_same. intros u. eexists _, _.
    split; reflexivity.
  - apply keeps_badges_same. intros u. eexists _, _. split; reflexivity.
  - apply keeps_badges_same. intros u. eexists _, _. split; reflexivity.
  - apply keeps_badges_unlockFigure.
  - apply keeps_badges_discard, keeps_badges_awardBadge.
  - apply keeps_badges_same. intros u. eexists _, _. split; reflexivity.
  - apply keeps_badges_same. intros u. rewrite addQuizToHistory_run.
    eexists _, _. split; reflexivity.
  - apply keeps_badges_discard, keeps_badges_updateStreak.
  - apply keeps_badges_discard, keeps_badges_addExperience.
  - apply keeps_badges_discard, keeps_badges_checkBadgeConditions.
  - apply keeps_badges_discard, keeps_badges_checkCategoryMaster.
  - apply keeps_badges_discard, keeps_badges_getResults.
Qed.

Lemma keeps_badges_performAll (percent : Z -> Z -> Z) (Date_parse : string -> option Z)
    (ops : list Operation) :
  keeps_badges (performAll percent Date_parse ops).
Proof.
  induction ops as [|op ops IH]; simpl; [apply keeps_badges_ret|].
  apply keeps_badges_bind; [apply keeps_badges_perform|]. intros _. exact IH.
Qed.

(** C5, as stated, fails: [resetUserData], once confirmed, is an
    operation that removes badges.  It replaces a record that holds the
    badge [beginner] by the default record, which holds none. *)
Lemma resetUserData_removes_badges :
  "beginner" ∈ Storage.badges (set_badges ["beginner"] defaultUserData)
  /\ resetUserData true (Some (set_badges ["beginner"] defaultUserData))
     = (tt, Some defaultUserData)
  /\ Storage.badges defaultUserData = [].
Proof. split; [apply list_elem_of_singleton; reflexivity|]. split; reflexivity. Qed.

(** C5, amended: a call of [checkBadgeConditions] awards only badges that
    the stored record does not hold, each of them once, appends their ids
    to the stored badges and returns their definitions; a second call
    with the same session summary on the resulting record awards and
    returns nothing and leaves the record as it is.  [awardBadge] refuses
    a badge that is held.  No operation that updates the record removes a
    badge: after any sequence of the operations of [Operation] (all that
    write the record except [resetUserData], [importData] and
    [updateField]) the stored badge list starts with the list it started
    from. *)
Theorem badges_awarded_once (percent : Z -> Z -> Z) (Date_parse : string -> option Z)
    (quizResult : QuizResult) (u : UserData) (ops : list Operation) :
  (exists (awarded : list (string * Badge)) (u1 : UserData),
     checkBadgeConditions quizResult (Some u) = (map snd awarded, Some u1)
     /\ u1 = set_badges (Storage.badges u ++ map fst awarded) u
     /\ (forall badgeId def, (badgeId, def) ∈ awarded ->
           (badgeId ∉ Storage.badges u) /\ badge_of badgeId = Some def)
     /\ NoDup (map fst awarded)
     /\ (NoDup (Storage.badges u) -> NoDup (Storage.badges u1))
     /\ checkBadgeConditions quizResult (Some u1) = ([], Some u1))
  /\ (forall badgeId,
        (badgeId ∈ Storage.badges u -> awardBadge badgeId (Some u) = (false, Some u))
        /\ (badgeId ∉ Storage.badges u ->
            awardBadge badgeId (Some u) =
              (true, Some (set_badges (Storage.badges u ++ [badgeId]) u))))
  /\ (exists (u' : UserData) (more : list string),
        performAll percent Date_parse ops (Some u) = (tt, Some u')
        /\ Storage.badges u' = Storage.badges u ++ more).
Proof.
  split; [|split].
  - set (held := includes (Storage.badges u)).
    set (rows := List.filter (due held) (badgeChecks quizResult u)).
    set (awarded := map (fun c : string * Badge * bool => (fst (fst c), snd (fst c))) rows).
    assert (Hids : map fst awarded = map (fun c => fst (fst c)) rows).
    { subst awarded. now rewrite map_map. }
    assert (Hnew : forall badgeId def, (badgeId, def) ∈ awarded ->
              (badgeId ∉ Storage.badges u) /\ badge_of badgeId = Some def).
    { intros badgeId def Hin. subst awarded.
      apply list_elem_of_fmap in Hin as (c & Hc & Hrow). injection Hc as -> ->.
      apply list_elem_of_In, filter_In in Hrow as [Hrow Hdue].
      apply list_elem_of_In in Hrow. split.
      - unfold due, held in Hdue. apply andb_prop in Hdue as [Hheld _].
        apply negb_true_iff in Hheld. intros Hin.
        apply includes_spec in Hin. congruence.
      - exact (badgeChecks_catalog _ _ _ Hrow). }
    assert (Hdistinct : NoDup (map fst awarded)).
    { rewrite Hids. apply NoDup_map_filter, badgeChecks_distinct. }
    exists awarded, (set_badges (Storage.badges u ++ map fst awarded) u).
    split; [apply checkBadgeConditions_run|]. split; [reflexivity|].
    split; [exact Hnew|]. split; [exact Hdistinct|]. split.
    { intros Hu. cbn [Storage.badges set_badges]. apply NoDup_app.
      split; [exact Hu|]. split; [|exact Hdistinct].
      intros badgeId Hold Hin.
      apply list_elem_of_fmap in Hin as ([badgeId' def] & -> & Hin).
      now apply (Hnew _ _ Hin). }
    rewrite checkBadgeConditions_run. cbn [Storage.badges set_badges].
    change (badgeChecks quizResult (set_badges (Storage.badges u ++ map fst awarded) u))
      with (badgeChecks quizResult u).
    rewrite filter_none.
    { cbn [map]. rewrite app_nil_r. reflexivity. }
    intros c Hc. unfold due. apply andb_false_iff.
    destruct (snd c) eqn:Hcond; [left|now right]. apply negb_false_iff.
    apply includes_spec, elem_of_app.
    destruct (held (fst (fst c))) eqn:Hheld.
    + left. now apply includes_spec.
    + right. rewrite Hids. apply (list_elem_of_fmap_2 (fun c => fst (fst c))).
      subst rows. apply list_elem_of_In, filter_In. split.
      * now apply list_elem_of_In.
      * unfold due. now rewrite Hheld, Hcond.
  - intros badgeId. rewrite awardBadge_run. split; intros Hin.
    + apply includes_spec in Hin. now rewrite Hin.
    + destruct (includes (Storage.badges u) badgeId) eqn:Hheld; [|reflexivity].
      apply includes_spec in Hheld. contradiction.
  - destruct (keeps_badges_performAll percent Date_parse ops u)
      as ([] & u' & more & Hrun & Hb).
    now exists u', more.
Qed.

End Badges.

(** A perfect first session on a fresh record: two badges, then none. *)
Example checkBadgeConditions_first_then_second :
  let perfect := {| Gamification.qr_correctAnswers := 10;
                    Gamification.qr_totalQuestions := 10;
                    Gamification.qr_difficulty := "beginner" |} in
  let after := set_badges ["beginner"; "perfectionist"] defaultUserData in
  Gamification.checkBadgeConditions perfect (Some defaultUserData)
    = ([Gamification.beginner; Gamification.perfectionist], Some after)
  /\ Gamification.checkBadgeConditions perfect (Some after) = ([], Some after).
Proof. split; reflexivity. Qed.

(** [resetUserData], once confirmed, replaces the whole record by the
    default one; it is the user's own request to start again. *)
Example resetUserData_confirmed (u : UserData) :
  resetUserData true (Some u) = (tt, Some defaultUserData).
Proof. reflexivity. Qed.

(** ** Import of a record *)

Section ImportLaw.
Import Json RawStorage.

Lemma is_string_array_strings (xs : list string) :
  is_string_array (Some (JArr (map JStr xs))) = true.
Proof. simpl. induction xs as [|x xs IH]; simpl; [reflexivity|exact IH]. Qed.

(** Every record the engine writes has the structure that
    [hasUserDataShape] asks for. *)
Lemma hasUserDataShape_toJSON (u : UserData) :
  hasUserDataShape (UserData_toJSON u) = true.
Proof.
  unfold hasUserDataShape, UserData_toJSON.
  change (field "unlockedFigures" _) with (Some (JArr (map JStr (unlockedFigures u)))).
  change (field "badges" _) with (Some (JArr (map JStr (badges u)))).
  rewrite !is_string_array_strings.
  change (field "lastPlayDate" _) with (Some (from_option JStr JNull (lastPlayDate u))).
  destruct (lastPlayDate u); reflexivity.
Qed.

(** C6, as stated, fails: the text of an empty object is not a progress
    record, yet importing it over the default record replaces the stored
    record by the empty object and reloads the page; no failure is
    shown. *)
Lemma importData_commits_empty_object :
  hasUserDataShape (UserData_toJSON defaultUserData) = true
  /\ JSON_parse "{}" = Some (JObj [])
  /\ hasUserDataShape (JObj []) = false
  /\ importData JSON_parse "{}" (persisted (Some defaultUserData))
     = (PageReloaded, Some (JObj []))
  /\ Some (JObj []) <> persisted (Some defaultUserData).
Proof.
  split; [apply hasUserDataShape_toJSON|]. split; [reflexivity|].
  split; [reflexivity|]. split; [reflexivity|]. discriminate.
Qed.

(** C6, amended: [importData] checks only that the text parses as JSON.
    A text that does not parse leaves the stored record as it was and an
    alert reports the failure; a text that parses replaces the stored
    record by the parsed value, whatever its structure, and the page is
    reloaded. *)
Theorem importData_commits_what_parses (JSON_parse : string -> option json)
    (jsonData : string) (raw : RawStore) :
  (JSON_parse jsonData = None ->
     exists message, importData JSON_parse jsonData raw = (AlertShown message, raw))
  /\ (forall userData, JSON_parse jsonData = Some userData ->
        importData JSON_parse jsonData raw = (PageReloaded, Some userData)).
Proof.
  unfold importData. split.
  - intros ->. eexists. reflexivity.
  - intros userData ->. reflexivity.
Qed.

(** A text that is not JSON: the stored record stays. *)
Lemma importData_rejects_broken_text :
  exists message,
    importData JSON_parse "{not json" (persisted (Some played_on_leap_day))
      = (AlertShown message, persisted (Some played_on_leap_day)).
Proof.
  apply (importData_commits_what_parses JSON_parse "{not json"
           (persisted (Some played_on_leap_day))).
  reflexivity.
Defined.

(** A well-formed but foreign document is committed as well. *)
Example importData_commits_foreign_document :
  importData JSON_parse "[1, 2, 3]" (persisted (Some defaultUserData))
  = (PageReloaded, Some (JArr [JNum 1; JNum 2; JNum 3])).
Proof. reflexivity. Qed.

End ImportLaw.

(** * Further properties of the code *)

Import Play.

(** ** Utilities *)

Section UtilityFacts.

Lemma insert_head_swap {A : Type} (l : list A) (j : nat) (x y : A) :
  l !! j = Some y -> y :: <[j := x]> l ≡ₚ x :: l.
Proof.
  revert j. induction l as [|a l IH]; intros [|j] Hj; simpl in *; try discriminate.
  - injection Hj as ->. apply Permutation_swap.
  - rewrite (Permutation_swap a y), (IH j Hj). apply Permutation_swap.
Qed.

Lemma swap_permutation {A : Type} (l : list A) (i j : nat) : swap l i j ≡ₚ l.
Proof.
  unfold swap. destruct (l !! j) as [y|] eqn:Hj; [|reflexivity].
  destruct (l !! i) as [x|] eqn:Hi; [|reflexivity].
  revert i j Hi Hj. induction l as [|a l IH]; intros [|i] [|j] Hi Hj;
    simpl in *; try discriminate.
  - injection Hi as <-. reflexivity.
  - injection Hi as <-. now apply insert_head_swap.
  - injection Hj as <-. now apply insert_head_swap.
  - f_equiv. now apply IH.
Qed.

Lemma shuffle_loop_permutation {A : Type} (rnd : nat -> nat) (i : nat) (l : list A) :
  shuffle_loop rnd i l ≡ₚ l.
Proof.
  revert l. induction i as [|i IH]; intros l; simpl; [reflexivity|].
  rewrite IH. apply swap_permutation.
Qed.

(** [shuffleArray] returns the elements of its argument, each as often as
    it occurs there, whatever the random draws are. *)
Theorem shuffleArray_permutation {A : Type} (rnd : nat -> nat) (array : list A) :
  shuffleArray rnd array ≡ₚ array.
Proof. apply shuffle_loop_permutation. Qed.

(** [clamp] returns its value when it lies between the bounds, the nearer
    bound otherwise; with bounds in order the result lies between them,
    and with bounds out of order it is the upper one. *)
Theorem clamp_bounds (value min max : Z) :
  (min <= max -> min <= clamp value min max <= max)
  /\ (min <= value <= max -> clamp value min max = value)
  /\ (value < min <= max -> clamp value min max = min)
  /\ (max < value -> clamp value min max = max)
  /\ (max < min -> clamp value min max = max)
  /\ clamp (clamp value min max) min max = clamp value min max.
Proof. unfold clamp. repeat split; lia. Qed.

Lemma getRandomElement_elem {A : Type} (r : nat) (array : list A) :
  array <> [] -> exists x, getRandomElement r array = Some x /\ x ∈ array.
Proof.
  unfold getRandomElement. intros Hne. destruct array as [|a array]; [contradiction|].
  set (l := a :: array). assert (Hlen : (0 < length l)%nat) by (simpl; lia).
  destruct (Nat.eqb_spec (length l) 0); [lia|].
  destruct (lookup_lt_is_Some_2 l (r mod length l)) as [x Hx].
  { apply Nat.mod_upper_bound. lia. }
  exists x. split; [exact Hx|]. now apply list_elem_of_lookup_2 in Hx.
Qed.

(** [getRandomElement] returns an element of a non-empty array, whatever
    the draw, and [undefined] for an empty one. *)
Theorem getRandomElement_member {A : Type} (r : nat) (array : list A) :
  (array = [] -> getRandomElement r array = None)
  /\ (array <> [] -> exists x, getRandomElement r array = Some x /\ x ∈ array).
Proof.
  split; [intros ->; reflexivity|apply getRandomElement_elem].
Qed.

(** The daily challenge always starts with one of the three difficulties
    that have base points of their own. *)
Theorem dailyChallengeDifficulty_known (r : nat) :
  exists difficulty,
    dailyChallengeDifficulty r = Some difficulty
    /\ difficulty ∈ difficulties
    /\ is_Some (Gamification.basePoints !! difficulty).
Proof.
  destruct (getRandomElement_elem r difficulties ltac:(discriminate))
    as (d & Hd & Hin).
  exists d. split; [exact Hd|]. split; [exact Hin|].
  unfold difficulties in Hin. rewrite !elem_of_cons, elem_of_nil in Hin.
  destruct Hin as [->|[->|[->|[]]]]; eexists; reflexivity.
Qed.

End UtilityFacts.

(** ** The session from start to last question *)

Section SessionFlow.
Import Quiz.

(** The session that [startQuiz] leaves, on either path. *)
Lemma startQuiz_state (rnd : nat -> nat) (difficulty : string) (q : QuizManager) :
  snd (startQuiz rnd difficulty q) =
    {| questions := questions q;
       currentQuestions := selectQuestions rnd q difficulty 10;
       currentQuestionIndex := 0%nat; score := 0; correctAnswers := 0;
       wrongAnswers := []; consecutiveCorrect := 0; difficulty := difficulty;
       isAnswered := isAnswered q |}.
Proof.
  unfold startQuiz.
  match goal with |- context [if ?b then _ else _] => destruct b end; reflexivity.
Qed.

(** A started session holds questions of the pool that have the requested
    difficulty, at most 10 of them and all of them when fewer match, none
    more often than it occurs among the matching questions of the pool;
    the call succeeds exactly when a question matches, and on success the
    counters are those of a fresh session. *)
Theorem startQuiz_selection (rnd : nat -> nat) (difficulty : string) (q : QuizManager) :
  let matching :=
    List.filter (fun x => String.eqb (q_difficulty x) difficulty) (questions q) in
  let started := snd (startQuiz rnd difficulty q) in
  (forall x, x ∈ currentQuestions started ->
     q_difficulty x = difficulty /\ x ∈ questions q)
  /\ length (currentQuestions started) = Nat.min 10 (length matching)
  /\ (exists unused, currentQuestions started ++ unused ≡ₚ matching)
  /\ (fst (startQuiz rnd difficulty q) = true <-> matching <> [])
  /\ questions started = questions q
  /\ currentQuestionIndex started = 0%nat
  /\ score started = 0 /\ correctAnswers started = 0
  /\ consecutiveCorrect started = 0 /\ wrongAnswers started = []
  /\ Quiz.difficulty started = difficulty
  /\ isAnswered started = isAnswered q.
Proof.
  intros matching started.
  destruct (startQuiz_selects rnd difficulty q) as [Hsize Hok].
  fold matching in Hsize, Hok. fold started in Hsize.
  assert (Hsel : currentQuestions started = take 10 (shuffleArray rnd matching)).
  { subst started. rewrite startQuiz_state. reflexivity. }
  assert (Hperm : currentQuestions started ++ drop 10 (shuffleArray rnd matching)
                  ≡ₚ matching).
  { rewrite Hsel, take_drop. apply shuffle_loop_permutation. }
  split; [|split; [exact Hsize|split; [eauto|split]]].
  - intros x Hx.
    assert (Hin : x ∈ matching).
    { rewrite <- Hperm. apply elem_of_app. now left. }
    subst matching. apply list_elem_of_In, filter_In in Hin as [Hpool Hd].
    split; [now apply String.eqb_eq|now apply list_elem_of_In].
  - rewrite Hok. destruct matching; simpl; split; congruence.
  - subst started. rewrite startQuiz_state. repeat split; reflexivity.
Qed.

(** [startQuiz] does not clear the answered guard: when a quiz is left
    after an answer and a new one is started, the first answer of the new
    session is refused with [null] and changes nothing. *)
Theorem startQuiz_keeps_guard (rnd : nat -> nat) (difficulty : string)
    (q : QuizManager) (selectedOption : nat) :
  isAnswered q = true ->
  let started := snd (startQuiz rnd difficulty q) in
  isAnswered started = true
  /\ checkAnswer selectedOption started = (Returned None, started).
Proof.
  intros Hguard started.
  assert (Hkept : isAnswered started = true).
  { subst started. rewrite startQuiz_state. exact Hguard. }
  split; [exact Hkept|]. now apply checkAnswer_answered.
Qed.

Lemma startQuiz_keeps_guard_sample :
  isAnswered (snd (checkAnswer 0 sample_session)) = true
  /\ isAnswered (snd (startQuiz (fun _ => 0%nat) "beginner"
                        (snd (checkAnswer 0 sample_session)))) = true
  /\ checkAnswer 0 (snd (startQuiz (fun _ => 0%nat) "beginner"
                           (snd (checkAnswer 0 sample_session))))
     = (Returned None,
        snd (startQuiz (fun _ => 0%nat) "beginner" (snd (checkAnswer 0 sample_session)))).
Proof.
  split; [reflexivity|].
  apply (startQuiz_keeps_guard (fun _ => 0%nat) "beginner"
           (snd (checkAnswer 0 sample_session)) 0).
  reflexivity.
Defined.

(** What an accepted answer does to the session. *)
Lemma checkAnswer_accepted (selectedOption : nat) (q : QuizManager) (question : Question) :
  isAnswered q = false ->
  getCurrentQuestion q = Some question ->
  exists r,
    checkAnswer selectedOption q =
      (Returned (Some r),
       if (selectedOption =? q_correctAnswer question)%nat
       then scoreCorrect (set_isAnswered true q)
       else recordWrong question selectedOption (set_isAnswered true q)).
Proof.
  intros Hguard Hcurrent. unfold checkAnswer. rewrite Hguard, Hcurrent.
  eexists. reflexivity.
Qed.

(** A question is scored once: after an accepted answer every further
    answer to the same question returns [null] and leaves score, counters
    and wrong answers as they are, until [nextQuestion] clears the guard. *)
Theorem checkAnswer_once (first second : nat) (q : QuizManager) (question : Question) :
  isAnswered q = false ->
  getCurrentQuestion q = Some question ->
  let answered := snd (checkAnswer first q) in
  isAnswered answered = true
  /\ checkAnswer second answered = (Returned None, answered)
  /\ isAnswered (snd (nextQuestion answered)) = false.
Proof.
  intros Hguard Hcurrent answered.
  destruct (checkAnswer_accepted first q question Hguard Hcurrent) as (r & Hrun).
  assert (Hset : isAnswered answered = true).
  { subst answered. rewrite Hrun. cbn [snd]. destruct (_ =? _)%nat; reflexivity. }
  split; [exact Hset|]. split; [now apply checkAnswer_answered|reflexivity].
Qed.

Lemma checkAnswer_once_sample :
  isAnswered sample_session = false
  /\ getCurrentQuestion sample_session = Some sample_question
  /\ isAnswered (snd (checkAnswer 0 sample_session)) = true
  /\ checkAnswer 2 (snd (checkAnswer 0 sample_session))
     = (Returned None, snd (checkAnswer 0 sample_session))
  /\ isAnswered (snd (nextQuestion (snd (checkAnswer 0 sample_session)))) = false.
Proof.
  split; [reflexivity|]. split; [reflexivity|].
  apply (checkAnswer_once 0 2 sample_session sample_question); reflexivity.
Defined.

(** [nextQuestion] answers [true] exactly when the advanced cursor points
    at a question; when it answers [false] there is no current question
    and an answer would throw without changing the session.  It changes
    nothing but the cursor and the guard. *)
Theorem nextQuestion_current (q : QuizManager) (selectedOption : nat) :
  let advanced := snd (nextQuestion q) in
  (fst (nextQuestion q) = true <-> is_Some (getCurrentQuestion advanced))
  /\ (fst (nextQuestion q) = false ->
      getCurrentQuestion advanced = None
      /\ checkAnswer selectedOption advanced = (Threw, advanced))
  /\ currentQuestionIndex advanced = S (currentQuestionIndex q)
  /\ isAnswered advanced = false
  /\ score advanced = score q
  /\ correctAnswers advanced = correctAnswers q
  /\ consecutiveCorrect advanced = consecutiveCorrect q
  /\ wrongAnswers advanced = wrongAnswers q
  /\ currentQuestions advanced = currentQuestions q
  /\ questions advanced = questions q
  /\ difficulty advanced = difficulty q.
Proof.
  intros advanced. subst advanced. unfold nextQuestion, getCurrentQuestion.
  cbn [fst snd currentQuestions currentQuestionIndex set_isAnswered isAnswered
       score correctAnswers consecutiveCorrect wrongAnswers questions difficulty].
  replace (currentQuestionIndex q + 1)%nat with (S (currentQuestionIndex q)) by lia.
  split; [|split].
  - rewrite Nat.ltb_lt. symmetry. apply lookup_lt_is_Some.
  - intros Hno. apply Nat.ltb_ge in Hno.
    assert (Hnone : currentQuestions q !! S (currentQuestionIndex q) = None)
      by now apply lookup_ge_None.
    split; [exact Hnone|].
    unfold checkAnswer, getCurrentQuestion.
    cbn [isAnswered currentQuestions currentQuestionIndex]. now rewrite Hnone.
  - repeat split; reflexivity.
Qed.

End SessionFlow.

(** ** Tally of a session *)

Section Tally.
Import Quiz.

Lemma calculatePoints_range (difficulty : string) (consecutiveCorrect : Z) :
  10 <= Gamification.calculatePoints difficulty true consecutiveCorrect <= 60.
Proof.
  rewrite calculatePoints_bonus, basePoints_lookup.
  unfold Gamification.calculateConsecutiveBonus.
  repeat case_decide; simpl;
    destruct (Z.leb_spec 5 consecutiveCorrect), (Z.leb_spec 3 consecutiveCorrect); lia.
Qed.

(** One question answered and left behind, field by field. *)
Lemma answerQuestion_step (selectedOption : nat) (q : QuizManager) (question : Question) :
  isAnswered q = false ->
  getCurrentQuestion q = Some question ->
  let ok := (selectedOption =? q_correctAnswer question)%nat in
  let q' := answerQuestion selectedOption q in
  currentQuestionIndex q' = S (currentQuestionIndex q)
  /\ isAnswered q' = false
  /\ currentQuestions q' = currentQuestions q
  /\ questions q' = questions q
  /\ difficulty q' = difficulty q
  /\ correctAnswers q' = correctAnswers q + (if ok then 1 else 0)
  /\ consecutiveCorrect q' = (if ok then consecutiveCorrect q + 1 else 0)
  /\ score q' = score q
                + (if ok then Gamification.calculatePoints (difficulty q) true
                                (consecutiveCorrect q + 1)
                   else 0)
  /\ wrongAnswers q' = wrongAnswers q
                       ++ (if wrong_entry question selectedOption is Some w then [w] else []).
Proof.
  intros Hguard Hcurrent ok q'. subst q'. unfold answerQuestion.
  destruct (checkAnswer_accepted selectedOption q question Hguard Hcurrent) as (r & ->).
  unfold wrong_entry. subst ok. cbn [snd].
  destruct (selectedOption =? q_correctAnswer question)%nat; cbn.
  - rewrite app_nil_r. repeat split; try reflexivity; lia.
  - repeat split; try reflexivity; lia.
Qed.

Lemma count_correct_cons (question : Question) (asked : list Question)
    (selectedOption : nat) (selected : list nat) :
  count_correct (question :: asked) (selectedOption :: selected) =
    (if (selectedOption =? q_correctAnswer question)%nat then 1 else 0)
    + count_correct asked selected.
Proof.
  unfold count_correct. cbn [zip zip_with List.filter fst snd].
  destruct (selectedOption =? q_correctAnswer question)%nat; cbn [length]; lia.
Qed.

Lemma count_correct_bounds (asked : list Question) (selected : list nat) :
  0 <= count_correct asked selected <= Z.of_nat (length selected).
Proof.
  revert asked. induction selected as [|s selected IH]; intros asked.
  - unfold count_correct. destruct asked; simpl; lia.
  - destruct asked as [|question asked].
    + unfold count_correct. simpl. lia.
    + rewrite count_correct_cons. specialize (IH asked).
      destruct (s =? q_correctAnswer question)%nat; cbn [length]; lia.
Qed.

Lemma asked_next_S (n : nat) (q : QuizManager) (question : Question)
    (selectedOption : nat) :
  isAnswered q = false ->
  getCurrentQuestion q = Some question ->
  asked_next (S n) q = question :: asked_next n (answerQuestion selectedOption q).
Proof.
  intros Hguard Hcurrent.
  destruct (answerQuestion_step selectedOption q question Hguard Hcurrent)
    as (Hidx & _ & Hsame & _).
  unfold asked_next. rewrite Hidx, Hsame.
  rewrite (drop_S _ _ _ Hcurrent). reflexivity.
Qed.

(** The counters after a run of answers. *)
Lemma answerQuestions_counts (selected : list nat) (q : QuizManager) :
  isAnswered q = false ->
  (currentQuestionIndex q + length selected <= length (currentQuestions q))%nat ->
  let asked := asked_next (length selected) q in
  let q' := answerQuestions selected q in
  currentQuestionIndex q' = (currentQuestionIndex q + length selected)%nat
  /\ isAnswered q' = false
  /\ currentQuestions q' = currentQuestions q
  /\ difficulty q' = difficulty q
  /\ correctAnswers q' = correctAnswers q + count_correct asked selected
  /\ wrongAnswers q' =
       wrongAnswers q ++ omap (fun qs => wrong_entry (fst qs) (snd qs)) (zip asked selected)
  /\ correctAnswers q' + Z.of_nat (length (wrongAnswers q'))
     = correctAnswers q + Z.of_nat (length (wrongAnswers q))
       + Z.of_nat (length selected)
  /\ score q + 10 * count_correct asked selected <= score q'
     <= score q + 60 * count_correct asked selected.
Proof.
  revert q. induction selected as [|s selected IH]; intros q Hguard Hroom.
  - cbn [length answerQuestions]. cbn zeta. unfold asked_next. rewrite take_0.
    unfold count_correct. cbn [zip zip_with omap List.filter length].
    rewrite app_nil_r. repeat split; try assumption; try reflexivity; lia.
  - cbn [length] in Hroom.
    destruct (lookup_lt_is_Some_2 (currentQuestions q) (currentQuestionIndex q))
      as [question Hcurrent]; [lia|].
    fold (getCurrentQuestion q) in Hcurrent.
    pose proof (answerQuestion_step s q question Hguard Hcurrent)
      as (Hidx & Hclear & Hsame & _ & Hdiff & Hcorrect & _ & Hscore & Hwrong).
    specialize (IH (answerQuestion s q) Hclear).
    rewrite Hidx, Hsame in IH. specialize (IH ltac:(lia)).
    cbn zeta in IH. destruct IH as (Ki & Kg & Kq & Kd & Kc & Kw & Ksum & Kscore).
    cbn [length answerQuestions]. cbn zeta.
    rewrite (asked_next_S _ _ _ s Hguard Hcurrent), count_correct_cons.
    set (rest := asked_next (length selected) (answerQuestion s q)) in *.
    set (q' := answerQuestions selected (answerQuestion s q)) in *.
    pose proof (calculatePoints_range (difficulty q) (consecutiveCorrect q + 1)).
    split; [lia|]. split; [exact Kg|]. split; [congruence|]. split; [congruence|].
    split; [lia|]. split.
    { rewrite Kw, Hwrong, <- app_assoc. f_equal.
      cbn [zip zip_with omap list_omap fst snd].
      destruct (wrong_entry question s); reflexivity. }
    split.
    { rewrite Ksum, Hcorrect, Hwrong, length_app. unfold wrong_entry.
      destruct (s =? q_correctAnswer question)%nat; cbn [length]; lia. }
    rewrite Hscore in Kscore. destruct (s =? q_correctAnswer question)%nat; lia.
Qed.

(** Answering the next questions of a session in turn: every answer is
    counted once, as correct or with an entry in [wrongAnswers], in the
    order of the questions; the cursor has passed the questions answered
    and the guard is clear.  When the difficulty is no name of
    [Object.prototype], each correct answer earns between 10 and 60
    points and a wrong one none. *)
Theorem answerQuestions_tally (selected : list nat) (q : QuizManager) :
  isAnswered q = false ->
  (currentQuestionIndex q + length selected <= length (currentQuestions q))%nat ->
  let asked := asked_next (length selected) q in
  let q' := answerQuestions selected q in
  currentQuestionIndex q' = (currentQuestionIndex q + length selected)%nat
  /\ isAnswered q' = false
  /\ currentQuestions q' = currentQuestions q
  /\ difficulty q' = difficulty q
  /\ correctAnswers q' = correctAnswers q + count_correct asked selected
  /\ wrongAnswers q' =
       wrongAnswers q ++ omap (fun qs => wrong_entry (fst qs) (snd qs)) (zip asked selected)
  /\ correctAnswers q' + Z.of_nat (length (wrongAnswers q'))
     = correctAnswers q + Z.of_nat (length (wrongAnswers q))
       + Z.of_nat (length selected)
  /\ (inherited (difficulty q) = false ->
      score q + 10 * count_correct asked selected <= score q'
      <= score q + 60 * count_correct asked selected).
Proof.
  intros Hguard Hroom asked q'.
  destruct (answerQuestions_counts selected q Hguard Hroom)
    as (Hi & Hg & Hq & Hd & Hc & Hw & Hsum & Hscore).
  repeat (split; [assumption|]). intros _. exact Hscore.
Qed.

Lemma answerQuestions_tally_fresh :
  isAnswered fresh_session = false
  /\ (currentQuestionIndex fresh_session + length [0; 1; 0]
      <= length (currentQuestions fresh_session))%nat
  /\ currentQuestionIndex (answerQuestions [0; 1; 0]%nat fresh_session) = 3%nat
  /\ correctAnswers (answerQuestions [0; 1; 0]%nat fresh_session)
     + Z.of_nat (length (wrongAnswers (answerQuestions [0; 1; 0]%nat fresh_session)))
     = 3
  /\ score fresh_session
       + 10 * count_correct (asked_next (length [0; 1; 0]%nat) fresh_session) [0; 1; 0]%nat
     <= score (answerQuestions [0; 1; 0]%nat fresh_session)
     <= score fresh_session
        + 60 * count_correct (asked_next (length [0; 1; 0]%nat) fresh_session)
               [0; 1; 0]%nat.
Proof.
  split; [reflexivity|]. split; [vm_compute; lia|].
  destruct (answerQuestions_tally [0; 1; 0]%nat fresh_session)
    as (Hidx & _ & _ & _ & _ & _ & Hsum & Hscore);
    [reflexivity|vm_compute; lia|].
  split; [exact Hidx|]. split; [exact Hsum|]. apply Hscore.
  vm_compute. reflexivity.
Defined.

Lemma streak_bonus_step (c : Z) :
  0 <= c ->
  streak_bonus (c + 1) = streak_bonus c + Gamification.calculateConsecutiveBonus (c + 1).
Proof.
  intros Hc. unfold streak_bonus, Gamification.calculateConsecutiveBonus.
  destruct (Z.leb_spec 5 (c + 1)), (Z.leb_spec 3 (c + 1)); lia.
Qed.

Lemma answerQuestions_correct_run (n : nat) :
  forall q : QuizManager,
    isAnswered q = false ->
    0 <= consecutiveCorrect q ->
    (currentQuestionIndex q + n <= length (currentQuestions q))%nat ->
    let q' := answerQuestions (map q_correctAnswer (asked_next n q)) q in
    score q' = score q
               + Z.of_nat n * Gamification.calculatePoints (difficulty q) true 0
               + streak_bonus (consecutiveCorrect q + Z.of_nat n)
               - streak_bonus (consecutiveCorrect q)
    /\ correctAnswers q' = correctAnswers q + Z.of_nat n
    /\ consecutiveCorrect q' = consecutiveCorrect q + Z.of_nat n
    /\ wrongAnswers q' = wrongAnswers q
    /\ currentQuestionIndex q' = (currentQuestionIndex q + n)%nat.
Proof.
  induction n as [|n IH]; intros q Hguard Hrow Hroom.
  - unfold asked_next. rewrite take_0. cbn [map answerQuestions]. cbn zeta.
    rewrite !Z.add_0_r. repeat split; lia.
  - destruct (lookup_lt_is_Some_2 (currentQuestions q) (currentQuestionIndex q))
      as [question Hcurrent]; [lia|].
    fold (getCurrentQuestion q) in Hcurrent.
    rewrite (asked_next_S _ _ _ (q_correctAnswer question) Hguard Hcurrent).
    cbn [map answerQuestions]. cbn zeta.
    pose proof (answerQuestion_step (q_correctAnswer question) q question Hguard Hcurrent)
      as (Hidx & Hclear & Hsame & _ & Hdiff & Hcorrect & Hcons & Hscore & Hwrong).
    cbn zeta in Hcorrect, Hcons, Hscore, Hwrong.
    unfold wrong_entry in Hwrong. rewrite Nat.eqb_refl in *. rewrite app_nil_r in Hwrong.
    specialize (IH (answerQuestion (q_correctAnswer question) q) Hclear).
    rewrite Hidx, Hsame, Hcons, Hdiff, Hcorrect, Hscore, Hwrong in IH.
    destruct IH as (Ks & Kc & Kr & Kw & Ki); [lia|lia|].
    rewrite Ks, Kc, Kr, Kw, Ki.
    pose proof (streak_bonus_step (consecutiveCorrect q) Hrow) as Hstep.
    rewrite (calculatePoints_bonus (difficulty q) (consecutiveCorrect q + 1)).
    rewrite (calculatePoints_bonus (difficulty q) 0).
    change (Gamification.calculateConsecutiveBonus 0) with 0.
    replace (consecutiveCorrect q + 1 + Z.of_nat n)
      with (consecutiveCorrect q + Z.of_nat (S n)) by lia.
    repeat split; lia.
Qed.

(** A run of correct answers from the start of a session whose
    difficulty is no name of [Object.prototype]: [n] answers earn [n]
    times the base points of the difficulty, which are a number, plus 10
    for each answer from the third on and 20 more for each from the fifth
    on; nothing is recorded as wrong. *)
Theorem answerQuestions_all_correct (n : nat) (q : QuizManager) :
  isAnswered q = false ->
  consecutiveCorrect q = 0 ->
  inherited (difficulty q) = false ->
  (currentQuestionIndex q + n <= length (currentQuestions q))%nat ->
  let q' := answerQuestions (map q_correctAnswer (asked_next n q)) q in
  exists base : Z,
    Gamification.calculatePoints_value (difficulty q) true 0 = Gamification.Number base
    /\ score q' = score q + Z.of_nat n * base + streak_bonus (Z.of_nat n)
    /\ correctAnswers q' = correctAnswers q + Z.of_nat n
    /\ consecutiveCorrect q' = Z.of_nat n
    /\ wrongAnswers q' = wrongAnswers q
    /\ currentQuestionIndex q' = (currentQuestionIndex q + n)%nat.
Proof.
  intros Hguard Hzero Hown Hroom.
  destruct (answerQuestions_correct_run n q Hguard ltac:(lia) Hroom)
    as (Hs & Hc & Hr & Hw & Hi).
  rewrite Hzero, Z.add_0_l in Hs, Hr. change (streak_bonus 0) with 0 in Hs.
  cbn zeta. exists (Gamification.calculatePoints (difficulty q) true 0).
  split; [now apply calculatePoints_number|].
  rewrite Hs, Hc, Hr, Hw, Hi. repeat split; lia.
Qed.

(** Ten correct answers in a beginner session: 10 * 10 + 80 + 120. *)
Lemma answerQuestions_all_correct_ten :
  isAnswered fresh_session = false
  /\ consecutiveCorrect fresh_session = 0
  /\ inherited (difficulty fresh_session) = false
  /\ (currentQuestionIndex fresh_session + 10 <= length (currentQuestions fresh_session))%nat
  /\ score (answerQuestions (map q_correctAnswer (asked_next 10 fresh_session))
              fresh_session) = 300.
Proof.
  split; [reflexivity|]. split; [reflexivity|].
  split; [vm_compute; reflexivity|]. split; [vm_compute; lia|].
  destruct (answerQuestions_all_correct 10 fresh_session) as (base & Hbase & Hs & _);
    [reflexivity|reflexivity|vm_compute; reflexivity|vm_compute; lia|].
  rewrite Hs. vm_compute in Hbase. injection Hbase as <-. reflexivity.
Defined.

End Tally.

(** ** Unlocked figures *)

Section Figures.
Import Quiz.

Lemma bind_run {A B : Type} (c : Op A) (k : A -> Op B) (st st' : Store) (a : A) :
  c st = (a, st') -> bind c k st = k a st'.
Proof. intros Hrun. unfold bind. now rewrite Hrun. Qed.

Lemma set_unlockedFigures_same (u : UserData) :
  set_unlockedFigures (unlockedFigures u) u = u.
Proof. destruct u. reflexivity. Qed.

Lemma unlockFigure_run (figureId : string) (u : UserData) :
  unlockFigure figureId (Some u) =
    (tt, Some (if includes (unlockedFigures u) figureId then u
               else set_unlockedFigures (unlockedFigures u ++ [figureId]) u)).
Proof.
  unfold unlockFigure, bind, loadUserData. cbv beta iota.
  destruct (includes (unlockedFigures u) figureId); reflexivity.
Qed.

(** Unlocking a list of figures appends the new ones, each once. *)
Lemma unlock_each_run (figureIds : list string) :
  forall u : UserData,
    exists added : list string,
      forEach unlockFigure figureIds (Some u)
        = (tt, Some (set_unlockedFigures (unlockedFigures u ++ added) u))
      /\ (forall x, x ∈ figureIds -> x ∈ unlockedFigures u ++ added)
      /\ (forall x, x ∈ added -> x ∈ figureIds /\ x ∉ unlockedFigures u)
      /\ NoDup added.
Proof.
  induction figureIds as [|figureId rest IH]; intros u.
  - exists []. cbn [forEach]. unfold ret. rewrite app_nil_r, set_unlockedFigures_same.
    split; [reflexivity|]. split; [intros x Hx; now apply elem_of_nil in Hx|].
    split; [intros x Hx; now apply elem_of_nil in Hx|constructor].
  - cbn [forEach]. rewrite (bind_run _ _ _ _ _ (unlockFigure_run figureId u)).
    destruct (includes (unlockedFigures u) figureId) eqn:Hheld.
    + apply includes_spec in Hheld.
      destruct (IH u) as (added & Hrun & Hall & Hnew & Hdistinct).
      exists added. split; [exact Hrun|]. split; [|split; [|exact Hdistinct]].
      * intros x Hx. apply elem_of_cons in Hx as [->|Hx]; [|now apply Hall].
        apply elem_of_app. now left.
      * intros x Hx. destruct (Hnew x Hx) as [Hin Hout]. split; [now right|exact Hout].
    + assert (Hfresh : figureId ∉ unlockedFigures u).
      { intros Hin. apply includes_spec in Hin. congruence. }
      destruct (IH (set_unlockedFigures (unlockedFigures u ++ [figureId]) u))
        as (added & Hrun & Hall & Hnew & Hdistinct).
      cbn [unlockedFigures set_unlockedFigures] in *.
      exists (figureId :: added). split; [|split; [|split]].
      * rewrite Hrun. cbn [set_unlockedFigures unlockedFigures].
        now rewrite <- app_assoc.
      * intros x Hx. apply elem_of_cons in Hx as [->|Hx].
        { rewrite elem_of_app, elem_of_cons. right. now left. }
        specialize (Hall x Hx). rewrite <- app_assoc in Hall. exact Hall.
      * intros x Hx. apply elem_of_cons in Hx as [->|Hx]; [split; [left|]; easy|].
        destruct (Hnew x Hx) as [Hin Hout]. split; [now right|].
        intros Hold. apply Hout. apply elem_of_app. now left.
      * apply NoDup_cons. split; [|exact Hdistinct].
        intros Hin. destruct (Hnew _ Hin) as [_ Hout]. apply Hout.
        rewrite elem_of_app, list_elem_of_singleton. now right.
Qed.

Lemma unlock_each_known (figureIds : list string) (u : UserData) :
  (forall x, x ∈ figureIds -> x ∈ unlockedFigures u) ->
  forEach unlockFigure figureIds (Some u) = (tt, Some u).
Proof.
  induction figureIds as [|figureId rest IH]; intros Hknown; [reflexivity|].
  cbn [forEach]. rewrite (bind_run _ _ _ _ _ (unlockFigure_run figureId u)).
  assert (Hheld : includes (unlockedFigures u) figureId = true)
    by (apply includes_spec, Hknown; left).
  rewrite Hheld. apply IH. intros x Hx. apply Hknown. now right.
Qed.

Lemma unique_in_order_elem (xs : list string) :
  forall (seen : list string) (x : string),
    x ∈ unique_in_order seen xs <-> x ∈ xs /\ x ∉ seen.
Proof.
  induction xs as [|y xs IH]; intros seen x; cbn [unique_in_order].
  - rewrite elem_of_nil. tauto.
  - case_bool_decide as Hy.
    + rewrite IH, elem_of_cons. split; [tauto|].
      intros [[->|Hx] Hout]; [contradiction|tauto].
    + rewrite elem_of_cons, IH, !elem_of_cons.
      destruct (decide (x = y)) as [->|Hne]; [tauto|]. tauto.
Qed.

Lemma unlockFiguresFromQuiz_run (q : QuizManager) (u : UserData) :
  exists added : list string,
    unlockFiguresFromQuiz q (Some u)
      = (tt, Some (set_unlockedFigures (unlockedFigures u ++ added) u))
    /\ (forall x, x ∈ currentQuestions q -> q_figureId x ∈ unlockedFigures u ++ added)
    /\ (forall y, y ∈ added ->
          (y ∉ unlockedFigures u)
          /\ exists x, x ∈ currentQuestions q /\ q_figureId x = y)
    /\ NoDup added.
Proof.
  unfold unlockFiguresFromQuiz.
  set (ids := unique_in_order [] (map q_figureId (currentQuestions q))).
  assert (Hids : forall y, y ∈ ids <-> exists x, x ∈ currentQuestions q /\ q_figureId x = y).
  { intros y. subst ids. rewrite unique_in_order_elem, list_elem_of_fmap.
    split.
    - intros [(x & -> & Hx) _]. eauto.
    - intros (x & Hx & <-). split; [eauto|apply not_elem_of_nil]. }
  destruct (unlock_each_run ids u) as (added & Hrun & Hall & Hnew & Hdistinct).
  exists added. split; [exact Hrun|].
  split; [intros x Hx; apply Hall, Hids; eauto|].
  split; [|exact Hdistinct].
  intros y Hy. destruct (Hnew y Hy) as [Hin Hout]. split; [exact Hout|now apply Hids].
Qed.

(** [unlockFigure] is idempotent and never stores a figure twice; after
    [unlockFiguresFromQuiz] every figure of the session's questions is
    unlocked, the figures unlocked before stay in place, only figures of
    the session are added, none twice, and a second run changes
    nothing. *)
Theorem unlockFiguresFromQuiz_unlocks (q : QuizManager) (u : UserData) (figureId : string) :
  (exists u1, unlockFigure figureId (Some u) = (tt, Some u1)
     /\ figureId ∈ unlockedFigures u1
     /\ unlockFigure figureId (Some u1) = (tt, Some u1)
     /\ (figureId ∈ unlockedFigures u -> u1 = u)
     /\ (NoDup (unlockedFigures u) -> NoDup (unlockedFigures u1)))
  /\ (exists (u' : UserData) (added : list string),
        unlockFiguresFromQuiz q (Some u) = (tt, Some u')
        /\ u' = set_unlockedFigures (unlockedFigures u ++ added) u
        /\ (forall x, x ∈ currentQuestions q -> q_figureId x ∈ unlockedFigures u')
        /\ (forall y, y ∈ added ->
              (y ∉ unlockedFigures u)
              /\ exists x, x ∈ currentQuestions q /\ q_figureId x = y)
        /\ NoDup added
        /\ (NoDup (unlockedFigures u) -> NoDup (unlockedFigures u'))
        /\ unlockFiguresFromQuiz q (Some u') = (tt, Some u')).
Proof.
  split.
  - eexists. split; [apply unlockFigure_run|].
    destruct (includes (unlockedFigures u) figureId) eqn:Hheld.
    + pose proof (proj1 (includes_spec _ _) Hheld) as Hin.
      split; [exact Hin|]. split; [rewrite unlockFigure_run, Hheld; reflexivity|].
      split; [reflexivity|easy].
    + assert (Hfresh : figureId ∉ unlockedFigures u).
      { intros Hin. apply includes_spec in Hin. congruence. }
      cbn [unlockedFigures set_unlockedFigures].
      assert (Hnow : figureId ∈ unlockedFigures u ++ [figureId]).
      { rewrite elem_of_app, list_elem_of_singleton. now right. }
      split; [exact Hnow|]. split.
      { rewrite unlockFigure_run. cbn [unlockedFigures set_unlockedFigures].
        apply includes_spec in Hnow. now rewrite Hnow. }
      split; [contradiction|].
      intros Hu. apply NoDup_app. split; [exact Hu|]. split; [|apply NoDup_singleton].
      intros x Hx Hin. apply list_elem_of_singleton in Hin. now subst.
  - destruct (unlockFiguresFromQuiz_run q u) as (added & Hrun & Hall & Hnew & Hdistinct).
    exists (set_unlockedFigures (unlockedFigures u ++ added) u), added.
    split; [exact Hrun|]. split; [reflexivity|].
    cbn [unlockedFigures set_unlockedFigures].
    split; [exact Hall|]. split; [exact Hnew|]. split; [exact Hdistinct|]. split.
    + intros Hu. apply NoDup_app. split; [exact Hu|]. split; [|exact Hdistinct].
      intros x Hx Hin. now destruct (Hnew x Hin).
    + unfold unlockFiguresFromQuiz. apply unlock_each_known.
      intros y Hy. apply unique_in_order_elem in Hy as [Hy _].
      apply list_elem_of_fmap in Hy as (x & -> & Hx). now apply Hall.
Qed.

End Figures.

(** ** The end of a session *)

(** What [updateStreak] stores: today's date, and a streak that is kept
    or extended only when a date was stored before. *)
Lemma updateStreak_kinds (Date_parse : string -> option Z) (u : UserData)
    (today : string) :
  exists newStreak : Z,
    updateStreak Date_parse today (Some u) =
      (newStreak, Some (set_lastPlayDate (Some today) (set_streak newStreak u)))
    /\ (((newStreak = streak u \/ newStreak = streak u + 1) /\ lastPlayDate u <> None)
        \/ newStreak = 1).
Proof.
  unfold updateStreak, bind, loadUserData, saveUserData, ret. cbn beta iota.
  case_bool_decide as Hsame.
  - exists (streak u). split; [|left; split; [now left|congruence]].
    destruct u; simpl in *; subst; reflexivity.
  - destruct (lastPlayDate u) as [last|] eqn:Hlast;
      [|exists 1; split; [reflexivity|tauto]].
    destruct (truthy (Some last)); [|exists 1; split; [reflexivity|tauto]].
    destruct (diffDays Date_parse today last) as [d|].
    + destruct (d =? 1);
        [eexists; split; [reflexivity|left; split; [now right|congruence]]|].
      destruct (1 <? d); [exists 1; split; [reflexivity|tauto]|].
      exists (streak u).
      split; [destruct u; reflexivity|left; split; [now left|congruence]].
    + exists (streak u).
      split; [destruct u; reflexivity|left; split; [now left|congruence]].
Qed.

Lemma updateStreak_outcome (Date_parse : string -> option Z) (u : UserData)
    (today : string) :
  exists newStreak : Z,
    updateStreak Date_parse today (Some u) =
      (newStreak, Some (set_lastPlayDate (Some today) (set_streak newStreak u)))
    /\ ((newStreak = streak u /\ lastPlayDate u <> None)
        \/ newStreak = streak u + 1 \/ newStreak = 1).
Proof.
  destruct (updateStreak_kinds Date_parse u today) as (newStreak & Hrun & Hkind).
  exists newStreak. split; [exact Hrun|tauto].
Qed.

Section Results.
Import Quiz Gamification.

Variable percent : Z -> Z -> Z.
Variable Date_parse : string -> option Z.

(** The loop writes the level and the experience only; the level does not
    fall. *)
Lemma levelUpLoop_fields (u : UserData) (flag : bool) (lvl : Z) :
  exists (reached remaining : Z),
    fst (fst (levelUpLoop u flag lvl)) = set_level reached (set_experience remaining u)
    /\ level u <= reached.
Proof.
  funelim (levelUpLoop u flag lvl).
  - match goal with IH : ex _ |- _ => destruct IH as (l' & e' & Hrec & Hle) end.
    exists l', e'. rewrite Hrec. cbn [level set_level set_experience] in Hle.
    split; [reflexivity|lia].
  - exists (level userData), (experience userData).
    destruct userData; split; [reflexivity|simpl; lia].
Qed.

Lemma levelUpLoop_newLevel (u : UserData) (flag : bool) (lvl : Z) :
  lvl = level u ->
  snd (levelUpLoop u flag lvl) = level (fst (fst (levelUpLoop u flag lvl))).
Proof.
  funelim (levelUpLoop u flag lvl); intros Hlvl.
  - match goal with IH : _ -> snd _ = _ |- _ => apply IH end. reflexivity.
  - exact Hlvl.
Qed.

Lemma addExperience_run (exp : Z) (u : UserData) :
  let looped := levelUpLoop (set_experience (experience u + exp) u) false (level u) in
  Gamification.addExperience exp (Some u) =
    ({| leveledUp := snd (fst looped); oldLevel := Some (level u);
        newLevel := Some (snd looped);
        currentExp := Some (experience (fst (fst looped)));
        requiredExp := Some (calculateRequiredExp (level (fst (fst looped)))) |},
     Some (fst (fst looped))).
Proof.
  unfold Gamification.addExperience, bind, loadUserData, saveUserData, ret.
  cbv beta iota zeta. reflexivity.
Qed.

(** The ids that [checkBadgeConditions] appends are new and distinct. *)
Lemma checkBadgeConditions_new (quizResult : QuizResult) (u : UserData) :
  exists (newBadges : list Badge) (newIds : list string),
    checkBadgeConditions quizResult (Some u)
      = (newBadges, Some (set_badges (Storage.badges u ++ newIds) u))
    /\ length newBadges = length newIds
    /\ NoDup newIds
    /\ (forall badgeId, badgeId ∈ newIds -> badgeId ∉ Storage.badges u).
Proof.
  eexists _, _. split; [apply checkBadgeConditions_run|].
  rewrite !map_map, !length_map. split; [reflexivity|]. split.
  - apply (NoDup_map_filter (fun c : string * Badge * bool => fst (fst c))),
      badgeChecks_distinct.
  - intros badgeId Hin. apply list_elem_of_fmap in Hin as (c & -> & Hc).
    apply list_elem_of_In, filter_In in Hc as [_ Hdue]. cbn [fst].
    unfold due in Hdue. apply andb_prop in Hdue as [Hheld _].
    apply negb_true_iff in Hheld. intros Hin. apply includes_spec in Hin. congruence.
Qed.

(** [getResults] step by step on a stored record. *)
Lemma getResults_run (streakDay historyDay : string) (now : Z) (q : QuizManager)
    (u : UserData) :
  let total := Z.of_nat (length (currentQuestions q)) in
  let rate := calculatePercentage percent (Quiz.correctAnswers q) total in
  exists (info : LevelUpInfo) (reached remaining newStreak : Z)
         (newBadges : list Badge) (newIds added : list string),
    getResults percent Date_parse streakDay historyDay now q (Some u) =
      ({| res_score := score q; res_correctAnswers := Quiz.correctAnswers q;
          res_totalQuestions := total; res_accuracyRate := rate;
          res_wrongAnswers := wrongAnswers q; res_levelUpInfo := info;
          res_newBadges := newBadges; res_newStreak := newStreak |},
       Some {| level := reached; experience := remaining;
               totalPoints := totalPoints u;
               streak := newStreak;
               lastPlayDate := Some streakDay;
               unlockedFigures := unlockedFigures u ++ added;
               Storage.badges := Storage.badges u ++ newIds;
               statistics :=
                 updateStatistics_body percent
                   {| su_totalQuestions := Some total;
                      su_correctAnswers := Some (Quiz.correctAnswers q);
                      su_category := None |} (statistics u);
               quizHistory :=
                 slice_last 50
                   (quizHistory u ++
                    [{| h_summary :=
                          {| qs_difficulty := difficulty q; qs_score := score q;
                             qs_correctAnswers := Quiz.correctAnswers q;
                             qs_totalQuestions := total; qs_accuracyRate := rate |};
                        h_date := historyDay; h_timestamp := now |}]) |})
    /\ level u <= reached
    /\ (0 <= experience u + score q -> 0 <= remaining < calculateRequiredExp reached)
    /\ newLevel info = Some reached /\ currentExp info = Some remaining
    /\ requiredExp info = Some (calculateRequiredExp reached)
    /\ oldLevel info = Some (level u)
    /\ ((newStreak = streak u /\ lastPlayDate u <> None)
        \/ newStreak = streak u + 1 \/ newStreak = 1)
    /\ length newBadges = length newIds
    /\ NoDup newIds
    /\ (forall badgeId, badgeId ∈ newIds -> badgeId ∉ Storage.badges u)
    /\ NoDup added
    /\ (forall x, x ∈ currentQuestions q -> q_figureId x ∈ unlockedFigures u ++ added)
    /\ (forall y, y ∈ added ->
          (y ∉ unlockedFigures u)
          /\ exists x, x ∈ currentQuestions q /\ q_figureId x = y).
Proof.
  intros total rate.
  pose (looped := levelUpLoop (set_experience (experience u + score q) u) false (level u)).
  destruct (levelUpLoop_fields (set_experience (experience u + score q) u) false (level u))
    as (reached & remaining & Hloop & Hrise).
  fold looped in Hloop. cbn [level set_experience] in Hrise.
  set (u1 := set_level reached (set_experience remaining (set_experience (experience u + score q) u))).
  set (u2 := set_statistics
               (updateStatistics_body percent
                  {| su_totalQuestions := Some total;
                     su_correctAnswers := Some (Quiz.correctAnswers q);
                     su_category := None |} (statistics u1)) u1).
  destruct (updateStreak_outcome Date_parse u2 streakDay) as (newStreak & Hstreak & Hkind).
  set (u3 := set_lastPlayDate (Some streakDay) (set_streak newStreak u2)) in *.
  destruct (checkBadgeConditions_new
              {| qr_correctAnswers := Quiz.correctAnswers q; qr_totalQuestions := total;
                 qr_difficulty := difficulty q |} u3)
    as (newBadges & newIds & Hbadges & Hcount & Hdistinct & Hfresh).
  set (u4 := set_badges (Storage.badges u3 ++ newIds) u3) in *.
  destruct (unlockFiguresFromQuiz_run q u4) as (added & Hunlock & Hall & Hnew & Hnodup).
  eexists _, reached, remaining, newStreak, newBadges, newIds, added.
  split.
  { unfold getResults. fold total. fold rate.
    rewrite (bind_run _ _ _ _ _ (addExperience_run (score q) u)). cbv zeta.
    fold looped. rewrite Hloop. fold u1.
    rewrite (bind_run _ _ _ _ _ (updateStatistics_run percent _ u1)). fold u2.
    rewrite (bind_run _ _ _ _ _ Hstreak).
    rewrite (bind_run _ _ _ _ _ Hbadges).
    rewrite (bind_run _ _ _ _ _ Hunlock).
    rewrite (bind_run _ _ _ _ _ (addQuizToHistory_run _ _ _ _)).
    reflexivity. }
  split; [exact Hrise|]. split.
  { intros Hnonneg.
    destruct (levelUpLoop_spec (set_experience (experience u + score q) u) false (level u))
      as (k & Hk & Hinv & _); [exact Hnonneg|].
    fold looped in Hk. rewrite Hk in Hloop. cbn [fst] in Hloop. rewrite Hloop in Hinv.
    exact Hinv. }
  split; [|split; [reflexivity|split; [reflexivity|split; [reflexivity|]]]].
  { cbn [newLevel]. fold looped. f_equal.
    unfold looped. rewrite levelUpLoop_newLevel by reflexivity.
    fold looped. now rewrite Hloop. }
  split; [exact Hkind|]. split; [exact Hcount|]. split; [exact Hdistinct|].
  split; [exact Hfresh|]. split; [exact Hnodup|]. split; [exact Hall|exact Hnew].
Qed.

Lemma updateStatistics_body_session (total correct : Z) (s : Statistics) :
  let s' := updateStatistics_body percent
              {| su_totalQuestions := Some total; su_correctAnswers := Some correct;
                 su_category := None |} s in
  totalQuestions s' = totalQuestions s + total
  /\ Storage.correctAnswers s' = Storage.correctAnswers s + correct
  /\ categoryStats s' = categoryStats s
  /\ (0 < totalQuestions s + total ->
      accuracyRate s' = percent (Storage.correctAnswers s + correct)
                                (totalQuestions s + total))
  /\ (totalQuestions s + total <= 0 -> accuracyRate s' = accuracyRate s).
Proof.
  unfold updateStatistics_body. cbn.
  destruct (Z.ltb_spec 0 (totalQuestions s + total)) as [Hpos|Hnone]; cbn.
  - unfold calculatePercentage.
    destruct (Z.eqb_spec (totalQuestions s + total) 0); [lia|].
    repeat split; try reflexivity; lia.
  - repeat split; try reflexivity; lia.
Qed.

(** [getResults] on an empty store. *)
Lemma getResults_none (streakDay historyDay : string) (now : Z)
    (q : QuizManager) :
  exists res : Results,
    getResults percent Date_parse streakDay historyDay now q None = (res, None)
    /\ res_score res = score q
    /\ res_correctAnswers res = Quiz.correctAnswers q
    /\ res_totalQuestions res = Z.of_nat (length (currentQuestions q))
    /\ res_wrongAnswers res = wrongAnswers q
    /\ leveledUp (res_levelUpInfo res) = false
    /\ newLevel (res_levelUpInfo res) = None
    /\ res_newBadges res = []
    /\ res_newStreak res = 0.
Proof.
  assert (Hfigures : forall ids, forEach unlockFigure ids None = (tt, None)).
  { induction ids as [|x ids IH]; [reflexivity|].
    cbn [forEach]. now rewrite (bind_run _ _ None None tt). }
  eexists. split.
  - unfold getResults.
    rewrite (bind_run _ _ _ _ _ (addExperience_no_record (score q))).
    rewrite (bind_run (updateStatistics percent _) _ None None tt eq_refl).
    rewrite (bind_run _ _ _ _ _ (updateStreak_no_record Date_parse streakDay)).
    rewrite (bind_run (checkBadgeConditions _) _ None None [] eq_refl).
    rewrite (bind_run (unlockFiguresFromQuiz q) _ None None tt (Hfigures _)).
    rewrite (bind_run (addQuizToHistory _ _ _) _ None None tt eq_refl).
    reflexivity.
  - repeat split; reflexivity.
Qed.

(** Without a stored record [getResults] stores nothing: the session's
    experience, statistics, streak, badges, figures and history entry are
    lost, and the summary reports no level-up, no badge and a streak of
    0. *)
Theorem getResults_no_record (streakDay historyDay : string) (now : Z)
    (q : QuizManager) :
  exists res : Results,
    getResults percent Date_parse streakDay historyDay now q None = (res, None)
    /\ res_score res = score q
    /\ res_correctAnswers res = Quiz.correctAnswers q
    /\ res_totalQuestions res = Z.of_nat (length (currentQuestions q))
    /\ res_wrongAnswers res = wrongAnswers q
    /\ leveledUp (res_levelUpInfo res) = false
    /\ newLevel (res_levelUpInfo res) = None
    /\ res_newBadges res = []
    /\ res_newStreak res = 0.
Proof. exact (getResults_none streakDay historyDay now q). Qed.

(** What [getResults] stores for a session on a stored record: the
    questions and correct answers are added to the statistics, the streak
    day is recorded, new badges and new figures are appended, the last
    history entry is the summary of this session, and the level does not
    fall.  The lifetime points ([totalPoints]) are not touched. *)
Theorem getResults_stores (streakDay historyDay : string) (now : Z)
    (q : QuizManager) (u : UserData) :
  exists (res : Results) (u' : UserData) (newIds added : list string),
    getResults percent Date_parse streakDay historyDay now q (Some u) = (res, Some u')
    /\ totalPoints u' = totalPoints u
    /\ totalQuestions (statistics u')
       = totalQuestions (statistics u) + Z.of_nat (length (currentQuestions q))
    /\ Storage.correctAnswers (statistics u')
       = Storage.correctAnswers (statistics u) + Quiz.correctAnswers q
    /\ categoryStats (statistics u') = categoryStats (statistics u)
    /\ lastPlayDate u' = Some streakDay
    /\ Storage.badges u' = Storage.badges u ++ newIds
    /\ unlockedFigures u' = unlockedFigures u ++ added
    /\ (forall x, x ∈ currentQuestions q -> q_figureId x ∈ unlockedFigures u')
    /\ level u <= level u'
    /\ (exists older entry,
          quizHistory u' = older ++ [entry]
          /\ qs_score (h_summary entry) = score q
          /\ qs_correctAnswers (h_summary entry) = Quiz.correctAnswers q
          /\ qs_totalQuestions (h_summary entry) = Z.of_nat (length (currentQuestions q))
          /\ qs_difficulty (h_summary entry) = difficulty q
          /\ h_date entry = historyDay /\ h_timestamp entry = now).
Proof.
  destruct (getResults_run streakDay historyDay now q u)
    as (info & reached & remaining & newStreak & newBadges & newIds & added
        & Hrun & Hrise & _ & _ & _ & _ & _ & _ & _ & _ & _ & _ & Hall & _).
  eexists _, _, newIds, added. split; [exact Hrun|].
  cbn [totalPoints statistics lastPlayDate Storage.badges unlockedFigures level quizHistory].
  destruct (updateStatistics_body_session (Z.of_nat (length (currentQuestions q)))
              (Quiz.correctAnswers q) (statistics u)) as (Ht & Hc & Hcat & _).
  split; [reflexivity|]. split; [exact Ht|]. split; [exact Hc|]. split; [exact Hcat|].
  split; [reflexivity|]. split; [reflexivity|]. split; [reflexivity|].
  split; [exact Hall|]. split; [exact Hrise|].
  set (entry := {| h_summary := _; h_date := historyDay; h_timestamp := now |}).
  exists (drop (length (quizHistory u ++ [entry]) - 50) (quizHistory u)), entry.
  split; [|repeat split; reflexivity].
  unfold slice_last. rewrite drop_app_le; [reflexivity|].
  rewrite length_app. cbn [length]. lia.
Qed.

(** The summary that [getResults] returns agrees with the record it
    stored: the streak, the level, the remaining experience and its
    threshold are the stored ones, and one badge is reported for each
    badge id appended. *)
Theorem getResults_reports (streakDay historyDay : string) (now : Z)
    (q : QuizManager) (u : UserData) :
  exists (res : Results) (u' : UserData),
    getResults percent Date_parse streakDay historyDay now q (Some u) = (res, Some u')
    /\ res_newStreak res = streak u'
    /\ oldLevel (res_levelUpInfo res) = Some (level u)
    /\ newLevel (res_levelUpInfo res) = Some (level u')
    /\ currentExp (res_levelUpInfo res) = Some (experience u')
    /\ requiredExp (res_levelUpInfo res) = Some (calculateRequiredExp (level u'))
    /\ length (Storage.badges u') = (length (Storage.badges u) + length (res_newBadges res))%nat
    /\ res_score res = score q
    /\ res_correctAnswers res = Quiz.correctAnswers q
    /\ res_totalQuestions res = Z.of_nat (length (currentQuestions q))
    /\ res_accuracyRate res
       = calculatePercentage percent (Quiz.correctAnswers q)
           (Z.of_nat (length (currentQuestions q)))
    /\ res_wrongAnswers res = wrongAnswers q.
Proof.
  destruct (getResults_run streakDay historyDay now q u)
    as (info & reached & remaining & newStreak & newBadges & newIds & added
        & Hrun & _ & _ & Hnew & Hcur & Hreq & Hold & _ & Hcount & _).
  eexists _, _. split; [exact Hrun|].
  cbn [res_newStreak res_levelUpInfo res_newBadges res_score res_correctAnswers
       res_totalQuestions res_accuracyRate res_wrongAnswers
       streak level experience Storage.badges].
  rewrite length_app, Hcount. repeat split; assumption || reflexivity.
Qed.

Lemma getResults_wellFormed_step (streakDay historyDay : string) (now : Z)
    (q : QuizManager) (u : UserData) :
  wellFormed u ->
  sane_session q ->
  exists (res : Results) (u' : UserData),
    getResults percent Date_parse streakDay historyDay now q (Some u) = (res, Some u')
    /\ wellFormed u'
    /\ 1 <= streak u'
    /\ lastPlayDate u' = Some streakDay
    /\ level u <= level u'
    /\ totalPoints u' = totalPoints u
    /\ totalQuestions (statistics u')
       = totalQuestions (statistics u) + Z.of_nat (length (currentQuestions q)).
Proof.
  intros (Hlevel & Hexp & Hstreak & Hplayed & Hbadges & Hfigures & Hhistory & Hstats)
         (Hscore & Hcorrect).
  destruct (getResults_run streakDay historyDay now q u)
    as (info & reached & remaining & newStreak & newBadges & newIds & added
        & Hrun & Hrise & Hinv & _ & _ & _ & _ & Hkind & _ & Hdistinct & Hfresh
        & Hnodup & _ & Hnew).
  destruct (updateStatistics_body_session (Z.of_nat (length (currentQuestions q)))
              (Quiz.correctAnswers q) (statistics u)) as (Ht & Hc & _).
  assert (Hone : 1 <= newStreak).
  { destruct Hkind as [[-> Hsome]|[->| ->]]; [now apply Hplayed|lia|lia]. }
  eexists _, _. split; [exact Hrun|].
  split; [|split; [exact Hone|split; [reflexivity|split; [exact Hrise|
                   split; [reflexivity|exact Ht]]]]].
  unfold wellFormed.
  cbn [level experience streak lastPlayDate Storage.badges unlockedFigures
       quizHistory statistics].
  split; [lia|]. split; [apply Hinv; lia|]. split; [lia|]. split; [intros _; exact Hone|].
  split.
  { apply NoDup_app. split; [exact Hbadges|]. split; [|exact Hdistinct].
    intros x Hx Hin. now apply (Hfresh x Hin). }
  split.
  { apply NoDup_app. split; [exact Hfigures|]. split; [|exact Hnodup].
    intros x Hx Hin. now destruct (Hnew x Hin). }
  split; [rewrite slice_last_length; lia|].
  rewrite Ht, Hc. lia.
Qed.

Lemma wellFormed_default : wellFormed defaultUserData.
Proof.
  unfold wellFormed. cbn. repeat split; try lia; try constructor.
  intros H. contradiction.
Qed.

End Results.

Section WholeSessions.
Import Quiz.

(** Every session that ends with [getResults] leaves a well-formed record
    well-formed: level at least 1, experience below the threshold of the
    level, no badge and no figure stored twice, at most 50 history
    entries, and no more correct answers than questions in the
    statistics.  After the first session a streak of at least 1 and a
    play date are stored; the level never falls and [totalPoints] never
    changes. *)
Theorem finishSessions_wellFormed (percent : Z -> Z -> Z)
    (Date_parse : string -> option Z) (sessions : list Finished) (u : UserData) :
  wellFormed u ->
  Forall (fun f => sane_session (fin_session f)) sessions ->
  exists u' : UserData,
    finishSessions percent Date_parse sessions (Some u) = (tt, Some u')
    /\ wellFormed u'
    /\ (sessions <> [] -> 1 <= streak u' /\ lastPlayDate u' <> None)
    /\ level u <= level u'
    /\ totalPoints u' = totalPoints u.
Proof.
  intros Hu Hsane. revert u Hu.
  induction Hsane as [|f rest Hf _ IH]; intros u Hu.
  - exists u. split; [reflexivity|]. split; [exact Hu|].
    split; [congruence|]. split; [lia|reflexivity].
  - destruct (getResults_wellFormed_step percent Date_parse (fin_streakDay f)
                (fin_historyDay f) (fin_now f) (fin_session f) u Hu Hf)
      as (res & u1 & Hrun & Hu1 & Hone & Hday & Hrise & Hpoints & _).
    destruct (IH u1 Hu1) as (u' & Hrest & Hu' & Hlater & Hrise' & Hpoints').
    exists u'. cbn [finishSessions]. rewrite (bind_run _ _ _ _ _ Hrun).
    split; [exact Hrest|]. split; [exact Hu'|].
    split; [|split; [lia|congruence]].
    intros _. destruct rest as [|g rest'].
    + cbn in Hrest. injection Hrest as <-. split; [exact Hone|congruence].
    + apply Hlater. discriminate.
Qed.

End WholeSessions.

Section PlayedSession.
Import Quiz.

Lemma finishSessions_wellFormed_perfect :
  wellFormed defaultUserData
  /\ Forall (fun f => sane_session (fin_session f))
       [{| fin_session := perfect_session; fin_streakDay := "2024-03-01";
           fin_historyDay := "2024-03-01"; fin_now := 1709251200000 |}]
  /\ exists u' : UserData,
       finishSessions exact_percent IsoDate.Date_parse
         [{| fin_session := perfect_session; fin_streakDay := "2024-03-01";
             fin_historyDay := "2024-03-01"; fin_now := 1709251200000 |}]
         (Some defaultUserData) = (tt, Some u')
       /\ wellFormed u'
       /\ ([{| fin_session := perfect_session; fin_streakDay := "2024-03-01";
               fin_historyDay := "2024-03-01"; fin_now := 1709251200000 |}] <> [] ->
           1 <= streak u' /\ lastPlayDate u' <> None)
       /\ level defaultUserData <= level u'
       /\ totalPoints u' = totalPoints defaultUserData.
Proof.
  assert (Hsane : Forall (fun f => sane_session (fin_session f))
       [{| fin_session := perfect_session; fin_streakDay := "2024-03-01";
           fin_historyDay := "2024-03-01"; fin_now := 1709251200000 |}]).
  { constructor; [|constructor]. unfold sane_session. vm_compute.
    repeat split; discriminate. }
  split; [exact wellFormed_default|]. split; [exact Hsane|].
  exact (finishSessions_wellFormed exact_percent IsoDate.Date_parse _ _
           wellFormed_default Hsane).
Defined.

(** A session played from [startQuiz] to its last question, at a
    difficulty that is no name of [Object.prototype], every question
    answered once: the cursor is exhausted, every question is counted as
    correct or wrong, the score is between 10 and 60 points per correct
    answer, and [getResults] turns a well-formed record into a
    well-formed record whose statistics grew by the questions of the
    session. *)
Theorem played_session_results (percent : Z -> Z -> Z) (Date_parse : string -> option Z)
    (rnd : nat -> nat) (difficulty : string) (q0 : QuizManager) (selected : list nat)
    (streakDay historyDay : string) (now : Z) (u : UserData) :
  isAnswered q0 = false ->
  inherited difficulty = false ->
  length selected = length (currentQuestions (snd (startQuiz rnd difficulty q0))) ->
  wellFormed u ->
  let played := answerQuestions selected (snd (startQuiz rnd difficulty q0)) in
  getCurrentQuestion played = None
  /\ Quiz.correctAnswers played + Z.of_nat (length (wrongAnswers played))
     = Z.of_nat (length (currentQuestions played))
  /\ 10 * Quiz.correctAnswers played <= score played <= 60 * Quiz.correctAnswers played
  /\ sane_session played
  /\ exists (res : Results) (u' : UserData),
       getResults percent Date_parse streakDay historyDay now played (Some u)
         = (res, Some u')
       /\ wellFormed u'
       /\ totalQuestions (statistics u')
          = totalQuestions (statistics u) + Z.of_nat (length selected).
Proof.
  intros Hguard _ Hlen Hu played.
  set (started := snd (startQuiz rnd difficulty q0)) in *.
  assert (Hstart : started = _) by apply startQuiz_state.
  assert (Hg : isAnswered started = false) by (rewrite Hstart; exact Hguard).
  assert (Hi : currentQuestionIndex started = 0%nat) by now rewrite Hstart.
  assert (Hs : score started = 0) by now rewrite Hstart.
  assert (Hc : Quiz.correctAnswers started = 0) by now rewrite Hstart.
  assert (Hw : wrongAnswers started = []) by now rewrite Hstart.
  destruct (answerQuestions_counts selected started Hg ltac:(lia))
    as (Ki & Kg & Kq & _ & Kc & _ & Ksum & Kscore).
  fold played in Ki, Kg, Kq, Kc, Ksum, Kscore.
  rewrite Hi in Ki. rewrite Hc in Kc, Ksum. rewrite Hw in Ksum. rewrite Hs in Kscore.
  pose proof (count_correct_bounds (asked_next (length selected) started) selected) as Hb.
  assert (Hsane : sane_session played).
  { unfold sane_session. rewrite Kq, Kc, <- Hlen. lia. }
  split.
  { unfold getCurrentQuestion. apply lookup_ge_None. rewrite Ki, Kq. lia. }
  split; [rewrite Ksum, Kq, Hlen; cbn [length]; lia|].
  split; [rewrite Kc; lia|]. split; [exact Hsane|].
  destruct (getResults_wellFormed_step percent Date_parse streakDay historyDay now
              played u Hu Hsane) as (res & u' & Hrun & Hu' & _ & _ & _ & _ & Ht).
  exists res, u'. split; [exact Hrun|]. split; [exact Hu'|].
  now rewrite Ht, Kq, Hlen.
Qed.

Lemma played_session_results_ten :
  isAnswered stocked_manager = false
  /\ inherited "beginner" = false
  /\ length (replicate 10 0%nat)
     = length (currentQuestions (snd (startQuiz (fun i => i) "beginner" stocked_manager)))
  /\ wellFormed defaultUserData
  /\ sane_session
       (answerQuestions (replicate 10 0%nat)
          (snd (startQuiz (fun i => i) "beginner" stocked_manager)))
  /\ getCurrentQuestion
       (answerQuestions (replicate 10 0%nat)
          (snd (startQuiz (fun i => i) "beginner" stocked_manager))) = None.
Proof.
  split; [reflexivity|]. split; [reflexivity|]. split; [reflexivity|].
  split; [exact wellFormed_default|].
  destruct (played_session_results exact_percent IsoDate.Date_parse (fun i => i)
              "beginner" stocked_manager (replicate 10 0%nat) "2024-03-01" "2024-03-01"
              0 defaultUserData eq_refl eq_refl eq_refl wellFormed_default)
    as (Hend & _ & _ & Hsane & _).
  split; [exact Hsane|exact Hend].
Defined.

End PlayedSession.

(** ** Points, statistics and streak *)

Section Progress.
Import Gamification.

(** [calculateConsecutiveBonus] is the bonus that [calculatePoints] adds.
    For a difficulty that is no name of [Object.prototype] the points of a
    correct answer are a number: the points without a run plus that
    bonus; the bonus is 0, 10 or 30 and does not fall as the run grows. *)
Theorem calculateConsecutiveBonus_agrees (difficulty : string) (n m : Z) :
  inherited difficulty = false ->
  exists base : Z,
    calculatePoints_value difficulty true 0 = Number base
    /\ calculatePoints_value difficulty true n
       = Number (base + calculateConsecutiveBonus n)
    /\ (n <= m -> calculateConsecutiveBonus n <= calculateConsecutiveBonus m)
    /\ (calculateConsecutiveBonus n = 0 \/ calculateConsecutiveBonus n = 10
        \/ calculateConsecutiveBonus n = 30).
Proof.
  intros Hown. exists (calculatePoints difficulty true 0).
  rewrite !(calculatePoints_number _ _ _ Hown).
  split; [reflexivity|]. split.
  { f_equal. rewrite !calculatePoints_bonus.
    change (calculateConsecutiveBonus 0) with 0. lia. }
  unfold calculateConsecutiveBonus.
  destruct (Z.leb_spec 5 n), (Z.leb_spec 3 n), (Z.leb_spec 5 m), (Z.leb_spec 3 m);
    repeat split; lia.
Qed.

Lemma calculateConsecutiveBonus_agrees_advanced :
  inherited "advanced" = false
  /\ exists base : Z,
       calculatePoints_value "advanced" true 0 = Number base
       /\ calculatePoints_value "advanced" true 5
          = Number (base + calculateConsecutiveBonus 5)
       /\ (5 <= 7 -> calculateConsecutiveBonus 5 <= calculateConsecutiveBonus 7)
       /\ (calculateConsecutiveBonus 5 = 0 \/ calculateConsecutiveBonus 5 = 10
           \/ calculateConsecutiveBonus 5 = 30).
Proof.
  split; [reflexivity|].
  apply (calculateConsecutiveBonus_agrees "advanced" 5 7). reflexivity.
Defined.

Variable percent : Z -> Z -> Z.

(** [updateStatistics] changes nothing but the statistics.  With a
    category it adds the questions and correct answers of the update to
    the counters of that category, which start at 0 when the category is
    new, and leaves the other categories alone.  A category that is not
    stored and is a name of [Object.prototype] is the exception: the
    stored categories stay as they are.  Without a category (or with an
    empty one) no category changes. *)
Theorem updateStatistics_category (stats : StatsUpdate) (u : UserData) :
  exists u' : UserData,
    updateStatistics percent stats (Some u) = (tt, Some u')
    /\ u' = set_statistics (statistics u') u
    /\ totalQuestions (statistics u')
       = totalQuestions (statistics u) + default 0 (su_totalQuestions stats)
    /\ Storage.correctAnswers (statistics u')
       = Storage.correctAnswers (statistics u) + default 0 (su_correctAnswers stats)
    /\ (forall category,
          su_category stats = Some category -> category <> EmptyString ->
          (forall old, categoryStats (statistics u) !! category = Some old ->
             categoryStats (statistics u') !! category
               = Some {| total := total old + default 0 (su_totalQuestions stats);
                         correct := correct old + default 0 (su_correctAnswers stats) |})
          /\ (categoryStats (statistics u) !! category = None ->
              category ∉ Object_prototype ->
              categoryStats (statistics u') !! category
                = Some {| total := default 0 (su_totalQuestions stats);
                          correct := default 0 (su_correctAnswers stats) |})
          /\ (categoryStats (statistics u) !! category = None ->
              category ∈ Object_prototype ->
              categoryStats (statistics u') = categoryStats (statistics u))
          /\ forall other, other <> category ->
               categoryStats (statistics u') !! other
                 = categoryStats (statistics u) !! other)
    /\ (truthy (su_category stats) = false ->
        categoryStats (statistics u') = categoryStats (statistics u)).
Proof.
  eexists. split; [apply updateStatistics_run|].
  cbn [statistics set_statistics]. split; [reflexivity|].
  split; [apply updateStatistics_body_totalQuestions|].
  unfold updateStatistics_body. cbv zeta.
  set (s1 := match su_totalQuestions stats with
             | Some n => add_totalQuestions n (statistics u)
             | None => statistics u end).
  set (s2 := match su_correctAnswers stats with
             | Some n => add_correctAnswers n s1
             | None => s1 end).
  set (s3 := if 0 <? totalQuestions s2
             then set_accuracyRate
                    (calculatePercentage percent (Storage.correctAnswers s2)
                       (totalQuestions s2)) s2
             else s2).
  assert (H3 : categoryStats s3 = categoryStats (statistics u)).
  { subst s3 s2 s1.
    destruct (su_totalQuestions stats), (su_correctAnswers stats), (0 <? _);
      reflexivity. }
  assert (H3c : Storage.correctAnswers s3
                = Storage.correctAnswers (statistics u)
                  + default 0 (su_correctAnswers stats)).
  { subst s3 s2 s1.
    destruct (su_totalQuestions stats), (su_correctAnswers stats), (0 <? _);
      simpl; lia. }
  clearbody s3. clear s1 s2. rewrite H3.
  split; [|split].
  - destruct (su_category stats) as [c|]; [|exact H3c].
    destruct (truthy (Some c)); [|exact H3c].
    destruct (categoryStats (statistics u) !! c); [exact H3c|].
    destruct (inherited c); exact H3c.
  - intros category Hsome Hpresent.
    rewrite Hsome, truthy_nonempty by exact Hpresent.
    split; [|split; [|split]].
    + intros old Hold. rewrite Hold. apply lookup_insert_eq.
    + intros Hnone Hown. rewrite Hnone. unfold inherited.
      rewrite bool_decide_eq_false_2 by exact Hown.
      cbn [categoryStats set_categoryStats total correct].
      rewrite !Z.add_0_l. apply lookup_insert_eq.
    + intros Hnone Hproto. rewrite Hnone. unfold inherited.
      rewrite bool_decide_eq_true_2 by exact Hproto. exact H3.
    + intros other Hother.
      destruct (categoryStats (statistics u) !! category);
        [now apply lookup_insert_ne|].
      destruct (inherited category); [now rewrite H3|now apply lookup_insert_ne].
  - intros Hfalsy. destruct (su_category stats) as [c|]; [|exact H3].
    rewrite Hfalsy. exact H3.
Qed.

(** A category named like a member of [Object.prototype] is never
    counted on a record that does not store it. *)
Example updateStatistics_inherited_category :
  updateStatistics exact_percent
    {| su_totalQuestions := Some 4; su_correctAnswers := Some 3;
       su_category := Some "constructor" |} (Some defaultUserData)
  = (tt, Some (set_statistics
                 {| totalQuestions := 4; Storage.correctAnswers := 3; accuracyRate := 75;
                    categoryStats := ∅ |} defaultUserData)).
Proof. reflexivity. Qed.

End Progress.

Section Streaks.

Variable Date_parse : string -> option Z.

(** A second [updateStreak] on the same day changes nothing and returns
    the streak of the first, whatever the record was: several sessions in
    one day count once. *)
Theorem updateStreak_same_day_once (u : UserData) (today : string) :
  exists (newStreak : Z) (u' : UserData),
    updateStreak Date_parse today (Some u) = (newStreak, Some u')
    /\ updateStreak Date_parse today (Some u') = (newStreak, Some u').
Proof.
  destruct (updateStreak_outcome Date_parse u today) as (newStreak & Hrun & _).
  eexists _, _. split; [exact Hrun|].
  unfold updateStreak, bind, loadUserData, ret. cbn beta iota.
  cbn [lastPlayDate set_lastPlayDate streak set_streak].
  rewrite bool_decide_eq_true_2 by reflexivity. reflexivity.
Qed.

(** The streak never drops to 0 or below once a day has been played: on a
    record whose streak is at least 1 whenever it has a play date, the
    streak stored by [updateStreak] is at least 1, and it is the old
    streak, the old streak plus 1, or 1. *)
Theorem updateStreak_positive (u : UserData) (today : string) :
  (lastPlayDate u <> None -> 1 <= streak u) ->
  exists (newStreak : Z) (u' : UserData),
    updateStreak Date_parse today (Some u) = (newStreak, Some u')
    /\ streak u' = newStreak
    /\ 1 <= newStreak
    /\ (newStreak = streak u \/ newStreak = streak u + 1 \/ newStreak = 1)
    /\ lastPlayDate u' = Some today.
Proof.
  intros Hplayed.
  destruct (updateStreak_kinds Date_parse u today) as (newStreak & Hrun & Hkind).
  eexists _, _. split; [exact Hrun|]. split; [reflexivity|].
  split; [|split; [tauto|reflexivity]].
  destruct Hkind as [[[-> | ->] Hsome]| ->]; [now apply Hplayed| |lia].
  specialize (Hplayed Hsome). lia.
Qed.

Lemma consecutive_days_tail (day : string) (rest : list string) :
  consecutive_days Date_parse (day :: rest) -> consecutive_days Date_parse rest.
Proof. destruct rest as [|next rest]; [trivial|]. intros (_ & _ & Hrest). exact Hrest. Qed.

Lemma updateStreak_next_day (u : UserData) (today last : string) :
  lastPlayDate u = Some last ->
  last <> EmptyString ->
  diffDays Date_parse today last = Some 1 ->
  updateStreak Date_parse today (Some u) =
    (streak u + 1, Some (set_lastPlayDate (Some today) (set_streak (streak u + 1) u))).
Proof.
  intros Hlast Hpresent Hdiff.
  unfold updateStreak, bind, loadUserData, saveUserData, ret. cbn beta iota.
  case_bool_decide as Hsame.
  - assert (last = today) by congruence. subst last.
    apply diffDays_same_day in Hdiff. discriminate.
  - rewrite Hlast, truthy_nonempty, Hdiff by assumption. reflexivity.
Qed.

Lemma last_cons_default {A : Type} (l : list A) (x d : A) :
  List.last (x :: l) d = List.last l x.
Proof.
  revert x d. induction l as [|y l IH]; intros x d; [reflexivity|].
  change (List.last (x :: y :: l) d) with (List.last (y :: l) d).
  now rewrite !IH.
Qed.

Lemma playDays_consecutive (days : list string) :
  forall (u : UserData) (last : string) (previous : Z),
    lastPlayDate u = Some last ->
    consecutive_days Date_parse (last :: days) ->
    playDays Date_parse days previous (Some u) =
      (if days is [] then previous else streak u + Z.of_nat (length days),
       Some (set_lastPlayDate (Some (List.last days last))
               (set_streak (streak u + Z.of_nat (length days)) u))).
Proof.
  induction days as [|day rest IH]; intros u last previous Hlast Hdays.
  - cbn. unfold ret. rewrite Z.add_0_r. destruct u; simpl in *; subst; reflexivity.
  - destruct Hdays as (Hpresent & Hdiff & Hrest).
    cbn [playDays]. rewrite (bind_run _ _ _ _ _
      (updateStreak_next_day u day last Hlast Hpresent Hdiff)).
    rewrite (IH (set_lastPlayDate (Some day) (set_streak (streak u + 1) u)) day _
               eq_refl Hrest).
    cbn [streak set_streak set_lastPlayDate lastPlayDate length].
    replace (streak u + 1 + Z.of_nat (length rest))
      with (streak u + Z.of_nat (S (length rest))) by lia.
    rewrite last_cons_default.
    f_equal. destruct rest; [cbn [length]; lia|reflexivity].
Qed.

(** Playing on consecutive days builds the streak day by day: from a
    record that was never played, one [updateStreak] on each of [n] days in
    a row leaves a streak of [n] and the last day as play date. *)
Theorem playDays_builds_streak (first : string) (later : list string) (u : UserData) :
  lastPlayDate u = None ->
  consecutive_days Date_parse (first :: later) ->
  exists u' : UserData,
    playDays Date_parse (first :: later) 0 (Some u)
      = (Z.of_nat (length (first :: later)), Some u')
    /\ streak u' = Z.of_nat (length (first :: later))
    /\ lastPlayDate u' = Some (List.last later first)
    /\ u' = set_lastPlayDate (lastPlayDate u') (set_streak (streak u') u).
Proof.
  intros Hnever Hdays.
  assert (Hfirst : updateStreak Date_parse first (Some u)
                   = (1, Some (set_lastPlayDate (Some first) (set_streak 1 u)))).
  { unfold updateStreak, bind, loadUserData, saveUserData, ret. cbn beta iota.
    rewrite Hnever. rewrite bool_decide_eq_false_2 by discriminate. reflexivity. }
  cbn [playDays]. rewrite (bind_run _ _ _ _ _ Hfirst).
  rewrite (playDays_consecutive later (set_lastPlayDate (Some first) (set_streak 1 u))
             first 1 eq_refl Hdays).
  change (streak (set_lastPlayDate (Some first) (set_streak 1 u))) with 1.
  assert (Hcount : (if later is [] then 1 else 1 + Z.of_nat (length later))
                   = Z.of_nat (length (first :: later))).
  { destruct later; cbn [length]; lia. }
  rewrite Hcount.
  replace (1 + Z.of_nat (length later)) with (Z.of_nat (length (first :: later)))
    by (cbn [length]; lia).
  eexists. split; [reflexivity|].
  cbn [streak lastPlayDate set_lastPlayDate set_streak].
  split; [reflexivity|]. split; reflexivity.
Qed.

End Streaks.

(** A week of play, with the dates as [formatDate] writes them, across the
    end of February in a leap year. *)
Lemma playDays_builds_streak_week :
  lastPlayDate defaultUserData = None
  /\ consecutive_days IsoDate.Date_parse
       ["2024-02-25"; "2024-02-26"; "2024-02-27"; "2024-02-28"; "2024-02-29";
        "2024-03-01"; "2024-03-02"]
  /\ exists u' : UserData,
       playDays IsoDate.Date_parse
         ["2024-02-25"; "2024-02-26"; "2024-02-27"; "2024-02-28"; "2024-02-29";
          "2024-03-01"; "2024-03-02"] 0 (Some defaultUserData) = (7, Some u')
       /\ streak u' = 7
       /\ lastPlayDate u' = Some "2024-03-02".
Proof.
  assert (Hweek : consecutive_days IsoDate.Date_parse
       ["2024-02-25"; "2024-02-26"; "2024-02-27"; "2024-02-28"; "2024-02-29";
        "2024-03-01"; "2024-03-02"]).
  { cbn [consecutive_days]. repeat split; (discriminate || reflexivity). }
  split; [reflexivity|]. split; [exact Hweek|].
  destruct (playDays_builds_streak IsoDate.Date_parse "2024-02-25"
              ["2024-02-26"; "2024-02-27"; "2024-02-28"; "2024-02-29";
               "2024-03-01"; "2024-03-02"] defaultUserData eq_refl Hweek)
    as (u' & Hrun & Hstreak & Hday & _).
  exists u'. split; [exact Hrun|]. split; [exact Hstreak|exact Hday].
Defined.

Lemma updateStreak_positive_leap_day :
  (lastPlayDate played_on_leap_day <> None -> 1 <= streak played_on_leap_day)
  /\ exists (newStreak : Z) (u' : UserData),
       updateStreak IsoDate.Date_parse "2024-02-20" (Some played_on_leap_day)
         = (newStreak, Some u')
       /\ 1 <= newStreak.
Proof.
  assert (H1 : lastPlayDate played_on_leap_day <> None -> 1 <= streak played_on_leap_day)
    by (intros _; simpl; lia).
  split; [exact H1|].
  destruct (updateStreak_positive IsoDate.Date_parse played_on_leap_day "2024-02-20" H1)
    as (s & u' & Hrun & _ & Hone & _).
  exists s, u'. split; [exact Hrun|exact Hone].
Defined.

(** ** Experience in instalments *)

Section Instalments.
Import Gamification.







End Instalments.

(** ** Which badges are awarded *)

Section Awards.
Import Gamification.

Lemma filter_map_sublist {A B : Type} (f : A -> B) (p : A -> bool) (l : list A) :
  map f (List.filter p l) `sublist_of` map f l.
Proof.
  induction l as [|x l IH]; simpl; [constructor|].
  destruct (p x); simpl; [now apply sublist_skip|now apply sublist_cons].
Qed.

Lemma badgeChecks_defs_distinct (quizResult : QuizResult) (u : UserData) :
  NoDup (map (fun c : string * Badge * bool => snd (fst c)) (badgeChecks quizResult u)).
Proof.
  simpl. repeat (apply NoDup_cons; split;
    [rewrite ?elem_of_cons, elem_of_nil; intros H; repeat destruct H as [H|H];
       try discriminate H; exact H|]).
  apply NoDup_nil. trivial.
Qed.

(** In a table with distinct definitions a definition is returned exactly
    when its row is due. *)
Lemma due_row_returned (held : string -> bool) (rows : list (string * Badge * bool))
    (row : string * Badge * bool) :
  NoDup (map (fun c : string * Badge * bool => snd (fst c)) rows) ->
  row ∈ rows ->
  snd (fst row) ∈ map (fun c : string * Badge * bool => snd (fst c))
                      (List.filter (due held) rows)
  <-> due held row = true.
Proof.
  intros Hdistinct Hrow. split.
  - intros Hin. apply list_elem_of_fmap in Hin as (c & Hdef & Hc).
    apply list_elem_of_In, filter_In in Hc as [Hc Hdue]. apply list_elem_of_In in Hc.
    assert (c = row); [|now subst].
    apply list_elem_of_lookup in Hc as [i Hi]. apply list_elem_of_lookup in Hrow as [j Hj].
    assert (i = j); [|congruence].
    apply (NoDup_lookup _ i j (snd (fst c)) Hdistinct).
    + now rewrite list_lookup_fmap, Hi.
    + rewrite list_lookup_fmap, Hj. simpl. congruence.
  - intros Hdue. apply (list_elem_of_fmap_2 (fun c : string * Badge * bool => snd (fst c))).
    apply list_elem_of_In, filter_In. split; [now apply list_elem_of_In|exact Hdue].
Qed.

(** [checkBadgeConditions] returns a badge exactly when it is not held and
    its condition is met: always for [beginner]; a session without a wrong
    answer for [perfectionist]; 50 and 200 correct answers in the
    statistics for [learner] and [scholar]; a streak of 7 and of 30 days
    for [streak_7] and [streak_30].  The badges are returned in that
    order. *)
Theorem checkBadgeConditions_conditions (quizResult : QuizResult) (u : UserData) :
  exists (newBadges : list Badge) (u' : UserData),
    checkBadgeConditions quizResult (Some u) = (newBadges, Some u')
    /\ (beginner ∈ newBadges <-> "beginner" ∉ Storage.badges u)
    /\ (perfectionist ∈ newBadges <->
        ("perfectionist" ∉ Storage.badges u)
        /\ qr_correctAnswers quizResult = qr_totalQuestions quizResult)
    /\ (learner ∈ newBadges <->
        ("learner" ∉ Storage.badges u) /\ 50 <= Storage.correctAnswers (statistics u))
    /\ (scholar ∈ newBadges <->
        ("scholar" ∉ Storage.badges u) /\ 200 <= Storage.correctAnswers (statistics u))
    /\ (streak_7 ∈ newBadges <-> ("streak_7" ∉ Storage.badges u) /\ 7 <= streak u)
    /\ (streak_30 ∈ newBadges <-> ("streak_30" ∉ Storage.badges u) /\ 30 <= streak u)
    /\ newBadges `sublist_of`
         [beginner; perfectionist; learner; scholar; streak_7; streak_30].
Proof.
  eexists _, _. split; [apply checkBadgeConditions_run|].
  rewrite map_map. cbn [fst snd].
  set (held := includes (Storage.badges u)).
  assert (Hheld : forall badgeId, negb (held badgeId) = true <-> badgeId ∉ Storage.badges u).
  { intros badgeId. unfold held. rewrite negb_true_iff, <- not_true_iff_false.
    now rewrite includes_spec. }
  assert (Hrow : forall badgeId def cond,
            (badgeId, def, cond) ∈ badgeChecks quizResult u ->
            def ∈ map (fun c : string * Badge * bool => snd (fst c))
                      (List.filter (due held) (badgeChecks quizResult u))
            <-> (badgeId ∉ Storage.badges u) /\ cond = true).
  { intros badgeId def cond Hin.
    rewrite (due_row_returned held _ (badgeId, def, cond)
               (badgeChecks_defs_distinct quizResult u) Hin).
    unfold due. cbn [fst snd]. now rewrite andb_true_iff, Hheld. }
  assert (Hin : forall i row, badgeChecks quizResult u !! i = Some row ->
                              row ∈ badgeChecks quizResult u)
    by (intros i row; apply list_elem_of_lookup_2).
  split.
  { rewrite (Hrow "beginner" beginner true (Hin 0%nat _ eq_refl)). tauto. }
  split.
  { rewrite (Hrow _ _ _ (Hin 1%nat _ eq_refl)), Z.eqb_eq. tauto. }
  split.
  { rewrite (Hrow _ _ _ (Hin 2%nat _ eq_refl)), Z.leb_le. tauto. }
  split.
  { rewrite (Hrow _ _ _ (Hin 3%nat _ eq_refl)), Z.leb_le. tauto. }
  split.
  { rewrite (Hrow _ _ _ (Hin 4%nat _ eq_refl)), Z.leb_le. tauto. }
  split.
  { rewrite (Hrow _ _ _ (Hin 5%nat _ eq_refl)), Z.leb_le. tauto. }
  apply (filter_map_sublist (fun c : string * Badge * bool => snd (fst c))
           (due held) (badgeChecks quizResult u)).
Qed.

(** [checkCategoryMaster] awards the badge [category_master] exactly when
    it is not held, the catalog has a figure of the category and every
    such figure is unlocked; it then returns the badge of that name from
    the badge table, or [undefined] when the table has none.  Otherwise
    nothing is stored; in particular a second call awards nothing. *)
Theorem checkCategoryMaster_awards (category : string) (allFigures : list Figure)
    (u : UserData) :
  let badgeId := String.append category "_master" in
  let mastered :=
    (badgeId ∉ Storage.badges u)
    /\ (exists f, f ∈ allFigures /\ f_category f = category)
    /\ (forall f, f ∈ allFigures -> f_category f = category ->
                  f_id f ∈ unlockedFigures u) in
  exists (returned : option Badge) (u' : UserData),
    checkCategoryMaster category allFigures (Some u) = (returned, Some u')
    /\ (mastered ->
        u' = set_badges (Storage.badges u ++ [badgeId]) u
        /\ returned = badge_of badgeId)
    /\ (~ mastered -> u' = u /\ returned = None)
    /\ checkCategoryMaster category allFigures (Some u') = (None, Some u').
Proof.
  intros badgeId mastered.
  set (figures := List.filter (fun f => String.eqb (f_category f) category) allFigures).
  assert (Hfig : forall f, f ∈ figures <-> f ∈ allFigures /\ f_category f = category).
  { intros f. subst figures. rewrite list_elem_of_In, filter_In, <- list_elem_of_In.
    now rewrite String.eqb_eq. }
  set (unlocked := forallb (fun f => includes (unlockedFigures u) (f_id f)) figures).
  assert (Hunl : unlocked = true <->
                 forall f, f ∈ allFigures -> f_category f = category ->
                           f_id f ∈ unlockedFigures u).
  { subst unlocked. rewrite forallb_forall. split.
    - intros H f Hf Hc. apply includes_spec, H, list_elem_of_In, Hfig. tauto.
    - intros H f Hf. apply list_elem_of_In, Hfig in Hf as [Hf Hc].
      now apply includes_spec, H. }
  assert (Hsome : (0 <? length figures)%nat = true <->
                  exists f, f ∈ allFigures /\ f_category f = category).
  { assert (Hne : forall l : list Figure, (0 < length l)%nat <-> exists f, f ∈ l).
    { intros [|f l]; simpl; split.
      - lia.
      - intros (f & Hf). now apply elem_of_nil in Hf.
      - intros _. exists f. left.
      - lia. }
    rewrite Nat.ltb_lt, Hne. split; intros (f & Hf); exists f; now apply Hfig. }
  assert (Hrun : checkCategoryMaster category allFigures (Some u) =
            if includes (Storage.badges u) badgeId then (None, Some u)
            else if unlocked && (0 <? length figures)%nat
                 then (badge_of badgeId, Some (set_badges (Storage.badges u ++ [badgeId]) u))
                 else (None, Some u)).
  { unfold checkCategoryMaster, bind at 1, loadUserData. cbv beta iota zeta.
    fold badgeId. fold figures. fold unlocked.
    destruct (includes (Storage.badges u) badgeId) eqn:Hheld; [reflexivity|].
    destruct (unlocked && (0 <? length figures)%nat); [|reflexivity].
    assert (Haward : awardBadge badgeId (Some u)
                     = (true, Some (set_badges (Storage.badges u ++ [badgeId]) u)))
      by now rewrite awardBadge_run, Hheld.
    rewrite (bind_run _ _ _ _ _ Haward). reflexivity. }
  assert (Hagain : forall v, includes (Storage.badges v) badgeId = true ->
            checkCategoryMaster category allFigures (Some v) = (None, Some v)).
  { intros v Hheld. unfold checkCategoryMaster, bind at 1, loadUserData.
    cbv beta iota zeta. fold badgeId. now rewrite Hheld. }
  rewrite Hrun.
  destruct (includes (Storage.badges u) badgeId) eqn:Hheld.
  { exists None, u. split; [reflexivity|]. split; [|split; [easy|now apply Hagain]].
    intros (Hnot & _). apply includes_spec in Hheld. contradiction. }
  assert (Hfree : badgeId ∉ Storage.badges u).
  { intros Hin. apply includes_spec in Hin. congruence. }
  destruct (unlocked && (0 <? length figures)%nat) eqn:Hcond.
  - eexists _, _. split; [reflexivity|]. split; [easy|]. split.
    + intros Hnot. exfalso. apply Hnot. apply andb_prop in Hcond as [H1 H2].
      split; [exact Hfree|]. split; [now apply Hsome|now apply Hunl].
    + apply Hagain. cbn [Storage.badges set_badges]. apply includes_spec.
      rewrite elem_of_app, list_elem_of_singleton. now right.
  - exists None, u. split; [reflexivity|]. split; [|split; [easy|]].
    + intros (_ & Hex & Hall). apply Hsome in Hex. apply Hunl in Hall.
      rewrite Hex, Hall in Hcond. discriminate.
    + exact Hrun.
Qed.

(** The five categories with a master badge; a category outside them,
    such as the explorers of the encyclopedia, gets its badge id stored but
    no badge returned. *)
Lemma badge_of_masters :
  badge_of "scientist_master" = Some scientist_master
  /\ badge_of "artist_master" = Some artist_master
  /\ badge_of "politician_master" = Some politician_master
  /\ badge_of "inventor_master" = Some inventor_master
  /\ badge_of "philosopher_master" = Some philosopher_master
  /\ badge_of "explorer_master" = None.
Proof. repeat split; reflexivity. Qed.

End Awards.

(** ** The badge table and the empty store *)

Section Table.
Import Gamification.

(** [getAllBadges] reads the store without changing it and lists the 11
    badges of the table in its order, each with its id and definition and
    flagged as unlocked exactly when its id is stored.  After [awardBadge]
    the list is the same with the flag of the awarded id set; an id
    outside the table changes nothing in it. *)
Theorem getAllBadges_after_award (badgeId : string) (u : UserData) :
  exists (before after : list (string * Badge * bool)) (u' : UserData),
    getAllBadges (Some u) = (before, Some u)
    /\ snd (awardBadge badgeId (Some u)) = Some u'
    /\ getAllBadges (Some u') = (after, Some u')
    /\ map (fun e => (fst (fst e), snd (fst e))) before = Gamification.badges
    /\ (forall id def flag, (id, def, flag) ∈ before ->
          (flag = true <-> id ∈ Storage.badges u))
    /\ after = map (fun e => (fst (fst e), snd (fst e),
                              snd e || String.eqb (fst (fst e)) badgeId)) before
    /\ (badge_of badgeId = None -> after = before).
Proof.
  assert (Hu' : exists u', snd (awardBadge badgeId (Some u)) = Some u'
                 /\ forall id, includes (Storage.badges u') id
                               = includes (Storage.badges u) id || String.eqb id badgeId).
  { rewrite awardBadge_run. destruct (includes (Storage.badges u) badgeId) eqn:Hheld.
    - exists u. split; [reflexivity|]. intros id.
      destruct (String.eqb_spec id badgeId) as [->|Hne];
        [now rewrite Hheld|now rewrite orb_false_r].
    - eexists. split; [reflexivity|]. intros id. cbn [Storage.badges set_badges].
      destruct (String.eqb_spec id badgeId) as [->|Hne].
      + rewrite orb_true_r. apply includes_spec.
        rewrite elem_of_app, list_elem_of_singleton. now right.
      + rewrite orb_false_r. now apply includes_snoc_ne. }
  destruct Hu' as (u' & Hrun & Hflags).
  eexists _, _, u'. split; [reflexivity|]. split; [exact Hrun|]. split; [reflexivity|].
  split; [reflexivity|]. split; [|split].
  - intros id def flag Hin. apply list_elem_of_fmap in Hin as (kv & Heq & _).
    injection Heq as -> -> ->. apply includes_spec.
  - rewrite map_map. apply map_ext. intros kv. cbn [fst snd]. now rewrite Hflags.
  - intros Hnone. apply map_ext_in. intros kv Hkv. cbn [fst snd].
    rewrite Hflags.
    destruct (String.eqb_spec (fst kv) badgeId) as [Heq|Hne]; [|now rewrite orb_false_r].
    exfalso. subst badgeId. unfold badge_of in Hnone.
    destruct (List.find _ Gamification.badges) eqn:Hfind; [discriminate|].
    apply (find_none _ _ Hfind) in Hkv. now rewrite String.eqb_refl in Hkv.
Qed.

End Table.

Section EmptyStore.

Variable percent : Z -> Z -> Z.
Variable Date_parse : string -> option Z.

(** Without a stored record the operations that update the record do
    nothing: none of them creates it.  The record is created by
    [initializeUserData] and by a confirmed [resetUserData], which store
    the default record, and by [importData], which stores whatever
    parses. *)
Theorem perform_no_record (op : Operation) :
  (op <> InitializeUserData -> perform percent Date_parse op None = (tt, None))
  /\ initializeUserData None = (defaultUserData, Some defaultUserData)
  /\ perform percent Date_parse InitializeUserData None = (tt, Some defaultUserData)
  /\ resetUserData true None = (tt, Some defaultUserData)
  /\ resetUserData false None = (tt, None)
  /\ (forall (JSON_parse : string -> option Json.json) jsonData userData,
        JSON_parse jsonData = Some userData ->
        RawStorage.importData JSON_parse jsonData None
          = (RawStorage.PageReloaded, Some userData)).
Proof.
  split; [|split; [reflexivity|split; [reflexivity|split; [reflexivity|split;
          [reflexivity|]]]]].
  - intros Hop. destruct op; try reflexivity; [contradiction|].
    cbn [perform]. unfold discard.
    destruct (getResults_none percent Date_parse streakDay historyDay now q)
      as (res & Hrun & _).
    now rewrite (bind_run _ _ _ _ _ Hrun).
  - intros JSON_parse jsonData userData Hparsed. unfold RawStorage.importData.
    now rewrite Hparsed.
Qed.

End EmptyStore.
